(** * Cloud Insight reports: statistics, resampling, axis policy, orchestration

    A shallow embedding of the numerical core of the report generator
    ([modules/reports/data_processor.py], [date_range_report.py],
    [modules/reports/visualizer.py], [scheduled_reports.py]).

    Modelling conventions.
    - A float64 value of the metric series is an exact rational ([Q]);
      rounding is not modelled.  The non-finite floats that the code can
      produce (NaN from an empty aggregate, [float('inf')]) are explicit
      constructors of [fl].
    - A timestamp is an integer number of milliseconds ([Z]); a naive local
      [datetime] is the number of milliseconds since the local epoch, a
      [date] is a day number.  [datetime.fromtimestamp] adds the fixed UTC
      offset of the machine, which is a parameter.
    - A pandas [DataFrame] is the list of its rows; a [Series] is a list of
      values. *)

From Stdlib Require Import String Ascii.
From Stdlib Require Import ZArith QArith Qround Qminmax Qabs.
From Stdlib Require Import List Bool Arith Lia Lqa.
From Stdlib Require Import Sorting.Sorted Sorting.Permutation.
From Equations Require Import Equations.
Import ListNotations.

Set Implicit Arguments.
Open Scope Q_scope.

(** ** Floats *)

(** A float as the code can observe it: a finite number, an infinity, or
    NaN. *)
Inductive fl : Type :=
| Num (q : Q)
| PInf
| NInf
| NaN.

(** [a <= b] on floats; every comparison with NaN is false. *)
Definition fl_le (a b : fl) : Prop :=
  match a, b with
  | Num x, Num y => x <= y
  | NInf, (Num _ | PInf | NInf) => True
  | Num _, PInf => True
  | PInf, PInf => True
  | _, _ => False
  end.

(** [a == b] on floats (Python's [==]); NaN equals nothing. *)
Definition fl_eq (a b : fl) : Prop :=
  match a, b with
  | Num x, Num y => x == y
  | PInf, PInf => True
  | NInf, NInf => True
  | _, _ => False
  end.

(** ** pandas Series reductions *)

Module Series.

(** Ascending sort of the values, as [quantile] and [median] see them. *)
Fixpoint insert (x : Q) (l : list Q) : list Q :=
  match l with
  | [] => [x]
  | y :: t => if Qle_bool x y then x :: y :: t else y :: insert x t
  end.

Fixpoint sort (l : list Q) : list Q :=
  match l with
  | [] => []
  | x :: t => insert x (sort t)
  end.

Definition sum (l : list Q) : Q := fold_right Qplus 0 l.

Definition count (l : list Q) : Q := inject_Z (Z.of_nat (length l)).

(** [Series.min()]: NaN on an empty series. *)
Definition min (l : list Q) : fl :=
  match l with
  | [] => NaN
  | x :: t => Num (fold_left Qmin t x)
  end.

(** [Series.max()]. *)
Definition max (l : list Q) : fl :=
  match l with
  | [] => NaN
  | x :: t => Num (fold_left Qmax t x)
  end.

(** [Series.mean()], as the exact quotient of the sum by the count.  The
    float64 mean is this value rounded, and the rounding can carry it past
    the smallest or the largest element (three times 0.1 average to
    0.10000000000000002).  The statements below therefore do not bound a
    mean by the smallest and the largest of the values it averages; the
    series of equal values of the Y-axis example is made of 5s, whose
    float mean is exact. *)
Definition mean (l : list Q) : fl :=
  match l with
  | [] => NaN
  | _ => Num (sum l / count l)
  end.

(** [Series.median()]: the middle value of the sorted series, or the
    mean of the two middle values when the length is even. *)
Definition median (l : list Q) : fl :=
  match l with
  | [] => NaN
  | _ =>
      let s := sort l in
      let n := length s in
      if Nat.even n
      then Num ((nth (n / 2 - 1) s 0 + nth (n / 2) s 0) / 2)
      else Num (nth (n / 2) s 0)
  end.

(** Linear interpolation in a sorted sequence [s] at the virtual index
    [pos]: [s[lo] + (s[hi] - s[lo]) * (pos - lo)] with [lo = floor pos]
    and [hi = lo + 1] clipped to the last index. *)
Definition lerp_at (s : list Q) (pos : Q) : Q :=
  let lo := Z.to_nat (Qfloor pos) in
  let hi := Nat.min (S lo) (length s - 1) in
  let g := pos - inject_Z (Qfloor pos) in
  nth lo s 0 + (nth hi s 0 - nth lo s 0) * g.

(** [Series.quantile(q)] with the default linear interpolation: the
    virtual index is [q * (n - 1)]. *)
Definition quantile (q : Q) (l : list Q) : fl :=
  match l with
  | [] => NaN
  | _ =>
      let s := sort l in
      Num (lerp_at s (q * (count s - 1)))
  end.

(** The square of [Series.std()] (sample variance, [n - 1] in the
    denominator); NaN when there are fewer than two values.  The
    standard deviation itself is its square root and is not rational. *)
Definition std_squared (l : list Q) : fl :=
  match l with
  | [] | [_] => NaN
  | _ =>
      let m := sum l / count l in
      Num (sum (map (fun x => (x - m) * (x - m)) l) / (count l - 1))
  end.

(** A sequence in ascending order, read by index. *)
Definition ascending (s : list Q) : Prop :=
  forall i j, (i <= j)%nat -> (j < length s)%nat -> nth i s 0 <= nth j s 0.

End Series.


(** ** Float arithmetic used on aggregates

    The aggregates of a series of rationals are finite or NaN, so these
    operations only meet [Num] and [NaN]; anything else propagates as NaN. *)

Definition fl_sub (a b : fl) : fl :=
  match a, b with Num x, Num y => Num (x - y) | _, _ => NaN end.

Definition fl_mul (a b : fl) : fl :=
  match a, b with Num x, Num y => Num (x * y) | _, _ => NaN end.

Definition fl_div (a b : fl) : fl :=
  match a, b with Num x, Num y => Num (x / y) | _, _ => NaN end.

(** Python's [a != 0]: true for NaN and for the infinities. *)
Definition fl_nonzero (a : fl) : bool :=
  match a with Num x => negb (Qeq_bool x 0) | _ => true end.

(** Strict comparison of rationals as a boolean. *)
Definition Qlt_bool (x y : Q) : bool := negb (Qle_bool y x).

(** ** modules/reports/data_processor.py *)

Module DataProcessor.

Definition ms_per_hour : Z := 3600000.
Definition ms_per_day : Z := 86400000.

(** [datetime.fromtimestamp(x/1000)]: local wall-clock time of a
    millisecond timestamp, for a machine [utc_offset] milliseconds east
    of UTC. *)
Definition fromtimestamp (utc_offset : Z) (x : Z) : Z := (x + utc_offset)%Z.

(** [.date()], [.hour] and [.day_name()] of a naive datetime. *)
Definition date_of (dt : Z) : Z := (dt / ms_per_day)%Z.
Definition hour_of (dt : Z) : Z := ((dt mod ms_per_day) / ms_per_hour)%Z.

Definition day_name (dt : Z) : string :=
  match ((date_of dt + 3) mod 7)%Z with
  | 0%Z => "Monday" | 1%Z => "Tuesday" | 2%Z => "Wednesday"
  | 3%Z => "Thursday" | 4%Z => "Friday" | 5%Z => "Saturday"
  | _ => "Sunday"
  end%string.

(** The API answer for one metric: [{'metric': ..., 'dps': [[ts, v], ...]}]. *)
Record metric_data : Type := MetricData {
  metric : string;
  dps : list (Z * Q)
}.

(** One row of the data frame built by [process_metric_data]. *)
Record row : Type := Row {
  timestamp : Z;
  value : Q;
  datetime : Z;
  date : Z;
  hour : Z;
  day_of_week : string
}.

Definition dataframe : Type := list row.

Definition mk_row (utc_offset : Z) (p : Z * Q) : row :=
  let dt := fromtimestamp utc_offset (fst p) in
  {| timestamp := fst p; value := snd p; datetime := dt;
     date := date_of dt; hour := hour_of dt; day_of_week := day_name dt |}.

(** [process_metric_data]: [None] when there are no data points. *)
Definition process_metric_data (utc_offset : Z) (m : metric_data)
  : option dataframe :=
  match dps m with
  | [] => None
  | pts => Some (map (mk_row utc_offset) pts)
  end.

Definition values (df : dataframe) : list Q := map value df.

(** [df['datetime'].min()] and [.max()] of a frame with first row [r]. *)
Definition datetime_min (r : row) (rs : dataframe) : Z :=
  fold_left Z.min (map datetime rs) (datetime r).
Definition datetime_max (r : row) (rs : dataframe) : Z :=
  fold_left Z.max (map datetime rs) (datetime r).

(** [df.groupby(key)['value'].mean().to_dict()]; the order of the keys
    of the resulting dict is not significant. *)
Definition groupby_mean {K : Type} (eq_dec : forall a b : K, {a = b} + {a <> b})
  (key : row -> K) (df : dataframe) : list (K * fl) :=
  map (fun k =>
         (k, Series.mean
               (values (filter (fun r => if eq_dec (key r) k then true else false) df))))
      (nodup eq_dec (map key df)).

Definition percentiles : list Z := [10; 25; 75; 90; 95; 99]%Z.

Record statistics : Type := Statistics {
  count : nat;
  min : fl;
  max : fl;
  mean : fl;
  median : fl;
  std_squared : fl;
  first_time : Z;
  last_time : Z;
  percentile_table : list (Z * fl);
  daily_avg : list (Z * fl);
  hourly_avg : list (Z * fl);
  day_of_week_avg : list (string * fl)
}.

(** [stats[f'percentile_{p}']]; a missing key reads as NaN here. *)
Definition percentile (p : Z) (st : statistics) : fl :=
  match find (fun e => Z.eqb (fst e) p) (percentile_table st) with
  | Some e => snd e
  | None => NaN
  end.

Definition calculate_statistics (df : dataframe) : option statistics :=
  match df with
  | [] => None
  | r :: rs =>
      let v := values df in
      Some {|
        count := length df;
        min := Series.min v;
        max := Series.max v;
        mean := Series.mean v;
        median := Series.median v;
        std_squared := Series.std_squared v;
        first_time := datetime_min r rs;
        last_time := datetime_max r rs;
        percentile_table :=
          map (fun p => (p, Series.quantile (inject_Z p / 100) v)) percentiles;
        daily_avg := groupby_mean Z.eq_dec date df;
        hourly_avg := groupby_mean Z.eq_dec hour df;
        day_of_week_avg := groupby_mean string_dec day_of_week df
      |}
  end.

Record anomalies : Type := Anomalies {
  warning : list row;
  critical : list row;
  outliers : list row
}.

(** [df[df['value'] >= threshold]] when the threshold is given. *)
Definition threshold_points (threshold : option Q) (df : dataframe) : list row :=
  match threshold with
  | Some t => filter (fun r => Qle_bool t (value r)) df
  | None => []
  end.

(** [df[(df['value'] < lower) | (df['value'] > upper)]]. *)
Definition outside (lower upper : Q) (df : dataframe) : list row :=
  filter (fun r => Qlt_bool (value r) lower || Qlt_bool upper (value r)) df.

Definition detect_anomalies (df : dataframe)
  (threshold_warning threshold_critical : option Q) : option anomalies :=
  match df with
  | [] => None
  | _ =>
      let q1 := Series.quantile (25 # 100) (values df) in
      let q3 := Series.quantile (75 # 100) (values df) in
      Some {|
        warning := threshold_points threshold_warning df;
        critical := threshold_points threshold_critical df;
        outliers :=
          match q1, q3 with
          | Num q1, Num q3 =>
              let iqr := q3 - q1 in
              let lower_bound := q1 - (15 # 10) * iqr in
              let upper_bound := q3 + (15 # 10) * iqr in
              outside lower_bound upper_bound df
          | _, _ => []
          end
      |}
  end.

Record period_stats : Type := PeriodStats {
  p_mean : fl;
  p_max : fl;
  p_min : fl;
  p_std_squared : fl;
  p_start_date : option Z;
  p_end_date : option Z;
  p_count : nat
}.

Definition period_statistics (p : dataframe) : period_stats :=
  {| p_mean := Series.mean (values p);
     p_max := Series.max (values p);
     p_min := Series.min (values p);
     p_std_squared := Series.std_squared (values p);
     p_start_date :=
       match p with [] => None | r :: rs => Some (date_of (datetime_min r rs)) end;
     p_end_date :=
       match p with [] => None | r :: rs => Some (date_of (datetime_max r rs)) end;
     p_count := length p |}.

(** [((cur - prev) / prev * 100) if prev != 0 else float('inf')]. *)
Definition percent_change (cur prev : fl) : fl :=
  if fl_nonzero prev
  then fl_mul (fl_div (fl_sub cur prev) prev) (Num 100)
  else PInf.

Record changes : Type := Changes {
  mean_change : fl;
  max_change : fl;
  min_change : fl
}.

Record comparison : Type := Comparison {
  current_period : period_stats;
  previous_period : period_stats;
  period_changes : changes
}.

(** [df[df['datetime'].dt.date > mid_date]] and
    [df[df['datetime'].dt.date <= mid_date]]. *)
Definition rows_after (mid_date : Z) (df : dataframe) : dataframe :=
  filter (fun x => (mid_date <? date_of (datetime x))%Z) df.
Definition rows_until (mid_date : Z) (df : dataframe) : dataframe :=
  filter (fun x => (date_of (datetime x) <=? mid_date)%Z) df.

Definition compare_time_periods (df : dataframe) (period_days : Z)
  : option comparison :=
  match df with
  | [] => None
  | r :: rs =>
      let min_date := date_of (datetime_min r rs) in
      let max_date := date_of (datetime_max r rs) in
      let date_range := (max_date - min_date)%Z in
      if (date_range <? period_days * 2)%Z then None
      else
        let mid_date := (max_date - period_days)%Z in
        let current := rows_after mid_date df in
        let previous := rows_until mid_date df in
        let current_stats := period_statistics current in
        let previous_stats := period_statistics previous in
        Some {|
          current_period := current_stats;
          previous_period := previous_stats;
          period_changes :=
            {| mean_change := percent_change (p_mean current_stats) (p_mean previous_stats);
               max_change := percent_change (p_max current_stats) (p_max previous_stats);
               min_change := percent_change (p_min current_stats) (p_min previous_stats) |}
        |}
  end.

End DataProcessor.

(** More float operations, for the axis policy. *)

Definition fl_add (a b : fl) : fl :=
  match a, b with Num x, Num y => Num (x + y) | _, _ => NaN end.

(** [a < b]; false as soon as one side is NaN. *)
Definition fl_ltb (a b : fl) : bool :=
  match a, b with
  | Num x, Num y => Qlt_bool x y
  | NInf, (Num _ | PInf) => true
  | Num _, PInf => true
  | _, _ => false
  end.

(** [a == b] as a boolean. *)
Definition fl_eqb (a b : fl) : bool :=
  match a, b with
  | Num x, Num y => Qeq_bool x y
  | PInf, PInf => true
  | NInf, NInf => true
  | _, _ => false
  end.

(** Python's built-in [min(a, b)] and [max(a, b)] on two arguments: the
    first argument is kept unless the second is strictly better. *)
Definition py_min (a b : fl) : fl := if fl_ltb b a then b else a.
Definition py_max (a b : fl) : fl := if fl_ltb a b then b else a.

(** ** date_range_report.py *)

Module DateRangeReport.

Import DataProcessor.

(** *** X axis *)

(** The [while current < end_date] loop of [generate_date_ticks]. *)
Equations? ticks_loop (current end_date : Z) (date_list : list Z) : list Z
  by wf (Z.to_nat (end_date - current)) lt :=
  ticks_loop current end_date date_list with Z_lt_dec current end_date := {
    | left _ =>
        let next_date := (current + 7)%Z in
        ticks_loop next_date end_date
          (if (next_date <=? end_date)%Z then date_list ++ [next_date] else date_list)
    | right _ => date_list
  }.
Proof. lia. Qed.

Definition generate_date_ticks (start_date end_date : Z) : list Z :=
  let date_list := ticks_loop start_date end_date [start_date] in
  if existsb (Z.eqb end_date) date_list then date_list
  else date_list ++ [end_date].

(** [ax.set_xlim(start, end + timedelta(days=1))]. *)
Definition x_limits (start_date end_date : Z) : Z * Z :=
  (start_date, (end_date + 1)%Z).

(** [d.day]: the day of the month of the day number [d] in the proleptic
    Gregorian calendar, day 0 being 1970-01-01.  The count starts on a
    first of March, so that the leap day closes the year. *)
Definition day_of_month (d : Z) : Z :=
  let z := (d + 719468)%Z in
  let day_of_era := (z mod 146097)%Z in
  let year_of_era :=
    ((day_of_era - day_of_era / 1460 + day_of_era / 36524 - day_of_era / 146096)
     / 365)%Z in
  let day_of_year :=
    (day_of_era - (365 * year_of_era + year_of_era / 4 - year_of_era / 100))%Z in
  let month := ((5 * day_of_year + 2) / 153)%Z in
  (day_of_year - (153 * month + 2) / 5 + 1)%Z.

(** [days_to_show = [d.day for d in date_ticks]], the argument of
    [mdates.DayLocator(bymonthday=...)]: the locator receives the days of
    the month of the tick dates, not the dates. *)
Definition days_to_show (start_date end_date : Z) : list Z :=
  map day_of_month (generate_date_ticks start_date end_date).

(** *** Resampling *)

(** The pandas offset aliases ['2H'], ['6H'] and ['12H']. *)
Inductive rule : Type := H2 | H6 | H12.

Definition rule_width (f : rule) : Z :=
  match f with
  | H2 => (2 * ms_per_hour)%Z
  | H6 => (6 * ms_per_hour)%Z
  | H12 => (12 * ms_per_hour)%Z
  end.

(** [(df['datetime'].max() - df['datetime'].min()).days + 1]. *)
Definition date_range (r : row) (rs : dataframe) : Z :=
  ((datetime_max r rs - datetime_min r rs) / ms_per_day + 1)%Z.

Definition resample_rule (date_range : Z) : rule :=
  if (date_range <=? 7)%Z then H2
  else if (date_range <=? 31)%Z then H6
  else H12.

(** Left edge of the bin of width [w] that holds [dt].  The widths used
    here divide a day, so the bins, which pandas anchors at the midnight
    before the first point, sit on the multiples of [w]. *)
Definition bucket_start (w dt : Z) : Z := (dt / w * w)%Z.

(** The rows whose datetime falls in [[b, b + w)]. *)
Definition bucket_rows (w b : Z) (df : dataframe) : dataframe :=
  filter (fun x => (b <=? datetime x)%Z && (datetime x <? b + w)%Z) df.

(** [df.set_index('datetime')['value'].resample(rule).mean().reset_index()]:
    one row per bin from the bin of the first point to the bin of the
    last one; the mean of a bin without points is NaN. *)
Definition resample_mean (w : Z) (r : row) (rs : dataframe) : list (Z * fl) :=
  let first := bucket_start w (datetime_min r rs) in
  let last := bucket_start w (datetime_max r rs) in
  map (fun k =>
         let b := (first + Z.of_nat k * w)%Z in
         (b, Series.mean (values (bucket_rows w b (r :: rs)))))
      (seq 0 (S (Z.to_nat ((last - first) / w)))).

Definition resample (df : dataframe) : list (Z * fl) :=
  match df with
  | [] => []
  | r :: rs => resample_mean (rule_width (resample_rule (date_range r rs))) r rs
  end.

(** The values that [min()], [max()] and the plot take from a column:
    NaN entries are skipped. *)
Fixpoint dropna (l : list fl) : list Q :=
  match l with
  | [] => []
  | Num q :: t => q :: dropna t
  | _ :: t => dropna t
  end.

(** The markers drawn by [ax.plot(df_resampled['datetime'],
    df_resampled['value'], '-o')]. *)
Fixpoint plotted (res : list (Z * fl)) : list (Z * Q) :=
  match res with
  | [] => []
  | (b, Num q) :: t => (b, q) :: plotted t
  | _ :: t => plotted t
  end.

(** *** Y axis *)

Definition cpu_name : string := "CPU 사용률".
Definition memory_name : string := "메모리 사용률".

(** The [ax.set_ylim(bottom=..., top=...)] call of the plotting loop. *)
Definition y_limits (unit metric_name : string) (df : dataframe)
  (df_resampled : list (Z * fl)) : fl * fl :=
  if String.eqb unit "%" then
    if String.eqb metric_name cpu_name || String.eqb metric_name memory_name then
      let max_value := Series.max (values df) in
      let y_max := py_min (Num 100) (fl_mul max_value (Num (11 # 10))) in
      (Num 0, y_max)
    else
      (Num 0, Num 100)
  else
    match df_resampled with
    | _ :: _ =>
        let min_value := Series.min (dropna (map snd df_resampled)) in
        let max_value := Series.max (dropna (map snd df_resampled)) in
        let data_range := fl_sub max_value min_value in
        if fl_ltb data_range (Num (1 # 1000)) || fl_eqb min_value max_value then
          if fl_eqb max_value (Num 0) then
            (Num 0, Num 1)
          else
            let margin := py_max (fl_mul max_value (Num (1 # 10))) (Num (1 # 10)) in
            (py_max (Num 0) (fl_sub min_value margin), fl_add max_value margin)
        else
          let margin := fl_mul data_range (Num (1 # 10)) in
          (py_max (Num 0) (fl_sub min_value margin), fl_add max_value margin)
    | [] =>
        let max_value := Series.max (values df) in
        (Num 0, fl_mul max_value (Num (11 # 10)))
    end.

(** One entry of [metrics_info]. *)
Record metric_info : Type := MetricInfo {
  key : string;
  name : option string;
  unit : option string;
  threshold_warning : option Q;
  threshold_critical : option Q
}.

(** [{info.get('key'): info for info in metrics_info}.get(metric_key, {})]:
    the last entry with that key. *)
Definition metrics_info_get (metrics_info : list metric_info) (k : string)
  : option metric_info :=
  find (fun i => String.eqb (key i) k) (rev metrics_info).

Definition metric_name_of (metrics_info : list metric_info) (m : metric_data) : string :=
  match metrics_info_get metrics_info (metric m) with
  | Some {| name := Some n |} => n
  | _ => metric m
  end.

Definition unit_of (metrics_info : list metric_info) (m : metric_data) : string :=
  match metrics_info_get metrics_info (metric m) with
  | Some {| unit := Some u |} => u
  | _ => ""
  end.

(** What one iteration of the plotting loop hands to matplotlib for a
    metric: nothing when the metric has no data points. *)
Record axes : Type := Axes {
  title : string;
  line : list (Z * Q);
  xlim : Z * Z;
  bymonthday : list Z;
  ylim : fl * fl
}.

Definition plot_axes (utc_offset : Z) (metrics_info : list metric_info)
  (start_date end_date : Z) (m : metric_data) : option axes :=
  match dps m with
  | [] => None
  | pts =>
      let df := map (mk_row utc_offset) pts in
      let df_resampled := resample df in
      Some {| title := metric_name_of metrics_info m;
              line := plotted df_resampled;
              xlim := x_limits start_date end_date;
              bymonthday := days_to_show start_date end_date;
              ylim := y_limits (unit_of metrics_info m)
                               (metric_name_of metrics_info m) df df_resampled |}
  end.

End DateRangeReport.

(** ** Dashboard grid

    [create_improved_dashboard] (date_range_report.py) and
    [MetricsVisualizer.create_dashboard] (modules/reports/visualizer.py)
    compute the grid and walk the metrics with the same statements.  They
    differ in the single-cell case: both wrap the lone axes with
    [np.array([axes])], and only date_range_report.py imports numpy. *)

Module Dashboard.

Import DataProcessor.

(** [cols = min(3, num_metrics)] and
    [rows = (num_metrics + cols - 1) // cols]. *)
Definition grid_cols (num_metrics : nat) : nat := Nat.min 3 num_metrics.
Definition grid_rows (num_metrics : nat) : nat :=
  (num_metrics + grid_cols num_metrics - 1) / grid_cols num_metrics.

(** The subplot taken for index [i]: [axes[i // cols, i % cols]] on a
    two-dimensional grid, [axes[i]] on a flattened one. *)
Inductive subplot : Type :=
| Cell (r c : nat)
| Flat (i : nat).

Definition subplot_at (rows cols i : nat) : subplot :=
  if (1 <? rows)%nat && (1 <? cols)%nat then Cell (i / cols) (i mod cols)
  else Flat i.

(** The array [axes] that the loop indexes: two-dimensional, or
    one-dimensional. *)
Inductive axes_array : Type :=
| Grid (rows cols : nat)
| Strip (n : nat).

(** [axes] after [plt.subplots(rows, cols)] and the statements that follow
    it, for [rows] and [cols] of at least 1: the single axes of a 1 by 1
    figure are wrapped into an array of one, [if rows == 1 and cols == 1:
    axes = np.array([axes])]; a single row or column is flattened, [elif
    rows == 1 or cols == 1: axes = axes.flatten()]; otherwise [axes] stays
    the [rows] by [cols] array that [plt.subplots] returns. *)
Definition axes_of (rows cols : nat) : axes_array :=
  if (rows =? 1)%nat && (cols =? 1)%nat then Strip 1
  else if (rows =? 1)%nat || (cols =? 1)%nat then Strip (rows * cols)
  else Grid rows cols.

(** Indexing [a] with [s] gives one axes object: two indices within a
    two-dimensional array, one index within a one-dimensional one.  A
    single index into a two-dimensional array gives a row of axes, and two
    indices into a one-dimensional array raise [IndexError]. *)
Definition subplot_in (a : axes_array) (s : subplot) : Prop :=
  match a, s with
  | Grid rows cols, Cell r c => (r < rows)%nat /\ (c < cols)%nat
  | Strip n, Flat i => (i < n)%nat
  | _, _ => False
  end.

(** The subplot is one axes object of the [axes] of a [rows] by [cols]
    figure. *)
Definition subplot_valid (rows cols : nat) (s : subplot) : Prop :=
  subplot_in (axes_of rows cols) s.

(** What the loop does with one metric. *)
Inductive step : Type :=
| Drawn (s : subplot) (m : metric_data)
| NoData (m : metric_data).

(** [for i, metric_data in enumerate(metrics_data)]: stop at the first
    index that reaches [rows * cols], skip a metric without data points,
    draw the others. *)
Fixpoint layout_loop (rows cols i : nat) (metrics_data : list metric_data)
  : list step :=
  match metrics_data with
  | [] => []
  | m :: rest =>
      if (rows * cols <=? i)%nat then []
      else
        match dps m with
        | [] => NoData m :: layout_loop rows cols (S i) rest
        | _ => Drawn (subplot_at rows cols i) m :: layout_loop rows cols (S i) rest
        end
  end.

(** The step taken for the metric at index [i] when the guard lets it
    through. *)
Definition step_at (rows cols i : nat) (m : metric_data) : step :=
  match dps m with
  | [] => NoData m
  | _ => Drawn (subplot_at rows cols i) m
  end.

(** The layout of [create_improved_dashboard]; [None] when there is no
    metric. *)
Definition create_improved_dashboard_layout (metrics_data : list metric_data)
  : option (list step) :=
  match metrics_data with
  | [] => None
  | _ =>
      let num_metrics := length metrics_data in
      let cols := grid_cols num_metrics in
      let rows := grid_rows num_metrics in
      Some (layout_loop rows cols 0 metrics_data)
  end.

(** [NameError: name '...' is not defined]. *)
Inductive error : Type :=
| NameError (name : string).

(** The layout of [MetricsVisualizer.create_dashboard].  visualizer.py
    never imports numpy, so [axes = np.array([axes])], which runs when
    [rows == 1 and cols == 1], raises [NameError] before the loop. *)
Definition create_dashboard_layout (metrics_data : list metric_data)
  : error + option (list step) :=
  match metrics_data with
  | [] => inr None
  | _ =>
      let num_metrics := length metrics_data in
      let cols := grid_cols num_metrics in
      let rows := grid_rows num_metrics in
      if (rows =? 1)%nat && (cols =? 1)%nat then inl (NameError "np")
      else inr (Some (layout_loop rows cols 0 metrics_data))
  end.

End Dashboard.

(** ** Orchestration: the per-server loops

    The network, the file system and matplotlib are collaborators: each
    call acts on an abstract world and either returns or raises.  The log
    is part of the state, so that what was logged before an exception
    stays logged. *)

Module Orchestrator.

Import DataProcessor.

(** An exception is known by its message, [str(e)]. *)
Definition exn : Type := string.

(** [{'id': ..., 'name': ...}] as read by [server.get]. *)
Record server : Type := Server {
  server_id : option string;
  server_name : option string
}.

Inductive event : Type :=
| ServerIncomplete (s : server)
| ServerStarted (name : string)
| QueryOk (n : nat)
| MetricEmpty (name : string) (metric : string)
| GraphSaved (name : string) (metric : string)
| DashboardDone (name : string)
| ServerDone (name : string)
| NoValidMetrics (name : string)
| QueryFailed (name : string)
| ServerError (name : string) (e : exn)
| CredentialsIncomplete
| NoServers.

Section Monad.

Variable W : Type.

Record state : Type := State {
  world : W;
  log : list event
}.

(** A computation that may raise and that updates the state. *)
Definition M (A : Type) : Type := state -> (exn + A) * state.

Definition ret {A} (a : A) : M A := fun s => (inr a, s).

Definition bind {A B} (m : M A) (k : A -> M B) : M B :=
  fun s =>
    match m s with
    | (inl e, s') => (inl e, s')
    | (inr a, s') => k a s'
    end.

(** [try: m  except Exception as e: h e]. *)
Definition try_except {A} (m : M A) (h : exn -> M A) : M A :=
  fun s =>
    match m s with
    | (inl e, s') => h e s'
    | r => r
    end.

(** [logger.info / warning / error]. *)
Definition logger (e : event) : M unit :=
  fun s => (inr tt, {| world := world s; log := log s ++ [e] |}).

(** A collaborator call. *)
Definition call {A} (f : W -> (exn + A) * W) : M A :=
  fun s =>
    let (r, w) := f (world s) in
    (r, {| world := w; log := log s |}).

(** [for x in l: acc = body(acc, x)]. *)
Fixpoint for_each {A B} (l : list A) (body : B -> A -> M B) (acc : B) : M B :=
  match l with
  | [] => ret acc
  | x :: t => bind (body acc x) (for_each t body)
  end.

End Monad.

Arguments ret {W A} a.
Arguments logger {W} e.

Notation "x <- m ;; k" := (bind m (fun x => k))
  (at level 61, m at next level, right associativity).
Notation "m ;;; k" := (bind m (fun _ => k))
  (at level 61, right associativity).

(** Truth value of [server.get(...)], of an access key, ...: a missing
    or empty string is false. *)
Definition truthy (s : option string) : bool :=
  match s with
  | Some (String _ _) => true
  | _ => false
  end.

Definition get (s : option string) : string :=
  match s with Some x => x | None => "" end.

(** [[m for m in result if m.get('dps')]]. *)
Definition valid_metrics_of (result : list metric_data) : list metric_data :=
  filter (fun m => match dps m with [] => false | _ => true end) result.

(** The loop skeleton that both reports share: incomplete servers are
    skipped; the body of a complete one runs inside [try ... except
    Exception], whose handler only logs. *)
Definition server_iteration {W} (body : string -> nat -> M W nat)
  (success : nat) (srv : server) : M W nat :=
  if negb (truthy (server_id srv) && truthy (server_name srv)) then
    logger (ServerIncomplete srv) ;;; ret success
  else
    let name := get (server_name srv) in
    logger (ServerStarted name) ;;;
    try_except (body name success)
      (fun e => logger (ServerError name e) ;;; ret success).

Definition server_loop {W} (body : string -> nat -> M W nat)
  (servers : list server) : M W nat :=
  for_each servers (server_iteration body) 0%nat.

(** The part of a site's configuration that the reports read. *)
Record site_config : Type := SiteConfig {
  access_key : option string;
  secret_key : option string;
  cw_key : option string;
  servers : list server
}.

(** *** date_range_report.run_date_range_report *)

Section DateRange.

Variable W : Type.
Variable query_multiple_data : string -> W -> (exn + list metric_data) * W.
Variable create_individual_metrics :
  string -> list metric_data -> W -> (exn + list string) * W.
Variable create_improved_dashboard :
  string -> list metric_data -> W -> (exn + option string) * W.

(** The statements inside [try:] for one server. *)
Definition date_range_body (name : string) (server_success : nat) : M W nat :=
  result <- call (query_multiple_data name) ;;
  match result with
  | _ :: _ =>
      logger (QueryOk (length result)) ;;;
      match valid_metrics_of result with
      | (_ :: _) as valid_metrics =>
          metric_files <- call (create_individual_metrics name valid_metrics) ;;
          dashboard_file <- call (create_improved_dashboard name valid_metrics) ;;
          logger (ServerDone name) ;;;
          ret (S server_success)
      | [] =>
          logger (NoValidMetrics name) ;;; ret server_success
      end
  | [] =>
      logger (QueryFailed name) ;;; ret server_success
  end.

(** The servers of one site: the final [server_success] and whether
    the site counts as a success ([server_success > 0]). *)
Definition date_range_servers (servers : list server) : M W nat :=
  server_loop date_range_body servers.

Definition site_success (server_success : nat) : bool :=
  (0 <? server_success)%nat.

(** One iteration of the loop over the sites: the site is skipped on
    incomplete credentials or an empty server list, and counted when
    [server_success > 0]. *)
Definition date_range_site (cfg : site_config) (success_count : nat) : M W nat :=
  if negb (truthy (access_key cfg) && truthy (secret_key cfg) && truthy (cw_key cfg))
  then logger CredentialsIncomplete ;;; ret success_count
  else
    match servers cfg with
    | [] => logger NoServers ;;; ret success_count
    | _ =>
        server_success <- date_range_servers (servers cfg) ;;
        if site_success server_success then ret (S success_count)
        else ret success_count
    end.

End DateRange.

(** *** scheduled_reports.generate_site_report *)

Section Scheduled.

Variable W : Type.
Variable query_multiple_data : string -> W -> (exn + list metric_data) * W.
Variable makedirs : string -> W -> (exn + unit) * W.
Variable plot_and_save : string -> metric_data -> W -> (exn + unit) * W.
Variable create_dashboard :
  string -> list metric_data -> W -> (exn + option string) * W.
Variable write_summary : nat -> nat -> W -> (exn + unit) * W.

(** The [else] branch of the validation loop logs the empty metrics. *)
Definition log_empty_metrics (name : string) (result : list metric_data)
  : M W unit :=
  for_each result
    (fun _ m =>
       match dps m with
       | [] => logger (MetricEmpty name (metric m))
       | _ => ret tt
       end) tt.

Definition scheduled_body (name : string) (success_count : nat) : M W nat :=
  result <- call (query_multiple_data name) ;;
  match result with
  | _ :: _ =>
      logger (QueryOk (length result)) ;;;
      call (makedirs name) ;;;
      log_empty_metrics name result ;;;
      match valid_metrics_of result with
      | (_ :: _) as valid_metrics =>
          for_each valid_metrics
            (fun _ m =>
               call (plot_and_save name m) ;;;
               logger (GraphSaved name (metric m))) tt ;;;
          dashboard <- call (create_dashboard name valid_metrics) ;;
          match dashboard with
          | Some _ => logger (DashboardDone name)
          | None => ret tt
          end ;;;
          logger (ServerDone name) ;;;
          ret (S success_count)
      | [] =>
          logger (NoValidMetrics name) ;;; ret success_count
      end
  | [] =>
      logger (QueryFailed name) ;;; ret success_count
  end.

Definition generate_site_report (site_name : string) (cfg : site_config)
  : M W bool :=
  if negb (truthy (access_key cfg) && truthy (secret_key cfg) && truthy (cw_key cfg))
  then logger CredentialsIncomplete ;;; ret false
  else
    match servers cfg with
    | [] => logger NoServers ;;; ret false
    | _ =>
        call (makedirs site_name) ;;;
        success_count <- server_loop scheduled_body (servers cfg) ;;
        call (write_summary (length (servers cfg)) success_count) ;;;
        ret (0 <? success_count)%nat
    end.

End Scheduled.

(** *** Reading the log *)

(** A server has both an id and a name. *)
Definition complete (srv : server) : bool :=
  truthy (server_id srv) && truthy (server_name srv).

(** The names of the servers that the loop has to process, in order. *)
Definition attempted (servers : list server) : list string :=
  map (fun srv => get (server_name srv)) (filter complete servers).

(** The servers whose processing was started, in order. *)
Definition started (l : list event) : list string :=
  flat_map (fun e => match e with ServerStarted n => [n] | _ => [] end) l.

(** The servers whose processing reached the success path, in order. *)
Definition completed (l : list event) : list string :=
  flat_map (fun e => match e with ServerDone n => [n] | _ => [] end) l.

(** The servers whose iteration came to its end, whatever the way:
    success, no usable data, or the exception handler. *)
Definition ended (l : list event) : list string :=
  flat_map (fun e =>
              match e with
              | ServerDone n | NoValidMetrics n | QueryFailed n | ServerError n _ => [n]
              | _ => []
              end) l.

(** The servers whose iteration ended in the exception handler. *)
Definition failed (l : list event) : list string :=
  flat_map (fun e => match e with ServerError n _ => [n] | _ => [] end) l.

(** [m] leaves the earlier log in place; [P] relates its result to the
    events it adds. *)
Definition appends {W A} (m : M W A) (P : exn + A -> list event -> Prop) : Prop :=
  forall s, exists r w evs,
    m s = (r, {| world := w; log := log s ++ evs |}) /\ P r evs.

(** [m] logs nothing about the start or the end of a server. *)
Definition quiet {W A} (m : M W A) : Prop :=
  appends m (fun _ evs => started evs = [] /\ ended evs = []).

(** The three ways the guarded body of server [name] can go: success
    (count incremented), no usable data, or an exception. *)
Definition body_ok {W} (name : string) (n : nat) (m : M W nat) : Prop :=
  appends m (fun r evs =>
    started evs = [] /\ failed evs = [] /\
    ((r = inr (S n) /\ completed evs = [name] /\ ended evs = [name]) \/
     (r = inr n /\ completed evs = [] /\ ended evs = [name]) \/
     (exists e, r = inl e /\ completed evs = [] /\ ended evs = []))).

(** The guarded body of server [name] goes by the verdict of [process]:
    it leaves the world where [process] leaves it, and it takes the
    success path exactly when the verdict is true. *)
Definition body_follows {W} (process : string -> W -> bool * W) (name : string)
  (n : nat) (m : M W nat) : Prop :=
  forall s, exists r evs,
    m s = (r, {| world := snd (process name (world s)); log := log s ++ evs |}) /\
    started evs = [] /\ failed evs = [] /\
    if fst (process name (world s))
    then r = inr (S n) /\ completed evs = [name] /\ ended evs = [name]
    else (r = inr n /\ completed evs = [] /\ ended evs = [name]) \/
         (exists e, r = inl e /\ completed evs = [] /\ ended evs = []).

End Orchestrator.

(** ** Sample inputs *)

Module Samples.

Import DataProcessor.

Definition day : Z := ms_per_day.

(** UTC+9, the offset of the deployment. *)
Definition kst : Z := (9 * ms_per_hour)%Z.

(** Four points on one day. *)
Definition one_day : dataframe :=
  map (mk_row kst) [(0%Z, 4); (300000%Z, 1); (600000%Z, 3); (900000%Z, 2)].

(** Sixteen days: zero load, then a negative reading on the last day. *)
Definition decline : dataframe :=
  map (mk_row 0) [(0%Z, 0); ((8 * day)%Z, 0); ((15 * day)%Z, -5 # 1)].

(** Sixteen days with growing load. *)
Definition growth : dataframe :=
  map (mk_row 0) [(0%Z, 10); ((8 * day)%Z, 30); ((15 * day)%Z, 40)].

(** Eleven days. *)
Definition short : dataframe :=
  map (mk_row 0) [(0%Z, 10); ((10 * day)%Z, 30)].

(** Two points five hours apart: the bin between them is empty. *)
Definition gap : dataframe :=
  map (mk_row 0) [(0%Z, 10); (300000%Z, 20); ((5 * ms_per_hour)%Z, 7)].

(** A constant series. *)
Definition constant5 : dataframe :=
  map (mk_row kst) [(0%Z, 5); (300000%Z, 5); ((5 * ms_per_hour)%Z, 5)].

(** Metric definitions and API answers. *)
Definition cpu_info : DateRangeReport.metric_info :=
  {| DateRangeReport.key := "avg_cpu_used_rto";
     DateRangeReport.name := Some DateRangeReport.cpu_name;
     DateRangeReport.unit := Some "%"%string;
     DateRangeReport.threshold_warning := Some 70;
     DateRangeReport.threshold_critical := Some 90 |}.

Definition disk_info : DateRangeReport.metric_info :=
  {| DateRangeReport.key := "disk_read";
     DateRangeReport.name := Some "Disk read"%string;
     DateRangeReport.unit := Some "MB"%string;
     DateRangeReport.threshold_warning := None;
     DateRangeReport.threshold_critical := None |}.

Definition cpu_metric : metric_data :=
  {| metric := "avg_cpu_used_rto";
     dps := [(0%Z, 50); (300000%Z, 50); (600000%Z, 50)] |}.

Definition disk_metric : metric_data :=
  {| metric := "disk_read";
     dps := [(0%Z, 5); (300000%Z, 5); ((5 * ms_per_hour)%Z, 5)] |}.

Definition empty_metric : metric_data :=
  {| metric := "mem_usert"; dps := [] |}.

(** Three servers; the metric query of the second one raises. *)
Definition web (n : string) : Orchestrator.server :=
  {| Orchestrator.server_id := Some n; Orchestrator.server_name := Some n |}.

Definition three_servers : list Orchestrator.server :=
  [web "web1"; web "web2"; web "web3"].

Definition flaky_query (name : string) (w : unit)
  : (Orchestrator.exn + list metric_data) * unit :=
  if String.eqb name "web2" then (inl "timeout"%string, w)
  else (inr [cpu_metric; empty_metric], w).

Definition render_ok (name : string) (ms : list metric_data) (w : unit)
  : (Orchestrator.exn + list string) * unit := (inr (map metric ms), w).

Definition dashboard_ok (name : string) (ms : list metric_data) (w : unit)
  : (Orchestrator.exn + option string) * unit := (inr (Some name), w).

Definition unit_ok {A : Type} (_ : A) (w : unit)
  : (Orchestrator.exn + unit) * unit := (inr tt, w).

Definition plot_ok (name : string) (m : metric_data) (w : unit)
  : (Orchestrator.exn + unit) * unit := (inr tt, w).

Definition summary_ok (total succeeded : nat) (w : unit)
  : (Orchestrator.exn + unit) * unit := (inr tt, w).

Definition site : Orchestrator.site_config :=
  {| Orchestrator.access_key := Some "ak"%string;
     Orchestrator.secret_key := Some "sk"%string;
     Orchestrator.cw_key := Some "cw"%string;
     Orchestrator.servers := three_servers |}.

Definition start_state : Orchestrator.state unit :=
  {| Orchestrator.world := tt; Orchestrator.log := [] |}.

(** The state in which the scheduled report of [site] ends. *)
Definition final_state : Orchestrator.state unit :=
  Eval vm_compute in
    snd (Orchestrator.generate_site_report flaky_query unit_ok plot_ok dashboard_ok
           summary_ok "site" site start_state).

End Samples.

(** ** Stated policies

    The formulas of the specification, written independently of the code,
    for comparison with it. *)

Module Stated.

(** The quotient of a finite numerator by zero under the IEEE rules: the
    infinity with the sign of the numerator, NaN for [0/0]. *)
Definition ieee_div_by_zero (numerator : Q) : fl :=
  if Qlt_bool numerator 0 then NInf
  else if Qlt_bool 0 numerator then PInf
  else NaN.

(** Y bounds of a metric whose unit is not a percentage, from the
    smallest and the largest plotted value. *)
Definition generic_bounds (min_value max_value : Q) : Q * Q :=
  if Qlt_bool (max_value - min_value) (1 # 1000) || Qeq_bool min_value max_value then
    if Qeq_bool max_value 0 then (0, 1)
    else
      let margin := Qmax (max_value * (1 # 10)) (1 # 10) in
      (Qmax 0 (min_value - margin), max_value + margin)
  else
    let margin := (max_value - min_value) * (1 # 10) in
    (Qmax 0 (min_value - margin), max_value + margin).

(** The dates [c + 7], [c + 14], ..., [c + 7 n]. *)
Definition weekly (c : Z) (n : nat) : list Z :=
  map (fun k => (c + 7 * Z.of_nat k)%Z) (seq 1 n).

(** *** A server processed successfully

    What it means for a server to be processed successfully, said with
    the calls to the network, the file system and matplotlib alone: no
    counter, no log and no exception handler.  Each function gives the
    verdict for one server and the world that the calls leave behind. *)

Section Processing.

Import DataProcessor Orchestrator.

Variable W : Type.

(** A metric with at least one data point. *)
Definition has_points (m : metric_data) : bool :=
  match dps m with
  | [] => false
  | _ => true
  end.

(** Every call of [f] on the elements of [l], in order, returns; the
    calls stop at the first one that raises. *)
Fixpoint all_return {A : Type} (f : A -> W -> (exn + Datatypes.unit) * W)
  (l : list A) (w : W) : bool * W :=
  match l with
  | [] => (true, w)
  | x :: t =>
      match f x w with
      | (inr _, w1) => all_return f t w1
      | (inl _, w1) => (false, w1)
      end
  end.

(** Date-range report: the fetch returns, at least one metric has data
    points, and the graphs and the dashboard of the metrics that have
    data points are made without an exception. *)
Definition date_range_processed
  (query_multiple_data : string -> W -> (exn + list metric_data) * W)
  (create_individual_metrics : string -> list metric_data -> W -> (exn + list string) * W)
  (create_improved_dashboard :
     string -> list metric_data -> W -> (exn + option string) * W)
  (name : string) (w : W) : bool * W :=
  match query_multiple_data name w with
  | (inl _, w1) => (false, w1)
  | (inr result, w1) =>
      match filter has_points result with
      | [] => (false, w1)
      | valid =>
          match create_individual_metrics name valid w1 with
          | (inl _, w2) => (false, w2)
          | (inr _, w2) =>
              match create_improved_dashboard name valid w2 with
              | (inl _, w3) => (false, w3)
              | (inr _, w3) => (true, w3)
              end
          end
      end
  end.

(** Scheduled report: the fetch returns metrics, the directory of the
    server is made, at least one metric has data points, and the graph of
    each metric that has data points and then their dashboard are made
    without an exception. *)
Definition scheduled_processed
  (query_multiple_data : string -> W -> (exn + list metric_data) * W)
  (makedirs : string -> W -> (exn + Datatypes.unit) * W)
  (plot_and_save : string -> metric_data -> W -> (exn + Datatypes.unit) * W)
  (create_dashboard : string -> list metric_data -> W -> (exn + option string) * W)
  (name : string) (w : W) : bool * W :=
  match query_multiple_data name w with
  | (inl _, w1) => (false, w1)
  | (inr [], w1) => (false, w1)
  | (inr result, w1) =>
      match makedirs name w1 with
      | (inl _, w2) => (false, w2)
      | (inr _, w2) =>
          match filter has_points result with
          | [] => (false, w2)
          | valid =>
              match all_return (plot_and_save name) valid w2 with
              | (false, w3) => (false, w3)
              | (true, w3) =>
                  match create_dashboard name valid w3 with
                  | (inl _, w4) => (false, w4)
                  | (inr _, w4) => (true, w4)
                  end
              end
          end
      end
  end.

(** The servers of [servers] that are processed successfully, in order,
    and the world after the last one.  A server without an id or a name
    is passed over; the calls for a server start in the world that the
    calls for the servers before it left. *)
Fixpoint processed (process : string -> W -> bool * W) (servers : list server) (w : W)
  : list string * W :=
  match servers with
  | [] => ([], w)
  | srv :: t =>
      if truthy (server_id srv) && truthy (server_name srv) then
        let (ok, w1) := process (get (server_name srv)) w in
        let (names, w2) := processed process t w1 in
        (if ok then get (server_name srv) :: names else names, w2)
      else processed process t w
  end.

End Processing.

End Stated.

(** ** Calendar names *)

Module Calendar.

(** The values of [Series.dt.day_name()]. *)
Definition weekday_names : list string :=
  ["Monday"; "Tuesday"; "Wednesday"; "Thursday"; "Friday"; "Saturday"; "Sunday"]%string.

End Calendar.

(** ** Python dictionaries with string keys

    A dict is the list of its items in insertion order; assigning to a key
    that is present replaces the value in place. *)

Module Dict.

Definition dict (V : Type) : Type := list (string * V).

Fixpoint set {V} (k : string) (v : V) (d : dict V) : dict V :=
  match d with
  | [] => [(k, v)]
  | (k', v') :: t =>
      if String.eqb k' k then (k', v) :: t else (k', v') :: set k v t
  end.

Definition get {V} (k : string) (d : dict V) : option V :=
  match find (fun e => String.eqb (fst e) k) d with
  | Some e => Some (snd e)
  | None => None
  end.

Definition keys {V} (d : dict V) : list string := map fst d.

Definition dict_values {V} (d : dict V) : list V := map snd d.

End Dict.

(** ** data_processor.py: the composite analyses *)

Module Analysis.

Import DataProcessor.

(** The ['timestamp_range'] entry of an analysis. *)
Record timestamp_range : Type := TimestampRange {
  range_start : Z;
  range_end : Z;
  duration_hours : Q
}.

Record analysis : Type := MkAnalysis {
  metric_key : string;
  metric_name : string;
  data_points : nat;
  time_range : timestamp_range;
  statistics_of : option statistics;
  anomalies_of : option anomalies;
  period_comparison : option comparison
}.

(** [metric_info.get('name', metric_key) if metric_info else metric_key];
    [None] stands for the empty dict that a missing key gives. *)
Definition info_name (info : option DateRangeReport.metric_info) (metric_key : string)
  : string :=
  match info with
  | Some {| DateRangeReport.name := Some n |} => n
  | _ => metric_key
  end.

Definition info_warning (info : option DateRangeReport.metric_info) : option Q :=
  match info with
  | Some i => DateRangeReport.threshold_warning i
  | None => None
  end.

Definition info_critical (info : option DateRangeReport.metric_info) : option Q :=
  match info with
  | Some i => DateRangeReport.threshold_critical i
  | None => None
  end.

(** [analyze_metric]: [None] when the metric has no data points. *)
Definition analyze_metric (utc_offset : Z) (m : metric_data)
  (info : option DateRangeReport.metric_info) : option analysis :=
  match process_metric_data utc_offset m with
  | None | Some [] => None
  | Some ((r :: rs) as df) =>
      Some {|
        metric_key := metric m;
        metric_name := info_name info (metric m);
        data_points := length df;
        time_range :=
          {| range_start := datetime_min r rs;
             range_end := datetime_max r rs;
             duration_hours :=
               inject_Z (datetime_max r rs - datetime_min r rs) / inject_Z ms_per_hour |};
        statistics_of := calculate_statistics df;
        anomalies_of := detect_anomalies df (info_warning info) (info_critical info);
        period_comparison := compare_time_periods df 7
      |}
  end.

(** The loop of [analyze_multiple_metrics]: a metric whose analysis exists
    is stored under its key. *)
Definition analyze_step (utc_offset : Z) (metrics_info : list DateRangeReport.metric_info)
  (results : Dict.dict analysis) (m : metric_data) : Dict.dict analysis :=
  match analyze_metric utc_offset m
          (DateRangeReport.metrics_info_get metrics_info (metric m)) with
  | Some a => Dict.set (metric m) a results
  | None => results
  end.

(** [analyze_multiple_metrics]: [None] when there is no metric at all. *)
Definition analyze_multiple_metrics (utc_offset : Z) (metrics_data : list metric_data)
  (metrics_info : list DateRangeReport.metric_info) : option (Dict.dict analysis) :=
  match metrics_data with
  | [] => None
  | _ => Some (fold_left (analyze_step utc_offset metrics_info) metrics_data [])
  end.

End Analysis.

(** ** date_range_report.py: the query window *)

Module Window.

Import DataProcessor.

(** [int(dt.timestamp() * 1000)] of a naive local datetime, the inverse
    of [fromtimestamp]. *)
Definition timestamp_ms (utc_offset dt : Z) : Z := (dt - utc_offset)%Z.

(** [replace(hour=23, minute=59, second=59)] on a midnight. *)
Definition last_second : Z := ((23 * 3600 + 59 * 60 + 59) * 1000)%Z.

(** [get_custom_timestamps], from the two dates that [strptime] reads out
    of the [YYYYMMDD] strings. *)
Definition get_custom_timestamps (utc_offset start_date end_date : Z) : Z * Z :=
  (timestamp_ms utc_offset (start_date * ms_per_day),
   timestamp_ms utc_offset (end_date * ms_per_day + last_second)).

End Window.

(** ** Dashboard grid: the cells left over *)

Module Leftover.

Import Dashboard.

(** [for i in range(num_metrics, rows * cols): fig.delaxes(...)]: the
    subplots removed after the metrics have been drawn. *)
Definition removed_subplots (num_metrics : nat) : list subplot :=
  let cols := grid_cols num_metrics in
  let rows := grid_rows num_metrics in
  map (subplot_at rows cols) (seq num_metrics (rows * cols - num_metrics)).

End Leftover.

(** ** date_range_report.py: the loop over the sites *)

Module Sites.

Import DataProcessor Orchestrator.

(** [{site_name: sites[site_name]} if site_name and site_name in sites
    else sites]: the sites that a run goes through. *)
Definition target_sites (sites : Dict.dict site_config) (site_name : option string)
  : Dict.dict site_config :=
  match site_name with
  | Some n =>
      if truthy site_name then
        match Dict.get n sites with
        | Some cfg => [(n, cfg)]
        | None => sites
        end
      else sites
  | None => sites
  end.

(** A site whose credentials are complete. *)
Definition has_credentials (cfg : site_config) : bool :=
  truthy (access_key cfg) && truthy (secret_key cfg) && truthy (cw_key cfg).

Section Run.

Variable W : Type.
Variable query_multiple_data : string -> W -> (exn + list metric_data) * W.
Variable create_individual_metrics :
  string -> list metric_data -> W -> (exn + list string) * W.
Variable create_improved_dashboard :
  string -> list metric_data -> W -> (exn + option string) * W.

(** [for site_name, site_config in target_sites.items(): ...] with its
    [success_count]. *)
Definition run_date_range_sites (sites : Dict.dict site_config)
  (site_name : option string) : M W nat :=
  for_each (target_sites sites site_name)
    (fun success_count site =>
       date_range_site query_multiple_data create_individual_metrics
         create_improved_dashboard (snd site) success_count)
    0%nat.

End Run.

(** The servers that a run has to start, site after site. *)
Definition attempted_in (targets : Dict.dict site_config) : list string :=
  flat_map (fun site =>
              if has_credentials (snd site) then attempted (servers (snd site)) else [])
           targets.

End Sites.

(** ** File names *)

Module Names.

Local Open Scope string_scope.

(** Python's [s.replace(' ', '_')].  A string is its UTF-8 bytes; the byte
    of the space occurs in no multi-byte character. *)
Fixpoint replace_space (s : string) : string :=
  match s with
  | EmptyString => EmptyString
  | String c t => String (if Ascii.eqb c " " then "_"%char else c) (replace_space t)
  end.

(** The characters of a string. *)
Fixpoint chars (s : string) : list ascii :=
  match s with
  | EmptyString => []
  | String c t => c :: chars t
  end.

(** [f"{metric_key}_{start_date}_to_{end_date}.png"], the graph of one
    metric in [create_individual_metrics]. *)
Definition metric_filename (metric_key start_date end_date : string) : string :=
  metric_key ++ "_" ++ start_date ++ "_to_" ++ end_date ++ ".png".

(** [f"{server_name.replace(' ', '_')}_dashboard_{start_date}_to_{end_date}.png"]
    in [create_improved_dashboard]. *)
Definition dashboard_filename (server_name start_date end_date : string) : string :=
  replace_space server_name ++ "_dashboard_" ++ start_date ++ "_to_" ++ end_date ++ ".png".

(** [f"{server_name.replace(' ', '_')}_{metric_name.replace(' ', '_')}.png"]
    in [MetricsVisualizer.save_metric_plot]. *)
Definition plot_filename (server_name metric_name : string) : string :=
  replace_space server_name ++ "_" ++ replace_space metric_name ++ ".png".

End Names.

(** ** pdf_generator.py: the conclusion of a server report *)

Module Conclusion.

Import DataProcessor Analysis.

(** The three sentences that close the report. *)
Inductive verdict : Type :=
| CriticalFound
| WarningFound
| AllNormal.

(** The loop over [metrics_analysis.values()] that raises the two flags
    [(warnings_detected, critical_detected)]. *)
Definition scan (flags : bool * bool) (a : analysis) : bool * bool :=
  match anomalies_of a with
  | Some an =>
      ((match warning an with [] => fst flags | _ => true end),
       (match critical an with [] => snd flags | _ => true end))
  | None => flags
  end.

(** An analysis with a non-empty warning, or critical, list. *)
Definition has_warning (a : analysis) : bool :=
  match anomalies_of a with
  | Some an => match warning an with [] => false | _ => true end
  | None => false
  end.

Definition has_critical (a : analysis) : bool :=
  match anomalies_of a with
  | Some an => match critical an with [] => false | _ => true end
  | None => false
  end.

(** A metric with a configured threshold and a data point at or above
    it. *)
Definition reaches (threshold : option Q) (m : metric_data) : Prop :=
  exists c p, threshold = Some c /\ In p (dps m) /\ c <= snd p.

Definition conclude (metrics_analysis : Dict.dict analysis) : verdict :=
  let (warnings_detected, critical_detected) :=
    fold_left scan (Dict.dict_values metrics_analysis) (false, false) in
  if critical_detected then CriticalFound
  else if warnings_detected then WarningFound
  else AllNormal.

End Conclusion.

(** ** Further sample inputs *)

Module Sites2.

(** A site whose secret key is missing. *)
Definition no_secret : Orchestrator.site_config :=
  {| Orchestrator.access_key := Some "ak"%string;
     Orchestrator.secret_key := None;
     Orchestrator.cw_key := Some "cw"%string;
     Orchestrator.servers := Samples.three_servers |}.

(** The configured sites, in the order of the file. *)
Definition two_sites : Dict.dict Orchestrator.site_config :=
  [("alpha"%string, no_secret); ("beta"%string, Samples.site)].

End Sites2.

(** * Properties *)

(** ** Sorting and reductions *)

Section SeriesFacts.

Import Series.

Lemma insert_length x l : length (insert x l) = S (length l).
Proof.
  induction l as [|y t IH]; simpl; [reflexivity|].
  destruct (Qle_bool x y); simpl; congruence.
Qed.

Lemma sort_length l : length (sort l) = length l.
Proof.
  induction l as [|x t IH]; simpl; [reflexivity|].
  rewrite insert_length. congruence.
Qed.

Lemma insert_In x a l : In x (insert a l) <-> x = a \/ In x l.
Proof.
  induction l as [|y t IH]; simpl.
  - intuition.
  - destruct (Qle_bool a y); simpl; rewrite ?IH; intuition.
Qed.

Lemma sort_In x l : In x (sort l) <-> In x l.
Proof.
  induction l as [|a t IH]; simpl; [tauto|].
  rewrite insert_In, IH. intuition.
Qed.

Lemma insert_sorted x l :
  StronglySorted Qle l -> StronglySorted Qle (insert x l).
Proof.
  induction 1 as [|y t Ht IH Hy]; simpl.
  - constructor; constructor.
  - destruct (Qle_bool x y) eqn:E.
    + apply Qle_bool_iff in E.
      constructor; [constructor; assumption|].
      constructor; [assumption|].
      rewrite Forall_forall in *. intros z Hz.
      apply Qle_trans with y; auto.
    + assert (y <= x).
      { destruct (Qlt_le_dec y x) as [L|L]; [apply Qlt_le_weak, L|].
        apply Qle_bool_iff in L. congruence. }
      constructor; [assumption|].
      rewrite Forall_forall in *. intros z Hz.
      apply insert_In in Hz. destruct Hz as [->|Hz]; auto.
Qed.

Lemma sort_sorted l : StronglySorted Qle (sort l).
Proof.
  induction l; simpl; [constructor | apply insert_sorted; assumption].
Qed.

Lemma sorted_ascending s : StronglySorted Qle s -> ascending s.
Proof.
  induction 1 as [|x t Ht IH Hx]; intros i j Hij Hj; simpl in *; [lia|].
  destruct i as [|i], j as [|j]; try lia.
  - apply Qle_refl.
  - rewrite Forall_forall in Hx. apply Hx, nth_In. lia.
  - apply IH; lia.
Qed.

Lemma sort_ascending l : ascending (sort l).
Proof. apply sorted_ascending, sort_sorted. Qed.

Lemma fold_min_le t : forall x y, In y (x :: t) -> fold_left Qmin t x <= y.
Proof.
  induction t as [|a t IH]; simpl; intros x y H.
  - destruct H as [->|[]]. apply Qle_refl.
  - destruct H as [->|[->|H]].
    + apply Qle_trans with (Qmin y a); [apply IH; left; reflexivity|apply Q.le_min_l].
    + apply Qle_trans with (Qmin x y); [apply IH; left; reflexivity|apply Q.le_min_r].
    + apply IH. right. assumption.
Qed.

Lemma fold_max_ge t : forall x y, In y (x :: t) -> y <= fold_left Qmax t x.
Proof.
  induction t as [|a t IH]; simpl; intros x y H.
  - destruct H as [->|[]]. apply Qle_refl.
  - destruct H as [->|[->|H]].
    + apply Qle_trans with (Qmax y a); [apply Q.le_max_l|apply IH; left; reflexivity].
    + apply Qle_trans with (Qmax x y); [apply Q.le_max_r|apply IH; left; reflexivity].
    + apply IH. right. assumption.
Qed.

Lemma fold_max_in (t : list Q) : forall x, In (fold_left Qmax t x) (x :: t).
Proof.
  induction t as [|a t IH]; intros x; simpl; [left; reflexivity|].
  destruct (IH (Qmax x a)) as [H|H]; [|right; right; exact H].
  rewrite <- H. unfold Qmax, GenericMinMax.gmax.
  destruct (x ?= a); auto.
Qed.

Lemma fold_min_in (t : list Q) : forall x, In (fold_left Qmin t x) (x :: t).
Proof.
  induction t as [|a t IH]; intros x; simpl; [left; reflexivity|].
  destruct (IH (Qmin x a)) as [H|H]; [|right; right; exact H].
  rewrite <- H. unfold Qmin, GenericMinMax.gmin.
  destruct (x ?= a); auto.
Qed.

Lemma Qfloor_unique (x : Q) (z : Z) :
  inject_Z z <= x -> x < inject_Z (z + 1) -> Qfloor x = z.
Proof.
  intros Hlo Hhi.
  assert (z <= Qfloor x)%Z.
  { rewrite <- (Qfloor_Z z). apply Qfloor_resp_le. assumption. }
  assert (Qfloor x < z + 1)%Z.
  { rewrite Zlt_Qlt. apply Qle_lt_trans with x; [apply Qfloor_le|assumption]. }
  lia.
Qed.

Lemma Qfloor_frac (x : Q) :
  0 <= x - inject_Z (Qfloor x) /\ x - inject_Z (Qfloor x) < 1.
Proof.
  pose proof (Qfloor_le x). pose proof (Qlt_floor x).
  rewrite inject_Z_plus in *. change (inject_Z 1) with 1 in *. split; lra.
Qed.

Lemma Qfloor_index (n : nat) (pos : Q) :
  0 <= pos -> pos <= inject_Z (Z.of_nat n) - 1 ->
  (0 <= Qfloor pos)%Z /\ (Z.to_nat (Qfloor pos) <= n - 1)%nat /\ (0 < n)%nat.
Proof.
  intros H0 Hn.
  assert (A : (0 <= Qfloor pos)%Z).
  { change 0%Z with (Qfloor 0). apply Qfloor_resp_le. assumption. }
  assert (B : (Qfloor pos <= Z.of_nat n - 1)%Z).
  { rewrite <- (Qfloor_Z (Z.of_nat n - 1)). apply Qfloor_resp_le.
    unfold Z.sub. rewrite inject_Z_plus. exact Hn. }
  repeat split; lia.
Qed.

Lemma interp_between (a b g : Q) :
  a <= b -> 0 <= g -> g <= 1 -> a <= a + (b - a) * g /\ a + (b - a) * g <= b.
Proof.
  intros Hab Hg0 Hg1.
  assert (0 <= (b - a) * g) by (apply Qmult_le_0_compat; lra).
  assert (0 <= (b - a) * (1 - g)) by (apply Qmult_le_0_compat; lra).
  split; lra.
Qed.

Lemma interp_mono (a b g1 g2 : Q) :
  a <= b -> g1 <= g2 -> a + (b - a) * g1 <= a + (b - a) * g2.
Proof.
  intros Hab Hg.
  assert (0 <= (b - a) * (g2 - g1)) by (apply Qmult_le_0_compat; lra).
  lra.
Qed.

Lemma lerp_bounds s pos :
  ascending s -> 0 <= pos -> pos <= count s - 1 ->
  nth (Z.to_nat (Qfloor pos)) s 0 <= lerp_at s pos /\
  lerp_at s pos <= nth (Nat.min (S (Z.to_nat (Qfloor pos))) (length s - 1)) s 0.
Proof.
  intros Hs H0 Hn. unfold lerp_at, count in *.
  destruct (Qfloor_index _ H0 Hn) as (A & B & C).
  destruct (Qfloor_frac pos) as [G0 G1].
  apply interp_between; [apply Hs; lia | assumption | lra].
Qed.

Lemma lerp_mono s p1 p2 :
  ascending s -> 0 <= p1 -> p1 <= p2 -> p2 <= count s - 1 ->
  lerp_at s p1 <= lerp_at s p2.
Proof.
  intros Hs H0 H12 Hn.
  assert (H1n : p1 <= count s - 1) by lra.
  assert (H02 : 0 <= p2) by lra.
  destruct (lerp_bounds Hs H0 H1n) as [_ U1].
  destruct (lerp_bounds Hs H02 Hn) as [L2 _].
  unfold count in *.
  destruct (Qfloor_index _ H0 H1n) as (A1 & B1 & C).
  destruct (Qfloor_index _ H02 Hn) as (A2 & B2 & _).
  pose proof (Qfloor_resp_le _ _ H12) as F.
  destruct (Z.eq_dec (Qfloor p1) (Qfloor p2)) as [E|E].
  - unfold lerp_at. rewrite E.
    apply interp_mono; [apply Hs; lia | lra].
  - apply Qle_trans with (nth (Z.to_nat (Qfloor p2)) s 0); [|exact L2].
    eapply Qle_trans; [exact U1|]. apply Hs; lia.
Qed.

(** Every quantile lies between the smallest and the largest value. *)
Lemma lerp_in_range x t pos :
  0 <= pos -> pos <= count (sort (x :: t)) - 1 ->
  fold_left Qmin t x <= lerp_at (sort (x :: t)) pos /\
  lerp_at (sort (x :: t)) pos <= fold_left Qmax t x.
Proof.
  intros H0 Hn.
  destruct (lerp_bounds (sort_ascending (x :: t)) H0 Hn) as [L U].
  unfold count in *.
  destruct (Qfloor_index _ H0 Hn) as (A & B & C).
  split.
  - eapply Qle_trans; [|exact L].
    apply fold_min_le, sort_In, nth_In. lia.
  - eapply Qle_trans; [exact U|].
    apply fold_max_ge, sort_In, nth_In. lia.
Qed.

(** The median is the quantile of order one half. *)
Lemma median_lerp (s : list Q) :
  (0 < length s)%nat ->
  (if Nat.even (length s)
   then (nth (length s / 2 - 1) s 0 + nth (length s / 2) s 0) / 2
   else nth (length s / 2) s 0)
  == lerp_at s ((1 # 2) * (count s - 1)).
Proof.
  intros Hpos. unfold lerp_at, count.
  set (n := length s) in *.
  destruct (Nat.even n) eqn:Ev.
  - apply Nat.even_spec in Ev. destruct Ev as [k Hk].
    assert (Hk1 : (1 <= k)%nat) by lia.
    assert (F : Qfloor ((1 # 2) * (inject_Z (Z.of_nat n) - 1)) = (Z.of_nat k - 1)%Z).
    { apply Qfloor_unique.
      - unfold Z.sub. rewrite inject_Z_plus. rewrite Hk, Nat2Z.inj_mul, inject_Z_mult.
        change (inject_Z (Z.of_nat 2)) with 2. rewrite inject_Z_opp; change (inject_Z 1) with 1. lra.
      - replace (Z.of_nat k - 1 + 1)%Z with (Z.of_nat k) by lia.
        rewrite Hk, Nat2Z.inj_mul, inject_Z_mult.
        change (inject_Z (Z.of_nat 2)) with 2. lra. }
    rewrite F.
    replace (n / 2)%nat with k by (rewrite Hk, Nat.mul_comm, Nat.div_mul; lia).
    replace (Z.to_nat (Z.of_nat k - 1)) with (k - 1)%nat by lia.
    replace (Nat.min (S (k - 1)) (n - 1)) with k by lia.
    unfold Z.sub. rewrite inject_Z_plus, Hk, Nat2Z.inj_mul, inject_Z_mult.
    change (inject_Z (Z.of_nat 2)) with 2. rewrite inject_Z_opp; change (inject_Z 1) with 1.
    field.
  - assert (Od : Nat.odd n = true) by (rewrite <- Nat.negb_even, Ev; reflexivity).
    apply Nat.odd_spec in Od. destruct Od as [k Hk].
    assert (F : Qfloor ((1 # 2) * (inject_Z (Z.of_nat n) - 1)) = Z.of_nat k).
    { apply Qfloor_unique.
      - rewrite Hk, Nat2Z.inj_add, Nat2Z.inj_mul, inject_Z_plus, inject_Z_mult.
        change (inject_Z (Z.of_nat 2)) with 2. change (inject_Z (Z.of_nat 1)) with 1. lra.
      - rewrite Hk, Nat2Z.inj_add, Nat2Z.inj_mul, !inject_Z_plus, inject_Z_mult.
        change (inject_Z (Z.of_nat 2)) with 2. change (inject_Z (Z.of_nat 1)) with 1.
        change (inject_Z 1) with 1. lra. }
    rewrite F.
    replace (n / 2)%nat with k
      by (rewrite Hk, Nat.add_comm, Nat.mul_comm, Nat.div_add; simpl; lia).
    rewrite Nat2Z.id.
    rewrite Hk, Nat2Z.inj_add, Nat2Z.inj_mul, inject_Z_plus, inject_Z_mult.
    change (inject_Z (Z.of_nat 2)) with 2. change (inject_Z (Z.of_nat 1)) with 1.
    ring.
Qed.

End SeriesFacts.

Section QuantileFacts.

Import Series.

Lemma count_pos x t : 1 <= count (sort (x :: t)).
Proof.
  unfold count. rewrite sort_length. simpl length.
  change 1 with (inject_Z 1). rewrite <- Zle_Qle. lia.
Qed.

Lemma position_bounds (q c : Q) :
  0 <= q -> q <= 1 -> 1 <= c -> 0 <= q * (c - 1) /\ q * (c - 1) <= c - 1.
Proof.
  intros Hq0 Hq1 Hc.
  assert (0 <= q * (c - 1)) by (apply Qmult_le_0_compat; lra).
  assert (0 <= (1 - q) * (c - 1)) by (apply Qmult_le_0_compat; lra).
  split; lra.
Qed.

Lemma position_mono (q1 q2 c : Q) :
  q1 <= q2 -> 1 <= c -> q1 * (c - 1) <= q2 * (c - 1).
Proof.
  intros Hq Hc.
  assert (0 <= (q2 - q1) * (c - 1)) by (apply Qmult_le_0_compat; lra).
  lra.
Qed.

Lemma quantile_mono (q1 q2 : Q) (l : list Q) :
  l <> [] -> 0 <= q1 -> q1 <= q2 -> q2 <= 1 ->
  fl_le (quantile q1 l) (quantile q2 l).
Proof.
  intros Hl H0 H12 H1. destruct l as [|x t]; [congruence|].
  unfold quantile, fl_le.
  pose proof (count_pos x t) as Hc.
  apply lerp_mono.
  - apply sort_ascending.
  - apply position_bounds; lra.
  - apply position_mono; assumption.
  - apply position_bounds; lra.
Qed.

Lemma min_le_quantile (q : Q) (l : list Q) :
  l <> [] -> 0 <= q -> q <= 1 -> fl_le (min l) (quantile q l).
Proof.
  intros Hl H0 H1. destruct l as [|x t]; [congruence|].
  unfold quantile, min, fl_le.
  pose proof (count_pos x t) as Hc.
  apply lerp_in_range; apply position_bounds; lra.
Qed.

Lemma quantile_le_max (q : Q) (l : list Q) :
  l <> [] -> 0 <= q -> q <= 1 -> fl_le (quantile q l) (max l).
Proof.
  intros Hl H0 H1. destruct l as [|x t]; [congruence|].
  unfold quantile, max, fl_le.
  pose proof (count_pos x t) as Hc.
  apply lerp_in_range; apply position_bounds; lra.
Qed.

Lemma median_is_half_quantile (l : list Q) :
  l <> [] -> fl_eq (median l) (quantile (1 # 2) l).
Proof.
  intros Hl. destruct l as [|x t]; [congruence|].
  unfold median, quantile.
  assert (Hp : (0 < length (sort (x :: t)))%nat)
    by (rewrite sort_length; simpl; lia).
  pose proof (median_lerp _ Hp) as M.
  destruct (Nat.even (length (sort (x :: t)))); exact M.
Qed.

Lemma fl_le_eq_l a b c : fl_eq a b -> fl_le b c -> fl_le a c.
Proof.
  destruct a, b, c; simpl; try tauto. intros E L. rewrite E. exact L.
Qed.

Lemma fl_le_eq_r a b c : fl_le a b -> fl_eq c b -> fl_le a c.
Proof.
  destruct a, b, c; simpl; try tauto. intros L E. rewrite E. exact L.
Qed.

End QuantileFacts.

(** Comparison of two closed rationals. *)
Ltac qclosed := apply Qle_bool_iff; vm_compute; reflexivity.

(** ** Statistics *)

Section StatisticsFacts.

Import DataProcessor.

Lemma values_nonempty (df : dataframe) : df <> [] -> values df <> [].
Proof. destruct df; simpl; congruence. Qed.

(** C1. For a non-empty frame [calculate_statistics] returns a summary
    whose percentiles are the linear-interpolation quantiles at [p/100]
    and which is ordered:
    min <= p10 <= p25 <= median <= p75 <= p90 <= p95 <= p99 <= max. *)
Theorem calculate_statistics_ordering (df : dataframe) :
  df <> [] ->
  exists st,
    calculate_statistics df = Some st /\
    (forall p, In p percentiles ->
       percentile p st = Series.quantile (inject_Z p / 100) (values df)) /\
    fl_le (min st) (percentile 10 st) /\
    fl_le (percentile 10 st) (percentile 25 st) /\
    fl_le (percentile 25 st) (median st) /\
    fl_le (median st) (percentile 75 st) /\
    fl_le (percentile 75 st) (percentile 90 st) /\
    fl_le (percentile 90 st) (percentile 95 st) /\
    fl_le (percentile 95 st) (percentile 99 st) /\
    fl_le (percentile 99 st) (max st).
Proof.
  intros Hdf. pose proof (values_nonempty Hdf) as Hv.
  destruct df as [|r rs]; [congruence|].
  eexists. split; [reflexivity|].
  split.
  { intros p Hp. unfold percentiles in Hp. simpl in Hp.
    repeat (destruct Hp as [<-|Hp]; [reflexivity|]). contradiction. }
  unfold percentile. cbn [percentile_table min max median find map percentiles
                           fst snd Z.eqb Pos.eqb].
  repeat split.
  - apply min_le_quantile; [assumption|qclosed..].
  - apply quantile_mono; [assumption|qclosed..].
  - eapply fl_le_eq_r; [|apply median_is_half_quantile; assumption].
    apply quantile_mono; [assumption|qclosed..].
  - eapply fl_le_eq_l; [apply median_is_half_quantile; assumption|].
    apply quantile_mono; [assumption|qclosed..].
  - apply quantile_mono; [assumption|qclosed..].
  - apply quantile_mono; [assumption|qclosed..].
  - apply quantile_mono; [assumption|qclosed..].
  - apply quantile_le_max; [assumption|qclosed..].
Qed.

End StatisticsFacts.

(** ** Anomalies *)

Section AnomalyFacts.

Import DataProcessor.

Lemma Qlt_bool_iff (x y : Q) : Qlt_bool x y = true <-> x < y.
Proof.
  unfold Qlt_bool. rewrite negb_true_iff. split.
  - intros H. apply Qnot_le_lt. intros L. apply Qle_bool_iff in L. congruence.
  - intros H. destruct (Qle_bool y x) eqn:E; [|reflexivity].
    apply Qle_bool_iff in E. exfalso. apply (Qlt_not_le _ _ H E).
Qed.


Lemma outside_spec (lo hi : Q) (df : dataframe) (r : row) :
  In r (outside lo hi df) <-> In r df /\ (value r < lo \/ hi < value r).
Proof.
  unfold outside. rewrite filter_In, orb_true_iff, !Qlt_bool_iff. reflexivity.
Qed.

Lemma quantile_num (q : Q) (l : list Q) :
  l <> [] -> exists v, Series.quantile q l = Num v.
Proof. destruct l; [congruence|]. intros _. eexists. reflexivity. Qed.




End AnomalyFacts.

(** ** Period comparison *)

Section ComparisonFacts.

Import DataProcessor.

Lemma rows_after_spec (mid : Z) (df : dataframe) (x : row) :
  In x (rows_after mid df) <-> In x df /\ (mid < date_of (datetime x))%Z.
Proof. unfold rows_after. rewrite filter_In, Z.ltb_lt. reflexivity. Qed.

Lemma rows_until_spec (mid : Z) (df : dataframe) (x : row) :
  In x (rows_until mid df) <-> In x df /\ (date_of (datetime x) <= mid)%Z.
Proof. unfold rows_until. rewrite filter_In, Z.leb_le. reflexivity. Qed.

Lemma rows_split_length (mid : Z) (df : dataframe) :
  (length (rows_after mid df) + length (rows_until mid df))%nat = length df.
Proof.
  unfold rows_after, rows_until.
  induction df as [|x t IH]; simpl; [reflexivity|].
  destruct (Z.ltb_spec mid (date_of (datetime x)));
    destruct (Z.leb_spec (date_of (datetime x)) mid); simpl; lia.
Qed.

(** C3. For a non-empty frame [compare_time_periods] (in particular with
    the default [period_days = 7]) returns nothing exactly when
    [(max_date - min_date).days < 2 * period_days]; otherwise the current
    period holds the rows dated after [max_date - period_days], the
    previous period the rows dated at or before it, and the two counts
    add up to the number of rows. *)
Theorem compare_time_periods_split (r : row) (rs : dataframe) (period_days : Z) :
  let df := r :: rs in
  let min_date := date_of (datetime_min r rs) in
  let max_date := date_of (datetime_max r rs) in
  let mid_date := (max_date - period_days)%Z in
  (compare_time_periods df period_days = None <->
     (max_date - min_date < 2 * period_days)%Z) /\
  ((2 * period_days <= max_date - min_date)%Z ->
     exists c,
       compare_time_periods df period_days = Some c /\
       current_period c = period_statistics (rows_after mid_date df) /\
       previous_period c = period_statistics (rows_until mid_date df) /\
       (forall x, In x (rows_after mid_date df) <->
                  In x df /\ (mid_date < date_of (datetime x))%Z) /\
       (forall x, In x (rows_until mid_date df) <->
                  In x df /\ (date_of (datetime x) <= mid_date)%Z) /\
       (p_count (current_period c) + p_count (previous_period c))%nat = length df).
Proof.
  intros df min_date max_date mid_date. unfold compare_time_periods, df.
  fold min_date max_date mid_date.
  destruct (Z.ltb_spec (max_date - min_date) (period_days * 2)) as [L|L].
  - split; [split; [lia|reflexivity]|lia].
  - split; [split; [discriminate|lia]|].
    intros _. eexists. split; [reflexivity|]. cbn [current_period previous_period].
    split; [reflexivity|]. split; [reflexivity|].
    split; [intros x; apply rows_after_spec|].
    split; [intros x; apply rows_until_spec|].
    cbn [period_statistics p_count]. apply rows_split_length.
Qed.

Lemma fl_nonzero_num (p : Q) : fl_nonzero (Num p) = false <-> p == 0.
Proof.
  unfold fl_nonzero. rewrite negb_false_iff. apply Qeq_bool_iff.
Qed.

(** C5, as the code has it.  The three changes reported by
    [compare_time_periods] are [percent_change] of the current and the
    previous mean, max and min; [percent_change] is
    [(current - previous) / previous * 100] when the previous value is
    not zero, and positive infinity when it is zero, whatever the sign
    of the numerator. *)
Theorem percent_change_of_periods :
  (forall df period_days c,
      compare_time_periods df period_days = Some c ->
      mean_change (period_changes c)
        = percent_change (p_mean (current_period c)) (p_mean (previous_period c)) /\
      max_change (period_changes c)
        = percent_change (p_max (current_period c)) (p_max (previous_period c)) /\
      min_change (period_changes c)
        = percent_change (p_min (current_period c)) (p_min (previous_period c))) /\
  (forall cur prev : Q,
      ~ prev == 0 ->
      percent_change (Num cur) (Num prev) = Num ((cur - prev) / prev * 100)) /\
  (forall cur prev : Q,
      prev == 0 -> percent_change (Num cur) (Num prev) = PInf).
Proof.
  split; [|split].
  - intros df p c H. unfold compare_time_periods in H.
    destruct df as [|r rs]; [discriminate|].
    destruct (_ <? _)%Z; [discriminate|].
    injection H as <-. cbn. repeat split.
  - intros cur prev Hp. unfold percent_change.
    destruct (fl_nonzero (Num prev)) eqn:E; [reflexivity|].
    apply fl_nonzero_num in E. contradiction.
  - intros cur prev Hp. unfold percent_change.
    apply fl_nonzero_num in Hp. rewrite Hp. reflexivity.
Qed.

(** C5 as stated fails: with a previous mean of zero and a current mean
    of -5 the numerator is negative, the IEEE quotient is negative
    infinity, and the code reports positive infinity. *)
Lemma percent_change_sign_counterexample :
  match compare_time_periods Samples.decline 7 with
  | Some c =>
      fl_eq (p_mean (previous_period c)) (Num 0) /\
      fl_eq (fl_sub (p_mean (current_period c)) (p_mean (previous_period c)))
            (Num (-5 # 1)) /\
      Stated.ieee_div_by_zero (-5 # 1) = NInf /\
      mean_change (period_changes c) = PInf /\
      mean_change (period_changes c) <> Stated.ieee_div_by_zero (-5 # 1)
  | None => False
  end.
Proof.
  vm_compute. repeat split; try reflexivity; discriminate.
Qed.

End ComparisonFacts.

(** ** Resampling *)

Section ResampleFacts.

Import DataProcessor DateRangeReport.

Lemma fold_zmin_spec (l : list Z) : forall x,
  In (fold_left Z.min l x) (x :: l) /\
  forall y, In y (x :: l) -> (fold_left Z.min l x <= y)%Z.
Proof.
  induction l as [|a t IH]; intros x; simpl.
  - split; [left; reflexivity|]. intros y [->|[]]. lia.
  - destruct (IH (Z.min x a)) as [Hin Hle]. split.
    + destruct Hin as [Hin|Hin]; [|right; right; exact Hin].
      rewrite <- Hin. destruct (Z.min_spec x a) as [[_ ->]|[_ ->]]; auto.
    + intros y [->|[->|Hy]].
      * specialize (Hle (Z.min y a) (or_introl eq_refl)). lia.
      * specialize (Hle (Z.min x y) (or_introl eq_refl)). lia.
      * apply Hle. right. exact Hy.
Qed.

Lemma fold_zmax_spec (l : list Z) : forall x,
  In (fold_left Z.max l x) (x :: l) /\
  forall y, In y (x :: l) -> (y <= fold_left Z.max l x)%Z.
Proof.
  induction l as [|a t IH]; intros x; simpl.
  - split; [left; reflexivity|]. intros y [->|[]]. lia.
  - destruct (IH (Z.max x a)) as [Hin Hle]. split.
    + destruct Hin as [Hin|Hin]; [|right; right; exact Hin].
      rewrite <- Hin. destruct (Z.max_spec x a) as [[_ ->]|[_ ->]]; auto.
    + intros y [->|[->|Hy]].
      * specialize (Hle (Z.max y a) (or_introl eq_refl)). lia.
      * specialize (Hle (Z.max x y) (or_introl eq_refl)). lia.
      * apply Hle. right. exact Hy.
Qed.

(** The earliest datetime belongs to some row. *)
Lemma datetime_min_row (r : row) (rs : dataframe) :
  exists x, In x (r :: rs) /\ datetime x = datetime_min r rs.
Proof.
  destruct (fold_zmin_spec (map datetime rs) (datetime r)) as [Hin _].
  change (datetime r :: map datetime rs) with (map datetime (r :: rs)) in Hin.
  apply in_map_iff in Hin. destruct Hin as (x & E & Hx). exists x. split; assumption.
Qed.

Lemma datetime_min_le_max (r : row) (rs : dataframe) :
  (datetime_min r rs <= datetime_max r rs)%Z.
Proof.
  destruct (fold_zmin_spec (map datetime rs) (datetime r)) as [_ Hle].
  destruct (fold_zmax_spec (map datetime rs) (datetime r)) as [_ Hge].
  unfold datetime_min, datetime_max.
  specialize (Hle (datetime r) (or_introl eq_refl)).
  specialize (Hge (datetime r) (or_introl eq_refl)). lia.
Qed.

Lemma rule_width_pos (f : rule) : (0 < rule_width f)%Z.
Proof. destruct f; reflexivity. Qed.

Lemma bucket_start_bounds (w dt : Z) :
  (0 < w)%Z -> (bucket_start w dt <= dt < bucket_start w dt + w)%Z.
Proof.
  intros Hw. unfold bucket_start.
  pose proof (Z.div_mod dt w ltac:(lia)). pose proof (Z.mod_pos_bound dt w Hw). lia.
Qed.

Lemma bucket_rows_spec (w b : Z) (df : dataframe) (x : row) :
  In x (bucket_rows w b df) <-> In x df /\ (b <= datetime x < b + w)%Z.
Proof.
  unfold bucket_rows. rewrite filter_In, andb_true_iff, Z.leb_le, Z.ltb_lt. reflexivity.
Qed.

(** The first bin is never empty. *)
Lemma first_bucket_nonempty (w : Z) (r : row) (rs : dataframe) :
  (0 < w)%Z ->
  bucket_rows w (bucket_start w (datetime_min r rs)) (r :: rs) <> [].
Proof.
  intros Hw. destruct (datetime_min_row r rs) as (x & Hx & E).
  assert (H : In x (bucket_rows w (bucket_start w (datetime_min r rs)) (r :: rs))).
  { apply bucket_rows_spec. split; [exact Hx|]. rewrite E.
    apply bucket_start_bounds. exact Hw. }
  intros Hnil. rewrite Hnil in H. exact H.
Qed.

Lemma mean_num (l : list Q) :
  l <> [] -> Series.mean l = Num (Series.sum l / Series.count l).
Proof. destruct l; [congruence|reflexivity]. Qed.

Lemma mean_nan (l : list Q) : l = [] -> Series.mean l = NaN.
Proof. intros ->. reflexivity. Qed.

Lemma resample_mean_rows (w : Z) (r : row) (rs : dataframe) (b : Z) (v : fl) :
  (0 < w)%Z ->
  In (b, v) (resample_mean w r rs) <->
  v = Series.mean (values (bucket_rows w b (r :: rs))) /\
  exists k : nat,
    b = (bucket_start w (datetime_min r rs) + Z.of_nat k * w)%Z /\
    (Z.of_nat k <=
       (bucket_start w (datetime_max r rs) - bucket_start w (datetime_min r rs)) / w)%Z.
Proof.
  intros Hw.
  assert (0 <= (bucket_start w (datetime_max r rs)
                - bucket_start w (datetime_min r rs)) / w)%Z.
  { apply Z.div_pos; [|exact Hw].
    pose proof (datetime_min_le_max r rs).
    unfold bucket_start.
    assert (datetime_min r rs / w <= datetime_max r rs / w)%Z
      by (apply Z.div_le_mono; lia).
    nia. }
  unfold resample_mean. rewrite in_map_iff. split.
  - intros (k & E & Hk). injection E as <- <-. split; [reflexivity|].
    exists k. split; [reflexivity|]. apply in_seq in Hk. lia.
  - intros (-> & k & -> & Hk). exists k. split; [reflexivity|].
    apply in_seq. lia.
Qed.

Lemma resample_mean_first (w : Z) (r : row) (rs : dataframe) :
  (0 < w)%Z ->
  exists q rest,
    resample_mean w r rs = (bucket_start w (datetime_min r rs), Num q) :: rest.
Proof.
  intros Hw. unfold resample_mean. simpl seq. cbn [map].
  rewrite Z.mul_0_l, Z.add_0_r.
  pose proof (first_bucket_nonempty r rs Hw) as Hne.
  rewrite (mean_num (l := values _)).
  - eexists. eexists. reflexivity.
  - unfold values. intros E. apply map_eq_nil in E. contradiction.
Qed.

Lemma plotted_spec (res : list (Z * fl)) (b : Z) (q : Q) :
  In (b, q) (plotted res) <-> In (b, Num q) res.
Proof.
  induction res as [|[b' v] t IH]; simpl; [tauto|].
  destruct v; simpl; rewrite IH.
  - split; (intros [H|H]; [left; congruence|right; exact H]).
  - split; [auto|intros [H|H]; [discriminate|exact H]].
  - split; [auto|intros [H|H]; [discriminate|exact H]].
  - split; [auto|intros [H|H]; [discriminate|exact H]].
Qed.

Lemma dropna_spec (l : list fl) (q : Q) : In q (dropna l) <-> In (Num q) l.
Proof.
  induction l as [|v t IH]; simpl; [tauto|].
  destruct v; simpl; rewrite IH.
  - split; (intros [H|H]; [left; congruence|right; exact H]).
  - split; [auto|intros [H|H]; [discriminate|exact H]].
  - split; [auto|intros [H|H]; [discriminate|exact H]].
  - split; [auto|intros [H|H]; [discriminate|exact H]].
Qed.

Lemma dropna_plotted (res : list (Z * fl)) :
  dropna (map snd res) = map snd (plotted res).
Proof.
  induction res as [|[b v] t IH]; [reflexivity|].
  destruct v; cbn [map snd dropna plotted]; rewrite IH; reflexivity.
Qed.

Lemma dropna_nums (l : list (Z * Q)) :
  dropna (map snd (map (fun e => (fst e, Num (snd e))) l)) = map snd l.
Proof.
  induction l as [|[b q] t IH]; [reflexivity|].
  cbn [map fst snd dropna]. rewrite IH. reflexivity.
Qed.

End ResampleFacts.

Section ResampleClaims.

Import DataProcessor DateRangeReport.

(** C2, as the code has it.  The bin width follows the span in whole
    days, [days = (max - min).days + 1]: 2 hours up to 7 days, 6 hours up
    to 31 days, 12 hours beyond.  The resampled frame has one row for
    every bin from the bin of the first point to the bin of the last
    point.  A bin holds the rows whose datetime is in
    [[start, start + width)]; the value of a bin with rows is the
    arithmetic mean of their values (10 and 20 give 15) and is plotted;
    the value of a bin without rows is NaN: the row stays in the frame
    and no marker is drawn for it.  The minimum and the maximum of the
    resampled values skip those rows: they are the smallest and the
    largest plotted value, and the Y range is the one that the frame
    without the rows of the empty bins gives. *)
Theorem resample_buckets (r : row) (rs : dataframe) :
  let df := r :: rs in
  let days := date_range r rs in
  let w := rule_width (resample_rule days) in
  let first := bucket_start w (datetime_min r rs) in
  let last := bucket_start w (datetime_max r rs) in
  days = ((datetime_max r rs - datetime_min r rs) / ms_per_day + 1)%Z /\
  ((days <= 7)%Z -> w = (2 * ms_per_hour)%Z) /\
  ((7 < days <= 31)%Z -> w = (6 * ms_per_hour)%Z) /\
  ((31 < days)%Z -> w = (12 * ms_per_hour)%Z) /\
  (forall b v,
      In (b, v) (resample df) <->
      v = Series.mean (values (bucket_rows w b df)) /\
      exists k : nat,
        b = (first + Z.of_nat k * w)%Z /\ (Z.of_nat k <= (last - first) / w)%Z) /\
  (forall b x,
      In x (bucket_rows w b df) <-> In x df /\ (b <= datetime x < b + w)%Z) /\
  (forall b v,
      In (b, v) (resample df) -> bucket_rows w b df <> [] ->
      let m := Series.sum (values (bucket_rows w b df))
               / Series.count (values (bucket_rows w b df)) in
      v = Num m /\ In (b, m) (plotted (resample df))) /\
  (forall b v,
      In (b, v) (resample df) -> bucket_rows w b df = [] ->
      v = NaN /\ forall q, ~ In (b, q) (plotted (resample df))) /\
  (forall b v,
      In (b, v) (resample df) -> values (bucket_rows w b df) = [10; 20] ->
      fl_eq v (Num 15)) /\
  (exists mn mx,
      Series.min (dropna (map snd (resample df))) = Num mn /\
      Series.max (dropna (map snd (resample df))) = Num mx /\
      (exists b, In (b, mn) (plotted (resample df))) /\
      (exists b, In (b, mx) (plotted (resample df))) /\
      (forall b q, In (b, q) (plotted (resample df)) -> mn <= q /\ q <= mx)) /\
  (forall unit metric_name,
      y_limits unit metric_name df (resample df)
      = y_limits unit metric_name df
          (map (fun e => (fst e, Num (snd e))) (plotted (resample df)))).
Proof.
  intros df days w first last.
  assert (Hw : (0 < w)%Z) by apply rule_width_pos.
  assert (Hrows : forall b v,
             In (b, v) (resample df) <->
             v = Series.mean (values (bucket_rows w b df)) /\
             exists k : nat,
               b = (first + Z.of_nat k * w)%Z /\
               (Z.of_nat k <= (last - first) / w)%Z).
  { intros b v. apply resample_mean_rows. exact Hw. }
  split; [reflexivity|].
  split; [|split; [|split]].
  - intros H. unfold w, resample_rule.
    destruct (Z.leb_spec days 7); [reflexivity|lia].
  - intros H. unfold w, resample_rule.
    destruct (Z.leb_spec days 7); [lia|].
    destruct (Z.leb_spec days 31); [reflexivity|lia].
  - intros H. unfold w, resample_rule.
    destruct (Z.leb_spec days 7); [lia|].
    destruct (Z.leb_spec days 31); [lia|reflexivity].
  - split; [exact Hrows|].
    split; [intros b x; apply bucket_rows_spec|].
    split; [|split].
    + intros b v Hin Hne m.
      assert (E : v = Num m).
      { apply Hrows in Hin. destruct Hin as [-> _]. apply mean_num.
        unfold values. intros E. apply map_eq_nil in E. contradiction. }
      split; [exact E|]. apply plotted_spec. rewrite <- E. exact Hin.
    + intros b v Hin Hnil.
      assert (E : v = NaN).
      { apply Hrows in Hin. destruct Hin as [-> _]. rewrite Hnil. reflexivity. }
      split; [exact E|]. intros q Hq. apply plotted_spec in Hq.
      apply Hrows in Hq. destruct Hq as [Hq _]. rewrite Hnil in Hq. discriminate.
    + split.
      { intros b v Hin Hv. apply Hrows in Hin. destruct Hin as [-> _].
        rewrite Hv. vm_compute. reflexivity. }
      destruct (resample_mean_first r rs Hw) as (q0 & rest & Hres).
      assert (Hres' : resample df = (first, Num q0) :: rest) by exact Hres.
      assert (Hpl : plotted (resample df) = (first, q0) :: plotted rest)
        by (rewrite Hres'; reflexivity).
      assert (Hin : forall x, In x (q0 :: map snd (plotted rest)) ->
                              exists b, In (b, x) (plotted (resample df))).
      { intros x Hx. rewrite Hpl.
        change (q0 :: map snd (plotted rest))
          with (map snd ((first, q0) :: plotted rest)) in Hx.
        apply in_map_iff in Hx. destruct Hx as ([b q] & E & Hx).
        simpl in E. subst q. exists b. exact Hx. }
      split.
      * exists (fold_left Qmin (map snd (plotted rest)) q0),
               (fold_left Qmax (map snd (plotted rest)) q0).
        assert (Hd : dropna (map snd (resample df)) = q0 :: map snd (plotted rest))
          by (rewrite dropna_plotted, Hpl; reflexivity).
        rewrite Hd. cbn [Series.min Series.max].
        split; [reflexivity|]. split; [reflexivity|].
        split; [apply Hin, fold_min_in|]. split; [apply Hin, fold_max_in|].
        intros b q Hq.
        assert (Hq' : In q (q0 :: map snd (plotted rest))).
        { change (q0 :: map snd (plotted rest))
            with (map snd ((first, q0) :: plotted rest)).
          rewrite <- Hpl.
          apply in_map_iff. exists (b, q). split; [reflexivity|exact Hq]. }
        split; [apply fold_min_le; exact Hq'|apply fold_max_ge; exact Hq'].
      * intros unit metric_name. unfold y_limits.
        rewrite dropna_nums, <- dropna_plotted.
        rewrite Hpl, Hres'. reflexivity.
Qed.

(** C2 as stated fails: the two-hour bin starting at 02:00 of the
    sample has no point, and the resampled frame has a row for it. *)
Lemma resample_empty_bucket_counterexample :
  let w := rule_width (resample_rule 1) in
  resample Samples.gap
    = [(0%Z, Num (30 # 2)); (w, NaN); ((2 * w)%Z, Num 7)] /\
  bucket_rows w w Samples.gap = [] /\
  In (w, NaN) (resample Samples.gap) /\
  length (resample Samples.gap) = 3%nat /\
  length (plotted (resample Samples.gap)) = 2%nat.
Proof.
  vm_compute. repeat split; auto.
Qed.

End ResampleClaims.

(** ** Y axis *)

Section AxisFacts.

Import DataProcessor DateRangeReport.

Lemma values_mk_row (off : Z) (pts : list (Z * Q)) :
  values (map (mk_row off) pts) = map snd pts.
Proof. unfold values. rewrite map_map. reflexivity. Qed.

Lemma Qmax_if (a b : Q) : Qmax a b == if Qlt_bool a b then b else a.
Proof.
  destruct (Qlt_bool a b) eqn:E.
  - apply Qlt_bool_iff in E. apply Q.max_r. lra.
  - apply Q.max_l. destruct (Qlt_le_dec a b) as [L|L]; [|exact L].
    apply Qlt_bool_iff in L. congruence.
Qed.

Lemma Qmin_if (a b : Q) : Qmin a b == if Qlt_bool b a then b else a.
Proof.
  destruct (Qlt_bool b a) eqn:E.
  - apply Qlt_bool_iff in E. apply Q.min_r. lra.
  - apply Q.min_l. destruct (Qlt_le_dec b a) as [L|L]; [|exact L].
    apply Qlt_bool_iff in L. congruence.
Qed.

Lemma py_max_num (a b : Q) :
  exists c, py_max (Num a) (Num b) = Num c /\ c == Qmax a b.
Proof.
  unfold py_max, fl_ltb. pose proof (Qmax_if a b) as H.
  destruct (Qlt_bool a b); eexists; (split; [reflexivity|symmetry; exact H]).
Qed.

Lemma py_min_num (a b : Q) :
  exists c, py_min (Num a) (Num b) = Num c /\ c == Qmin a b.
Proof.
  unfold py_min, fl_ltb. pose proof (Qmin_if a b) as H.
  destruct (Qlt_bool b a); eexists; (split; [reflexivity|symmetry; exact H]).
Qed.

(** C6. For a plotted metric whose unit is "%": when its display name
    is the CPU or the memory usage name, the Y axis runs from 0 to
    [min(100, max_raw_value * 1.1)], where [max_raw_value] is the largest
    value of the raw series; for any other name it runs from 0 to 100
    whatever the data. *)
Theorem percent_axis_limits (utc_offset : Z) (metrics_info : list metric_info)
  (start_date end_date : Z) (m : metric_data) (ax : axes) :
  plot_axes utc_offset metrics_info start_date end_date m = Some ax ->
  unit_of metrics_info m = "%"%string ->
  let metric_name := metric_name_of metrics_info m in
  exists max_raw_value,
    Series.max (map snd (dps m)) = Num max_raw_value /\
    (forall p, In p (dps m) -> snd p <= max_raw_value) /\
    (exists p, In p (dps m) /\ snd p = max_raw_value) /\
    (metric_name = cpu_name \/ metric_name = memory_name ->
       exists top,
         ylim ax = (Num 0, Num top) /\ top == Qmin 100 (max_raw_value * (11 # 10))) /\
    (metric_name <> cpu_name -> metric_name <> memory_name ->
       ylim ax = (Num 0, Num 100)).
Proof.
  intros Hax Hunit metric_name. unfold plot_axes in Hax.
  destruct (dps m) as [|p ps] eqn:Hd; [discriminate|].
  assert (Hy : ylim ax = y_limits "%" metric_name (map (mk_row utc_offset) (p :: ps))
                                  (resample (map (mk_row utc_offset) (p :: ps)))).
  { injection Hax as <-. cbn [ylim]. rewrite Hunit. reflexivity. }
  rewrite Hy. clear Hy Hax.
  unfold y_limits. rewrite String.eqb_refl. rewrite values_mk_row.
  exists (fold_left Qmax (map snd ps) (snd p)).
  split; [reflexivity|]. split; [|split; [|split]].
  - intros x Hx. apply fold_max_ge.
    change (snd p :: map snd ps) with (map snd (p :: ps)). apply in_map. exact Hx.
  - pose proof (fold_max_in (map snd ps) (snd p)) as H.
    change (snd p :: map snd ps) with (map snd (p :: ps)) in H.
    apply in_map_iff in H. destruct H as (x & E & Hx). exists x. split; assumption.
  - intros Hname.
    assert (E : (String.eqb metric_name cpu_name
                 || String.eqb metric_name memory_name = true)%bool).
    { apply orb_true_iff. destruct Hname as [->| ->];
        [left|right]; apply String.eqb_refl. }
    rewrite E. cbn [Series.max map fl_mul].
    destruct (py_min_num 100 (fold_left Qmax (map snd ps) (snd p) * (11 # 10)))
      as (top & Htop & Heq).
    exists top. rewrite Htop. split; [reflexivity|exact Heq].
  - intros Hc Hm.
    apply String.eqb_neq in Hc. apply String.eqb_neq in Hm.
    rewrite Hc, Hm. reflexivity.
Qed.

End AxisFacts.

Section GenericAxisFacts.

Import DataProcessor DateRangeReport.

Lemma sum_constant (v : Q) (l : list Q) :
  (forall x, In x l -> x == v) -> Series.sum l == v * Series.count l.
Proof.
  unfold Series.count. induction l as [|a t IH]; intros H.
  - simpl. ring.
  - cbn [Series.sum fold_right length]. fold (Series.sum t).
    rewrite IH by (intros x Hx; apply H; right; exact Hx).
    rewrite (H a) by (left; reflexivity).
    rewrite Nat2Z.inj_succ. unfold Z.succ. rewrite inject_Z_plus.
    change (inject_Z 1) with 1. ring.
Qed.

Lemma mean_constant (v : Q) (l : list Q) (q : Q) :
  (forall x, In x l -> x == v) -> Series.mean l = Num q -> q == v.
Proof.
  intros H E. destruct l as [|a t]; [discriminate|].
  assert (Eq : q = Series.sum (a :: t) / Series.count (a :: t))
    by (unfold Series.mean in E; congruence).
  rewrite Eq. rewrite (sum_constant (v := v)) by exact H.
  assert (0 < Series.count (a :: t)).
  { unfold Series.count. change 0 with (inject_Z 0). rewrite <- Zlt_Qlt. simpl length. lia. }
  field. lra.
Qed.

Lemma fold_min_constant (v x : Q) (t : list Q) :
  (forall y, In y (x :: t) -> y == v) -> fold_left Qmin t x == v.
Proof. intros H. apply H, fold_min_in. Qed.

Lemma fold_max_constant (v x : Q) (t : list Q) :
  (forall y, In y (x :: t) -> y == v) -> fold_left Qmax t x == v.
Proof. intros H. apply H, fold_max_in. Qed.

Lemma fl_eq_num (a : fl) (x y : Q) : fl_eq a (Num x) -> x == y -> fl_eq a (Num y).
Proof. destruct a; simpl; try tauto. intros H1 H2. rewrite H1. exact H2. Qed.

(** The code's bounds agree with the stated formula. *)
Lemma y_limits_generic (unit metric_name : string) (df : dataframe)
  (res : list (Z * fl)) (mn mx : Q) :
  String.eqb unit "%" = false -> res <> [] ->
  Series.min (dropna (map snd res)) = Num mn ->
  Series.max (dropna (map snd res)) = Num mx ->
  fl_eq (fst (y_limits unit metric_name df res)) (Num (fst (Stated.generic_bounds mn mx))) /\
  fl_eq (snd (y_limits unit metric_name df res)) (Num (snd (Stated.generic_bounds mn mx))).
Proof.
  intros Hu Hres Hmin Hmax. unfold y_limits. rewrite Hu.
  destruct res as [|e res']; [congruence|]. rewrite Hmin, Hmax.
  cbn [fl_sub fl_ltb fl_eqb fl_mul fl_add]. unfold Stated.generic_bounds.
  destruct (Qlt_bool (mx - mn) (1 # 1000) || Qeq_bool mn mx).
  - destruct (Qeq_bool mx 0); [split; reflexivity|].
    destruct (py_max_num (mx * (1 # 10)) (1 # 10)) as (mg & -> & Hmg).
    cbn [fl_sub fl_add].
    destruct (py_max_num 0 (mn - mg)) as (b & -> & Hb).
    cbn [fst snd fl_eq]. rewrite Hb, Hmg. split; reflexivity.
  - destruct (py_max_num 0 (mn - (mx - mn) * (1 # 10))) as (b & -> & Hb).
    cbn [fst snd fl_eq]. rewrite Hb. split; reflexivity.
Qed.

Lemma generic_bounds_constant5 (mn mx : Q) :
  mn == 5 -> mx == 5 ->
  fst (Stated.generic_bounds mn mx) == 45 # 10 /\
  snd (Stated.generic_bounds mn mx) == 55 # 10.
Proof.
  intros Hmn Hmx. unfold Stated.generic_bounds.
  assert (E1 : Qlt_bool (mx - mn) (1 # 1000) = true) by (apply Qlt_bool_iff; lra).
  rewrite E1. cbn [orb].
  assert (E2 : Qeq_bool mx 0 = false).
  { destruct (Qeq_bool mx 0) eqn:E; [|reflexivity].
    apply Qeq_bool_iff in E. lra. }
  rewrite E2. cbn [fst snd].
  assert (M : Qmax (mx * (1 # 10)) (1 # 10) == 1 # 2) by (rewrite Q.max_l; lra).
  rewrite M. rewrite Q.max_r by lra. split; lra.
Qed.

(** C7. For a plotted metric whose unit is not "%", the resampled frame
    is never empty, so the bounds come from the smallest and the largest
    resampled value [mn] and [mx]: when [mx - mn < 0.001] or [mn = mx]
    they are [0, 1] if [mx = 0] and otherwise
    [max(0, mn - margin), mx + margin] with [margin = max(mx * 0.1, 0.1)];
    in the other case the same with [margin = (mx - mn) * 0.1].  A series
    whose values are all 5 gets the bounds 4.5 and 5.5. *)
Theorem generic_axis_limits (utc_offset : Z) (metrics_info : list metric_info)
  (start_date end_date : Z) (m : metric_data) (ax : axes) :
  plot_axes utc_offset metrics_info start_date end_date m = Some ax ->
  unit_of metrics_info m <> "%"%string ->
  let res := resample (map (mk_row utc_offset) (dps m)) in
  res <> [] /\
  exists mn mx,
    Series.min (dropna (map snd res)) = Num mn /\
    Series.max (dropna (map snd res)) = Num mx /\
    fl_eq (fst (ylim ax)) (Num (fst (Stated.generic_bounds mn mx))) /\
    fl_eq (snd (ylim ax)) (Num (snd (Stated.generic_bounds mn mx))) /\
    ((forall p, In p (dps m) -> snd p == 5) ->
     fl_eq (fst (ylim ax)) (Num (45 # 10)) /\
     fl_eq (snd (ylim ax)) (Num (55 # 10))).
Proof.
  intros Hax Hunit res. unfold plot_axes in Hax.
  destruct (dps m) as [|p ps] eqn:Hd; [discriminate|].
  set (df := map (mk_row utc_offset) (p :: ps)) in *.
  assert (Hy : ylim ax = y_limits (unit_of metrics_info m)
                                  (metric_name_of metrics_info m) df res).
  { injection Hax as <-. reflexivity. }
  clear Hax. apply String.eqb_neq in Hunit.
  destruct (resample_mean_first
              (mk_row utc_offset p) (map (mk_row utc_offset) ps)
              (rule_width_pos
                 (resample_rule
                    (date_range (mk_row utc_offset p) (map (mk_row utc_offset) ps)))))
    as (q0 & rest & Hres).
  assert (Hres' : res = (bucket_start
                           (rule_width
                              (resample_rule
                                 (date_range (mk_row utc_offset p)
                                             (map (mk_row utc_offset) ps))))
                           (datetime_min (mk_row utc_offset p)
                                         (map (mk_row utc_offset) ps)), Num q0) :: rest)
    by exact Hres.
  assert (Hne : res <> []) by (rewrite Hres'; discriminate).
  split; [exact Hne|].
  assert (Hdrop : dropna (map snd res) = q0 :: dropna (map snd rest))
    by (rewrite Hres'; reflexivity).
  set (mn := fold_left Qmin (dropna (map snd rest)) q0).
  set (mx := fold_left Qmax (dropna (map snd rest)) q0).
  assert (Hmin : Series.min (dropna (map snd res)) = Num mn)
    by (rewrite Hdrop; reflexivity).
  assert (Hmax : Series.max (dropna (map snd res)) = Num mx)
    by (rewrite Hdrop; reflexivity).
  exists mn, mx.
  split; [exact Hmin|]. split; [exact Hmax|].
  destruct (@y_limits_generic (unit_of metrics_info m) (metric_name_of metrics_info m)
              df res mn mx Hunit Hne Hmin Hmax) as [Hb Ht].
  rewrite Hy. split; [exact Hb|]. split; [exact Ht|].
  intros Hconst.
  assert (Hall : forall y, In y (q0 :: dropna (map snd rest)) -> y == 5).
  { intros y Hin. rewrite <- Hdrop in Hin. apply dropna_spec in Hin.
    apply in_map_iff in Hin. destruct Hin as ([b v] & E & Hin). simpl in E. subst v.
    apply (proj1 (@resample_mean_rows _ (mk_row utc_offset p)
                    (map (mk_row utc_offset) ps) b (Num y)
                    (rule_width_pos
                       (resample_rule
                          (date_range (mk_row utc_offset p)
                                      (map (mk_row utc_offset) ps))))))
      in Hin.
    destruct Hin as [Hmean _]. symmetry in Hmean.
    apply (mean_constant (v := 5)) in Hmean; [exact Hmean|].
    intros x Hx. unfold values in Hx. apply in_map_iff in Hx.
    destruct Hx as (rw & <- & Hrw). apply bucket_rows_spec in Hrw.
    destruct Hrw as [Hrw _].
    change (mk_row utc_offset p :: map (mk_row utc_offset) ps)
      with (map (mk_row utc_offset) (p :: ps)) in Hrw.
    apply in_map_iff in Hrw. destruct Hrw as (pt & <- & Hpt).
    apply Hconst. exact Hpt. }
  destruct (@generic_bounds_constant5 mn mx
              (fold_min_constant Hall) (fold_max_constant Hall)) as [G1 G2].
  split; eapply fl_eq_num; eassumption.
Qed.

End GenericAxisFacts.

(** ** X axis *)

Section TickFacts.

Import DateRangeReport Stated.

Lemma weekly_shift (c : Z) (n : nat) :
  weekly c (S n) = (c + 7)%Z :: weekly (c + 7) n.
Proof.
  unfold weekly. cbn [seq map].
  replace (c + 7 * Z.of_nat 1)%Z with (c + 7)%Z by lia. f_equal.
  rewrite <- seq_shift, map_map. apply map_ext. intros k. lia.
Qed.

Lemma weekly_snoc (c : Z) (n : nat) :
  weekly c (S n) = weekly c n ++ [(c + 7 * Z.of_nat (S n))%Z].
Proof. unfold weekly. rewrite seq_S, map_app. reflexivity. Qed.

Lemma weekly_In (c : Z) (n : nat) (d : Z) :
  In d (weekly c n) <-> exists k : nat, (0 < k <= n)%nat /\ d = (c + 7 * Z.of_nat k)%Z.
Proof.
  unfold weekly. rewrite in_map_iff. split.
  - intros (k & <- & Hk). apply in_seq in Hk. exists k. split; [lia|reflexivity].
  - intros (k & Hk & ->). exists k. split; [reflexivity|]. apply in_seq. lia.
Qed.

Lemma ticks_loop_closed (current end_date : Z) (date_list : list Z) :
  ticks_loop current end_date date_list
  = date_list ++ weekly current (Z.to_nat ((end_date - current) / 7)).
Proof.
  funelim (ticks_loop current end_date date_list).
  - rewrite H. clear H Heq Heqcall.
    destruct (Z.leb_spec (current + 7) end_date) as [L|L].
    + replace (Z.to_nat ((end_date - current) / 7))
        with (S (Z.to_nat ((end_date - (current + 7)) / 7)))
        by (zify; Z.to_euclidean_division_equations; lia).
      rewrite weekly_shift, <- app_assoc. reflexivity.
    + replace (Z.to_nat ((end_date - current) / 7)) with 0%nat
        by (zify; Z.to_euclidean_division_equations; lia).
      replace (Z.to_nat ((end_date - (current + 7)) / 7)) with 0%nat
        by (zify; Z.to_euclidean_division_equations; lia).
      reflexivity.
  - replace (Z.to_nat ((end_date - current) / 7)) with 0%nat
      by (zify; Z.to_euclidean_division_equations; lia).
    rewrite app_nil_r. reflexivity.
Qed.

Lemma existsb_eqb_In (e : Z) (l : list Z) :
  existsb (Z.eqb e) l = true <-> In e l.
Proof.
  rewrite existsb_exists. split.
  - intros (x & Hx & E). apply Z.eqb_eq in E. subst. exact Hx.
  - intros H. exists e. split; [exact H|apply Z.eqb_refl].
Qed.

(** C8. For [start_date <= end_date], [generate_date_ticks] returns the
    start date alone when the two dates coincide, and otherwise the
    start date, then the dates [start + 7k] ([k >= 1]) that fall before
    the end date, then the end date: the list begins with the start
    date, ends with the end date and holds both, also when the end date
    is off the seven-day cadence.  The X axis runs from the start date
    to the day after the end date. *)
Theorem generate_date_ticks_shape (start_date end_date : Z) :
  (start_date <= end_date)%Z ->
  let ticks := generate_date_ticks start_date end_date in
  let interior := weekly start_date (Z.to_nat ((end_date - start_date - 1) / 7)) in
  (start_date = end_date -> ticks = [start_date]) /\
  ((start_date < end_date)%Z -> ticks = start_date :: interior ++ [end_date]) /\
  hd_error ticks = Some start_date /\
  last ticks start_date = end_date /\
  In start_date ticks /\
  In end_date ticks /\
  (forall d, In d interior <->
             exists k : nat, (0 < k)%nat /\ d = (start_date + 7 * Z.of_nat k)%Z /\
                             (d < end_date)%Z) /\
  x_limits start_date end_date = (start_date, (end_date + 1)%Z).
Proof.
  intros Hle ticks interior.
  assert (Hinterior : forall d, In d interior <->
             exists k : nat, (0 < k)%nat /\ d = (start_date + 7 * Z.of_nat k)%Z /\
                             (d < end_date)%Z).
  { intros d. unfold interior. rewrite weekly_In. split.
    - intros (k & Hk & ->). exists k. split; [lia|]. split; [reflexivity|].
      zify; Z.to_euclidean_division_equations; lia.
    - intros (k & Hk & -> & Hd). exists k. split; [|reflexivity].
      zify; Z.to_euclidean_division_equations; lia. }
  assert (Heq : start_date = end_date -> ticks = [start_date]).
  { intros <-. unfold ticks, generate_date_ticks. rewrite ticks_loop_closed.
    replace (Z.to_nat ((start_date - start_date) / 7)) with 0%nat
      by (zify; Z.to_euclidean_division_equations; lia).
    cbn [weekly seq map app existsb]. rewrite Z.eqb_refl. reflexivity. }
  assert (Hlt : (start_date < end_date)%Z -> ticks = start_date :: interior ++ [end_date]).
  { intros Hlt. unfold ticks, generate_date_ticks. rewrite ticks_loop_closed.
    set (K := Z.to_nat ((end_date - start_date) / 7)).
    destruct (Z.eq_dec ((end_date - start_date) mod 7) 0) as [Hm|Hm].
    - assert (HK : K = S (Z.to_nat ((end_date - start_date - 1) / 7)))
        by (unfold K; zify; Z.to_euclidean_division_equations; lia).
      assert (He : end_date = (start_date + 7 * Z.of_nat K)%Z)
        by (unfold K; zify; Z.to_euclidean_division_equations; lia).
      assert (Hin : existsb (Z.eqb end_date) ([start_date] ++ weekly start_date K) = true).
      { apply existsb_eqb_In. apply in_or_app. right. apply weekly_In.
        exists K. split; [lia|exact He]. }
      rewrite Hin. rewrite HK, weekly_snoc. fold interior. rewrite <- HK, <- He.
      reflexivity.
    - assert (HK : K = Z.to_nat ((end_date - start_date - 1) / 7))
        by (unfold K; zify; Z.to_euclidean_division_equations; lia).
      assert (Hin : existsb (Z.eqb end_date) ([start_date] ++ weekly start_date K) = false).
      { destruct (existsb _ _) eqn:E; [|reflexivity].
        apply existsb_eqb_In in E. apply in_app_or in E. destruct E as [[E|[]]|E]; [lia|].
        apply weekly_In in E. destruct E as (k & _ & E).
        exfalso. apply Hm. rewrite E.
        replace (start_date + 7 * Z.of_nat k - start_date)%Z with (Z.of_nat k * 7)%Z by lia.
        apply Z.mod_mul. lia. }
      rewrite Hin, HK. fold interior. rewrite <- app_assoc. reflexivity. }
  split; [exact Heq|]. split; [exact Hlt|].
  destruct (Z.eq_dec start_date end_date) as [E|E].
  - rewrite (Heq E). split; [reflexivity|]. split; [exact E|].
    split; [left; reflexivity|]. split; [left; exact E|].
    split; [exact Hinterior|reflexivity].
  - assert (L : (start_date < end_date)%Z) by lia. rewrite (Hlt L).
    split; [reflexivity|]. split.
    { change (start_date :: interior ++ [end_date])
        with ((start_date :: interior) ++ [end_date]).
      apply last_last. }
    split; [left; reflexivity|]. split.
    { right. apply in_or_app. right. left. reflexivity. }
    split; [exact Hinterior|reflexivity].
Qed.

End TickFacts.

(** ** Dashboard grid *)

Section GridFacts.

Import DataProcessor Dashboard.

Lemma grid_cols_cases (n : nat) :
  (0 < n)%nat ->
  (n = 1 /\ grid_cols n = 1 /\ grid_rows n = 1)%nat \/
  (n = 2 /\ grid_cols n = 2 /\ grid_rows n = 1)%nat \/
  (3 <= n /\ grid_cols n = 3 /\ grid_rows n = (n + 2) / 3)%nat.
Proof.
  intros Hn. unfold grid_rows, grid_cols.
  destruct n as [|[|[|n]]]; [lia|left|right; left|right; right].
  - repeat split.
  - repeat split.
  - split; [lia|]. rewrite Nat.min_l by lia. split; [reflexivity|].
    f_equal. lia.
Qed.

Lemma grid_covers (n : nat) :
  (0 < n)%nat -> (n <= grid_rows n * grid_cols n)%nat.
Proof.
  intros Hn.
  destruct (grid_cols_cases Hn) as [(-> & -> & ->)|[(-> & -> & ->)|(H3 & -> & ->)]];
    [lia|lia|].
  pose proof (Nat.div_mod_eq (n + 2) 3).
  pose proof (Nat.mod_upper_bound (n + 2) 3). lia.
Qed.

Lemma subplot_at_valid (rows cols i : nat) :
  (i < rows * cols)%nat -> subplot_valid rows cols (subplot_at rows cols i).
Proof.
  intros Hi. unfold subplot_valid, subplot_at, axes_of.
  destruct (Nat.ltb_spec 1 rows) as [Hr|Hr]; destruct (Nat.ltb_spec 1 cols) as [Hc|Hc];
    destruct (Nat.eqb_spec rows 1) as [Er|Er]; destruct (Nat.eqb_spec cols 1) as [Ec|Ec];
    cbn [andb orb subplot_in]; try lia.
  split.
  - apply Nat.Div0.div_lt_upper_bound. lia.
  - apply Nat.mod_upper_bound. lia.
Qed.

Lemma subplot_valid_cases (rows cols : nat) (s : subplot) :
  subplot_valid rows cols s <->
  match s with
  | Cell r c => (rows <> 1 /\ cols <> 1 /\ r < rows /\ c < cols)%nat
  | Flat i => ((rows = 1 \/ cols = 1) /\ i < rows * cols)%nat
  end.
Proof.
  unfold subplot_valid, axes_of.
  destruct (Nat.eqb_spec rows 1) as [Er|Er]; destruct (Nat.eqb_spec cols 1) as [Ec|Ec];
    destruct s as [r c|i]; cbn [andb orb subplot_in]; subst; lia.
Qed.

Lemma layout_loop_all (rows cols : nat) (ms : list metric_data) :
  forall i0,
    (i0 + length ms <= rows * cols)%nat ->
    length (layout_loop rows cols i0 ms) = length ms /\
    forall j m, nth_error ms j = Some m ->
                nth_error (layout_loop rows cols i0 ms) j
                = Some (step_at rows cols (i0 + j) m).
Proof.
  induction ms as [|m0 t IH]; intros i0 Hle; simpl in *.
  - split; [reflexivity|]. intros [|j] m; discriminate.
  - destruct (Nat.leb_spec (rows * cols) i0) as [L|L]; [lia|].
    destruct (IH (S i0) ltac:(lia)) as [Hlen Hnth].
    assert (E : (match dps m0 with
                 | [] => NoData m0 :: layout_loop rows cols (S i0) t
                 | _ :: _ => Drawn (subplot_at rows cols i0) m0
                             :: layout_loop rows cols (S i0) t
                 end) = step_at rows cols i0 m0 :: layout_loop rows cols (S i0) t).
    { unfold step_at. destruct (dps m0); reflexivity. }
    rewrite E. simpl. split; [congruence|].
    intros [|j] m H; simpl in *.
    + injection H as <-. rewrite Nat.add_0_r. reflexivity.
    + rewrite (Hnth j m H). do 2 f_equal. lia.
Qed.

(** C10. For a non-empty list of [n] metrics the grid of
    [cols = min(3, n)] columns and [rows = (n + cols - 1) // cols] rows
    has at least [n] cells; hence the guard [i >= rows * cols] is false at
    every index of the list and every index has an axes object of its own
    kind in [axes].  In [create_improved_dashboard] the loop reaches every
    metric: a metric with data is drawn in the subplot of its index, and
    none is cut off by the grid.  [MetricsVisualizer.create_dashboard]
    does the same for two metrics or more; for a single metric it raises
    [NameError] before the loop, because visualizer.py uses [np] without
    importing numpy, and the metric gets no subplot. *)
Theorem dashboard_grid_covers (metrics_data : list metric_data) :
  metrics_data <> [] ->
  let n := length metrics_data in
  let cols := grid_cols n in
  let rows := grid_rows n in
  cols = Nat.min 3 n /\
  rows = ((n + cols - 1) / cols)%nat /\
  (n <= rows * cols)%nat /\
  (forall i, (i < n)%nat ->
             (rows * cols <=? i)%nat = false /\
             subplot_valid rows cols (subplot_at rows cols i)) /\
  (exists steps,
      create_improved_dashboard_layout metrics_data = Some steps /\
      length steps = n /\
      (forall i m, nth_error metrics_data i = Some m ->
                   nth_error steps i = Some (step_at rows cols i m)) /\
      ((2 <= n)%nat -> create_dashboard_layout metrics_data = inr (Some steps))) /\
  (n = 1%nat -> create_dashboard_layout metrics_data = inl (NameError "np")).
Proof.
  intros Hne n cols rows.
  assert (Hn : (0 < n)%nat) by (unfold n; destruct metrics_data; simpl; [congruence|lia]).
  pose proof (grid_covers Hn) as Hcov. fold rows cols in Hcov.
  split; [reflexivity|]. split; [reflexivity|]. split; [exact Hcov|]. split.
  - intros i Hi. split; [apply Nat.leb_gt; lia|apply subplot_at_valid; lia].
  - destruct (@layout_loop_all rows cols metrics_data 0%nat ltac:(simpl; fold n; lia))
      as [Hlen Hnth].
    assert (Hone : (rows =? 1)%nat && (cols =? 1)%nat = true <-> n = 1%nat).
    { destruct (grid_cols_cases Hn) as [(E & Ec & Er)|[(E & Ec & Er)|(E & Ec & Er)]];
        fold n in E, Ec, Er; fold cols in Ec; fold rows in Er; rewrite Ec, Er.
      - rewrite E. split; reflexivity.
      - rewrite E. split; [discriminate|lia].
      - rewrite andb_false_r. split; [discriminate|lia]. }
    split.
    + exists (layout_loop rows cols 0 metrics_data). split.
      { unfold create_improved_dashboard_layout.
        destruct metrics_data; [congruence|reflexivity]. }
      split; [exact Hlen|]. split; [intros i m H; apply (Hnth i m H)|].
      intros H2. unfold create_dashboard_layout.
      destruct metrics_data as [|m0 t]; [congruence|].
      fold n. fold cols. fold rows.
      assert (E : (rows =? 1)%nat && (cols =? 1)%nat = false).
      { apply not_true_is_false. intros E. apply Hone in E. lia. }
      rewrite E. reflexivity.
    + intros H1. unfold create_dashboard_layout.
      destruct metrics_data as [|m0 t]; [congruence|].
      fold n. fold cols. fold rows.
      apply Hone in H1. rewrite H1. reflexivity.
Qed.

End GridFacts.

(** ** Orchestration *)

Section OrchestratorFacts.

Import DataProcessor Orchestrator.

Variable W : Type.

Lemma ended_completed (evs : list event) :
  ended evs = [] -> completed evs = [] /\ failed evs = [].
Proof.
  induction evs as [|e t IH]; simpl; [auto|].
  destruct e; simpl; try discriminate; exact IH.
Qed.

Lemma quiet_ret {A} (a : A) : quiet (ret (W := W) a).
Proof.
  intros s. exists (inr a), (world s), []. rewrite app_nil_r.
  destruct s; simpl. auto.
Qed.

Lemma quiet_call {A} (f : W -> (exn + A) * W) : quiet (call f).
Proof.
  intros s. unfold call. destruct (f (world s)) as [r w].
  exists r, w, []. rewrite app_nil_r. auto.
Qed.

Lemma quiet_logger (e : event) :
  started [e] = [] -> ended [e] = [] -> quiet (logger (W := W) e).
Proof.
  intros H1 H2 s. exists (inr tt), (world s), [e]. auto.
Qed.

Lemma quiet_bind {A B} (m : M W A) (k : A -> M W B) :
  quiet m -> (forall a, quiet (k a)) -> quiet (bind m k).
Proof.
  intros Hm Hk s. unfold bind.
  destruct (Hm s) as (r & w & evs & -> & Hs & He).
  destruct r as [e|a].
  - exists (inl e), w, evs. auto.
  - destruct (Hk a {| world := w; log := log s ++ evs |})
      as (r' & w' & evs' & -> & Hs' & He').
    exists r', w', (evs ++ evs'). cbn [log]. rewrite app_assoc.
    unfold started, ended in *. rewrite !flat_map_app, Hs, He, Hs', He'. auto.
Qed.

Lemma quiet_for_each {A B} (l : list A) (body : B -> A -> M W B) :
  (forall b a, quiet (body b a)) -> forall b, quiet (for_each l body b).
Proof.
  intros Hb. induction l as [|x t IH]; intros b; simpl.
  - apply quiet_ret.
  - apply quiet_bind; [apply Hb|exact IH].
Qed.

Lemma body_ok_bind {A} (name : string) (n : nat) (m : M W A) (k : A -> M W nat) :
  quiet m -> (forall a, body_ok name n (k a)) -> body_ok name n (bind m k).
Proof.
  intros Hm Hk s. unfold bind.
  destruct (Hm s) as (r & w & evs & -> & Hs & He).
  destruct (ended_completed _ He) as [Hc Hf].
  destruct r as [e|a].
  - exists (inl e), w, evs. split; [reflexivity|]. split; [exact Hs|]. split; [exact Hf|].
    right. right. exists e. auto.
  - destruct (Hk a {| world := w; log := log s ++ evs |})
      as (r' & w' & evs' & -> & Hs' & Hf' & H).
    exists r', w', (evs ++ evs'). cbn [log]. rewrite app_assoc.
    unfold started, ended, completed, failed in *.
    rewrite !flat_map_app, Hs, He, Hc, Hf, Hs', Hf'. cbn [app].
    split; [reflexivity|]. split; [reflexivity|]. split; [reflexivity|]. exact H.
Qed.

Lemma body_ok_done (name : string) (n : nat) :
  body_ok name n (logger (W := W) (ServerDone name) ;;; ret (S n)).
Proof.
  intros s. exists (inr (S n)), (world s), [ServerDone name].
  split; [reflexivity|]. split; [reflexivity|]. split; [reflexivity|].
  left. repeat split.
Qed.

Lemma body_ok_no_data (name : string) (n : nat) (e : event) :
  e = NoValidMetrics name \/ e = QueryFailed name ->
  body_ok name n (logger (W := W) e ;;; ret n).
Proof.
  intros He s. exists (inr n), (world s), [e].
  split; [reflexivity|].
  destruct He as [-> | ->]; (split; [reflexivity|]; split; [reflexivity|];
                             right; left; repeat split).
Qed.

Section DateRangeBody.

Variable query_multiple_data : string -> W -> (exn + list metric_data) * W.
Variable create_individual_metrics :
  string -> list metric_data -> W -> (exn + list string) * W.
Variable create_improved_dashboard :
  string -> list metric_data -> W -> (exn + option string) * W.

Lemma date_range_body_ok (name : string) (n : nat) :
  body_ok name n
    (date_range_body query_multiple_data create_individual_metrics
       create_improved_dashboard name n).
Proof.
  unfold date_range_body.
  apply body_ok_bind; [apply quiet_call|]. intros [|m0 result].
  - apply body_ok_no_data. right. reflexivity.
  - apply body_ok_bind; [apply quiet_logger; reflexivity|]. intros _.
    destruct (valid_metrics_of (m0 :: result)) as [|v vs].
    + apply body_ok_no_data. left. reflexivity.
    + apply body_ok_bind; [apply quiet_call|]. intros metric_files.
      apply body_ok_bind; [apply quiet_call|]. intros dashboard_file.
      apply body_ok_done.
Qed.

End DateRangeBody.

Section ScheduledBody.

Variable query_multiple_data : string -> W -> (exn + list metric_data) * W.
Variable makedirs : string -> W -> (exn + unit) * W.
Variable plot_and_save : string -> metric_data -> W -> (exn + unit) * W.
Variable create_dashboard :
  string -> list metric_data -> W -> (exn + option string) * W.

Lemma scheduled_body_ok (name : string) (n : nat) :
  body_ok name n
    (scheduled_body query_multiple_data makedirs plot_and_save create_dashboard name n).
Proof.
  unfold scheduled_body.
  apply body_ok_bind; [apply quiet_call|]. intros [|m0 result].
  - apply body_ok_no_data. right. reflexivity.
  - apply body_ok_bind; [apply quiet_logger; reflexivity|]. intros _.
    apply body_ok_bind; [apply quiet_call|]. intros _.
    apply body_ok_bind.
    { unfold log_empty_metrics. apply quiet_for_each. intros _ m.
      destruct (dps m); [apply quiet_logger; reflexivity|apply quiet_ret]. }
    intros _.
    destruct (valid_metrics_of (m0 :: result)) as [|v vs].
    + apply body_ok_no_data. left. reflexivity.
    + apply body_ok_bind.
      { apply quiet_for_each. intros _ m.
        apply quiet_bind; [apply quiet_call|].
        intros _. apply quiet_logger; reflexivity. }
      intros _.
      apply body_ok_bind; [apply quiet_call|]. intros dashboard.
      apply body_ok_bind.
      { destruct dashboard; [apply quiet_logger; reflexivity|apply quiet_ret]. }
      intros _. apply body_ok_done.
Qed.

End ScheduledBody.

Lemma completed_In (evs : list event) (name : string) :
  In name (completed evs) <-> In (ServerDone name) evs.
Proof.
  unfold completed. rewrite in_flat_map. split.
  - intros (e & He & Hn). destruct e; simpl in Hn; try contradiction.
    destruct Hn as [->|[]]. exact He.
  - intros H. exists (ServerDone name). split; [exact H|left; reflexivity].
Qed.

Lemma success_iff_done (evs : list event) :
  site_success (length (completed evs)) = true <->
  exists name, In (ServerDone name) evs.
Proof.
  unfold site_success. rewrite Nat.ltb_lt. split.
  - intros H. destruct (completed evs) as [|name t] eqn:E; [simpl in H; lia|].
    exists name. apply completed_In. rewrite E. left. reflexivity.
  - intros (name & H). apply completed_In in H.
    destruct (completed evs); [contradiction|simpl; lia].
Qed.

Section Loop.

Variable body : string -> nat -> M W nat.
Hypothesis body_spec : forall name n, body_ok name n (body name n).

Lemma server_iteration_spec (n : nat) (srv : server) :
  appends (server_iteration body n srv) (fun r evs =>
    r = inr (n + length (completed evs))%nat /\
    started evs = attempted [srv] /\ ended evs = attempted [srv]).
Proof.
  intros s. unfold server_iteration, attempted. cbn [filter]. fold (complete srv).
  destruct (complete srv); cbn [negb map].
  - set (name := get (server_name srv)).
    unfold bind at 1. cbn [logger]. unfold try_except.
    destruct (body_spec name n {| world := world s; log := log s ++ [ServerStarted name] |})
      as (r & w & evs & -> & Hs & Hf & H). cbn [log].
    destruct H as [(-> & Hc & He)|[(-> & Hc & He)|(e & -> & Hc & He)]].
    + exists (inr (S n)), w, (ServerStarted name :: evs).
      rewrite <- app_assoc. split; [reflexivity|].
      unfold completed, started, ended in *.
      cbn [flat_map app]. rewrite Hc, Hs, He. cbn.
      split; [f_equal; lia|]. split; reflexivity.
    + exists (inr n), w, (ServerStarted name :: evs).
      rewrite <- app_assoc. split; [reflexivity|].
      unfold completed, started, ended in *.
      cbn [flat_map app]. rewrite Hc, Hs, He. cbn.
      split; [f_equal; lia|]. split; reflexivity.
    + exists (inr n), w, (ServerStarted name :: evs ++ [ServerError name e]).
      split.
      { unfold bind, logger, ret. cbn [world log].
        rewrite <- !app_assoc. reflexivity. }
      unfold completed, started, ended in *.
      cbn [flat_map]. rewrite !flat_map_app, Hc, Hs, He. cbn.
      split; [f_equal; lia|]. split; reflexivity.
  - exists (inr n), (world s), [ServerIncomplete srv].
    split; [reflexivity|]. cbn. split; [f_equal; lia|]. split; reflexivity.
Qed.

Lemma server_loop_spec (servers : list server) :
  forall n,
    appends (for_each servers (server_iteration body) n) (fun r evs =>
      r = inr (n + length (completed evs))%nat /\
      started evs = attempted servers /\ ended evs = attempted servers).
Proof.
  induction servers as [|srv t IH]; intros n s.
  - exists (inr n), (world s), []. rewrite app_nil_r.
    split; [destruct s; reflexivity|]. cbn. split; [f_equal; lia|]. split; reflexivity.
  - cbn [for_each]. unfold bind.
    destruct (server_iteration_spec n srv s) as (r & w & evs & -> & -> & Hs & He).
    destruct (IH (n + length (completed evs))%nat {| world := w; log := log s ++ evs |})
      as (r' & w' & evs' & -> & -> & Hs' & He').
    exists (inr (n + length (completed evs) + length (completed evs'))%nat), w',
           (evs ++ evs').
    cbn [log]. rewrite app_assoc. split; [reflexivity|].
    assert (A : attempted (srv :: t) = attempted [srv] ++ attempted t).
    { unfold attempted. cbn [filter]. destruct (complete srv); reflexivity. }
    unfold completed, started, ended in *.
    rewrite !flat_map_app, length_app, Hs, He, Hs', He', A.
    split; [f_equal; lia|]. split; reflexivity.
Qed.

Lemma server_iteration_catches (n : nat) (srv : server) (s s1 : state W) (e : exn) :
  complete srv = true ->
  body (get (server_name srv)) n
       {| world := world s; log := log s ++ [ServerStarted (get (server_name srv))] |}
    = (inl e, s1) ->
  server_iteration body n srv s
    = (inr n, {| world := world s1;
                 log := log s1 ++ [ServerError (get (server_name srv)) e] |}).
Proof.
  intros Hc Hb. unfold server_iteration. fold (complete srv). rewrite Hc. cbn [negb].
  unfold bind at 1. cbn [logger]. unfold try_except. rewrite Hb. reflexivity.
Qed.

End Loop.

(** *** The bodies against the stated verdicts *)

Lemma same_state (s : state W) : s = {| world := world s; log := log s ++ [] |}.
Proof. destruct s. cbn. rewrite app_nil_r. reflexivity. Qed.

Lemma plot_loop_follows (plot_and_save : string -> metric_data -> W -> (exn + unit) * W)
  (name : string) (valid : list metric_data) :
  forall s : state W,
  exists r evs,
    for_each valid
      (fun _ m => call (plot_and_save name m) ;;; logger (GraphSaved name (metric m))) tt s
    = (r, {| world := snd (Stated.all_return (plot_and_save name) valid (world s));
             log := log s ++ evs |}) /\
    started evs = [] /\ ended evs = [] /\
    if fst (Stated.all_return (plot_and_save name) valid (world s))
    then r = inr tt else exists e, r = inl e.
Proof.
  induction valid as [|m t IH]; intros s.
  - exists (inr tt), []. cbn. unfold ret. split; [f_equal; apply same_state|auto].
  - cbn [for_each Stated.all_return]. unfold bind, call, logger in *. cbn [world log].
    destruct (plot_and_save name m (world s)) as [[e|[]] w1]; cbn [world log fst snd].
    + exists (inl e), []. cbn. rewrite app_nil_r. split; [reflexivity|]. eauto.
    + destruct (IH {| world := w1; log := log s ++ [GraphSaved name (metric m)] |})
        as (r & evs & E & Hs & He & Hr).
      cbn [world log] in E, Hr. rewrite E.
      exists r, (GraphSaved name (metric m) :: evs).
      rewrite <- app_assoc. split; [reflexivity|].
      split; [exact Hs|]. split; [exact He|exact Hr].
Qed.

Lemma log_empty_follows (name : string) (result : list metric_data) :
  forall s : state W,
  exists evs,
    log_empty_metrics name result s
    = (inr tt, {| world := world s; log := log s ++ evs |}) /\
    started evs = [] /\ ended evs = [] /\ completed evs = [] /\ failed evs = [].
Proof.
  unfold log_empty_metrics.
  induction result as [|m t IH]; intros s.
  - exists []. cbn. unfold ret. split; [f_equal; apply same_state|auto].
  - cbn [for_each]. unfold bind at 1.
    destruct (dps m).
    + cbn [logger].
      destruct (IH {| world := world s; log := log s ++ [MetricEmpty name (metric m)] |})
        as (evs & E & H).
      cbn [world log] in E. rewrite E.
      exists (MetricEmpty name (metric m) :: evs).
      rewrite <- app_assoc. split; [reflexivity|exact H].
    + cbn [ret]. destruct (IH s) as (evs & E & H).
      rewrite E. exists evs. split; [reflexivity|exact H].
Qed.

Section DateRangeVerdict.

Variable query_multiple_data : string -> W -> (exn + list metric_data) * W.
Variable create_individual_metrics :
  string -> list metric_data -> W -> (exn + list string) * W.
Variable create_improved_dashboard :
  string -> list metric_data -> W -> (exn + option string) * W.

Lemma date_range_body_follows (name : string) (n : nat) :
  body_follows
    (Stated.date_range_processed query_multiple_data create_individual_metrics
       create_improved_dashboard) name n
    (date_range_body query_multiple_data create_individual_metrics
       create_improved_dashboard name n).
Proof.
  intros s. unfold date_range_body, Stated.date_range_processed.
  unfold bind at 1. unfold call at 1.
  destruct (query_multiple_data name (world s)) as [[e|result] w1].
  { exists (inl e), []. cbn. rewrite app_nil_r. split; [reflexivity|].
    split; [reflexivity|]. split; [reflexivity|]. right. exists e. auto. }
  destruct result as [|m0 result].
  { exists (inr n), [QueryFailed name]. cbn. split; [reflexivity|].
    split; [reflexivity|]. split; [reflexivity|]. left. auto. }
  change (valid_metrics_of (m0 :: result)) with (filter Stated.has_points (m0 :: result)).
  unfold bind at 1. cbn [logger world log].
  destruct (filter Stated.has_points (m0 :: result)) as [|v vs].
  { exists (inr n), [QueryOk (length (m0 :: result)); NoValidMetrics name].
    cbn. rewrite <- app_assoc. split; [reflexivity|].
    split; [reflexivity|]. split; [reflexivity|]. left. auto. }
  unfold bind at 1. unfold call at 1. cbn [world log].
  destruct (create_individual_metrics name (v :: vs) w1) as [[e|files] w2].
  { exists (inl e), [QueryOk (length (m0 :: result))]. cbn. split; [reflexivity|].
    split; [reflexivity|]. split; [reflexivity|]. right. exists e. auto. }
  unfold bind at 1. unfold call at 1. cbn [world log].
  destruct (create_improved_dashboard name (v :: vs) w2) as [[e|dashboard] w3].
  { exists (inl e), [QueryOk (length (m0 :: result))]. cbn. split; [reflexivity|].
    split; [reflexivity|]. split; [reflexivity|]. right. exists e. auto. }
  exists (inr (S n)), [QueryOk (length (m0 :: result)); ServerDone name].
  cbn. rewrite <- app_assoc. split; [reflexivity|]. auto.
Qed.

End DateRangeVerdict.

Section ScheduledVerdict.

Variable query_multiple_data : string -> W -> (exn + list metric_data) * W.
Variable makedirs : string -> W -> (exn + unit) * W.
Variable plot_and_save : string -> metric_data -> W -> (exn + unit) * W.
Variable create_dashboard :
  string -> list metric_data -> W -> (exn + option string) * W.

Lemma scheduled_body_follows (name : string) (n : nat) :
  body_follows
    (Stated.scheduled_processed query_multiple_data makedirs plot_and_save
       create_dashboard) name n
    (scheduled_body query_multiple_data makedirs plot_and_save create_dashboard name n).
Proof.
  intros s. unfold scheduled_body, Stated.scheduled_processed.
  unfold bind at 1. unfold call at 1.
  destruct (query_multiple_data name (world s)) as [[e|result] w1].
  { exists (inl e), []. cbn. rewrite app_nil_r. split; [reflexivity|].
    split; [reflexivity|]. split; [reflexivity|]. right. exists e. auto. }
  destruct result as [|m0 result].
  { exists (inr n), [QueryFailed name]. cbn. split; [reflexivity|].
    split; [reflexivity|]. split; [reflexivity|]. left. auto. }
  change (valid_metrics_of (m0 :: result)) with (filter Stated.has_points (m0 :: result)).
  unfold bind at 1. cbn [logger world log].
  unfold bind at 1. unfold call at 1. cbn [world log].
  destruct (makedirs name w1) as [[e|[]] w2].
  { exists (inl e), [QueryOk (length (m0 :: result))]. cbn. split; [reflexivity|].
    split; [reflexivity|]. split; [reflexivity|]. right. exists e. auto. }
  unfold bind at 1.
  destruct (log_empty_follows name (m0 :: result)
              {| world := w2; log := log s ++ [QueryOk (length (m0 :: result))] |})
    as (evs0 & E0 & Hs0 & He0 & Hc0 & Hf0).
  cbn [world log] in E0. rewrite E0.
  destruct (filter Stated.has_points (m0 :: result)) as [|v vs].
  { exists (inr n), (QueryOk (length (m0 :: result)) :: evs0 ++ [NoValidMetrics name]).
    cbn [bind logger ret world log fst snd].
    split; [unfold bind; cbn; rewrite <- !app_assoc; reflexivity|].
    unfold started, failed, completed, ended in *.
    cbn [flat_map]. rewrite !flat_map_app, Hs0, He0, Hc0, Hf0. cbn.
    split; [reflexivity|]. split; [reflexivity|]. left. auto. }
  unfold bind at 1.
  destruct (plot_loop_follows plot_and_save name (v :: vs)
              {| world := w2;
                 log := (log s ++ [QueryOk (length (m0 :: result))]) ++ evs0 |})
    as (r1 & evs1 & E1 & Hs1 & He1 & Hr1).
  cbn [world log] in E1, Hr1. rewrite E1.
  assert (Hc1 : completed evs1 = [] /\ failed evs1 = [])
    by (apply ended_completed; exact He1).
  destruct Hc1 as [Hc1 Hf1].
  destruct (Stated.all_return (plot_and_save name) (v :: vs) w2) as [[|] w3];
    cbn [fst snd] in *.
  2:{ destruct Hr1 as (e & ->).
      exists (inl e), (QueryOk (length (m0 :: result)) :: evs0 ++ evs1).
      split; [cbn; rewrite <- !app_assoc; reflexivity|].
      unfold started, failed, completed, ended in *.
      cbn [flat_map]. rewrite !flat_map_app, Hs0, He0, Hc0, Hf0, Hs1, He1, Hc1, Hf1. cbn.
      split; [reflexivity|]. split; [reflexivity|]. right. exists e. auto. }
  subst r1. unfold bind at 1. unfold call at 1. cbn [world log].
  destruct (create_dashboard name (v :: vs) w3) as [[e|dashboard] w4].
  { exists (inl e), (QueryOk (length (m0 :: result)) :: evs0 ++ evs1).
    split; [cbn; rewrite <- !app_assoc; reflexivity|].
    unfold started, failed, completed, ended in *.
    cbn [flat_map]. rewrite !flat_map_app, Hs0, He0, Hc0, Hf0, Hs1, He1, Hc1, Hf1. cbn.
    split; [reflexivity|]. split; [reflexivity|]. right. exists e. auto. }
  exists (inr (S n)),
         (QueryOk (length (m0 :: result)) :: evs0 ++ evs1
          ++ (match dashboard with Some _ => [DashboardDone name] | None => [] end)
          ++ [ServerDone name]).
  split.
  { destruct dashboard; unfold bind, logger, ret; cbn [world log];
      rewrite <- !app_assoc; reflexivity. }
  unfold started, failed, completed, ended in *.
  cbn [flat_map]. rewrite !flat_map_app, Hs0, He0, Hc0, Hf0, Hs1, He1, Hc1, Hf1.
  destruct dashboard; cbn; auto.
Qed.

End ScheduledVerdict.

Section LoopVerdict.

Variable process : string -> W -> bool * W.
Variable body : string -> nat -> M W nat.
Hypothesis body_verdict : forall name n, body_follows process name n (body name n).

Lemma server_iteration_follows (n : nat) (srv : server) (s : state W) :
  exists evs,
    server_iteration body n srv s
    = (inr (n + length (fst (Stated.processed process [srv] (world s))))%nat,
       {| world := snd (Stated.processed process [srv] (world s));
          log := log s ++ evs |}) /\
    completed evs = fst (Stated.processed process [srv] (world s)).
Proof.
  unfold server_iteration. cbn [Stated.processed].
  destruct (truthy (server_id srv) && truthy (server_name srv)); cbn [negb].
  - set (name := get (server_name srv)).
    unfold bind at 1. cbn [logger]. unfold try_except.
    destruct (body_verdict name n {| world := world s; log := log s ++ [ServerStarted name] |})
      as (r & evs & E & Hs & Hf & H).
    cbn [world log] in E, H. rewrite E.
    destruct (process name (world s)) as [ok w1]. cbn [fst snd] in *.
    destruct ok.
    + destruct H as (-> & Hc & _).
      exists (ServerStarted name :: evs). rewrite <- app_assoc.
      split; [cbn; do 2 f_equal; lia|].
      unfold completed in *. cbn [flat_map app]. exact Hc.
    + destruct H as [(-> & Hc & _)|(e & -> & Hc & _)].
      * exists (ServerStarted name :: evs). rewrite <- app_assoc.
        split; [cbn; do 2 f_equal; lia|].
        unfold completed in *. cbn [flat_map app]. exact Hc.
      * exists (ServerStarted name :: evs ++ [ServerError name e]).
        split.
        { unfold bind, logger, ret. cbn [world log fst length].
          rewrite <- !app_assoc. do 2 f_equal. lia. }
        unfold completed in *. cbn [flat_map]. rewrite flat_map_app, Hc. reflexivity.
  - exists [ServerIncomplete srv]. unfold bind, logger, ret.
    cbn [fst snd length]. rewrite Nat.add_0_r. split; reflexivity.
Qed.

Lemma processed_cons (srv : server) (t : list server) (w : W) :
  Stated.processed process (srv :: t) w
  = (fst (Stated.processed process [srv] w)
     ++ fst (Stated.processed process t (snd (Stated.processed process [srv] w))),
     snd (Stated.processed process t (snd (Stated.processed process [srv] w)))).
Proof.
  cbn [Stated.processed].
  destruct (truthy (server_id srv) && truthy (server_name srv)).
  - destruct (process (get (server_name srv)) w) as [ok w1]. cbn [fst snd].
    destruct (Stated.processed process t w1) as [names w2]. cbn [fst snd].
    destruct ok; reflexivity.
  - cbn [fst snd app]. destruct (Stated.processed process t w). reflexivity.
Qed.

Lemma server_loop_follows (servers : list server) :
  forall n (s : state W),
  exists evs,
    for_each servers (server_iteration body) n s
    = (inr (n + length (fst (Stated.processed process servers (world s))))%nat,
       {| world := snd (Stated.processed process servers (world s));
          log := log s ++ evs |}) /\
    completed evs = fst (Stated.processed process servers (world s)).
Proof.
  induction servers as [|srv t IH]; intros n s.
  - exists []. cbn. unfold ret. split; [|reflexivity].
    rewrite Nat.add_0_r. f_equal. apply same_state.
  - cbn [for_each]. unfold bind.
    destruct (server_iteration_follows n srv s) as (evs & E & Hc). rewrite E.
    destruct (IH (n + length (fst (Stated.processed process [srv] (world s))))%nat
                 {| world := snd (Stated.processed process [srv] (world s));
                    log := log s ++ evs |})
      as (evs' & E' & Hc').
    cbn [world log] in E', Hc'. rewrite E'.
    exists (evs ++ evs'). rewrite (processed_cons srv t (world s)). cbn [fst snd].
    rewrite length_app, app_assoc. split; [do 2 f_equal; lia|].
    unfold completed in *. rewrite flat_map_app, Hc, Hc'. reflexivity.
Qed.

Hypothesis body_spec : forall name n, body_ok name n (body name n).

Lemma server_loop_verdict (servers : list server) (s : state W) :
  exists n w evs,
    server_loop body servers s = (inr n, {| world := w; log := log s ++ evs |}) /\
    started evs = attempted servers /\
    ended evs = attempted servers /\
    n = length (completed evs) /\
    completed evs = fst (Stated.processed process servers (world s)) /\
    w = snd (Stated.processed process servers (world s)).
Proof.
  unfold server_loop.
  destruct (@server_loop_spec body body_spec servers 0%nat s)
    as (r & w & evs & E & -> & Hs & He).
  destruct (server_loop_follows servers 0%nat s) as (evs' & E' & Hc).
  rewrite E in E'.
  assert (Hw : w = snd (Stated.processed process servers (world s))) by congruence.
  assert (Hevs : log s ++ evs = log s ++ evs') by congruence.
  apply app_inv_head in Hevs. subst evs'.
  exists (length (completed evs)), w, evs.
  split; [exact E|]. split; [exact Hs|]. split; [exact He|].
  split; [reflexivity|]. split; [exact Hc|exact Hw].
Qed.

End LoopVerdict.

Lemma success_iff_In (names : list string) :
  site_success (length names) = true <-> exists name, In name names.
Proof.
  unfold site_success. rewrite Nat.ltb_lt. destruct names as [|x t]; cbn.
  - split; [lia|intros (name & [])].
  - split; [intros _; exists x; left; reflexivity|lia].
Qed.

End OrchestratorFacts.

Section OrchestratorClaims.

Import DataProcessor Orchestrator.

(** C9. In both reports the loop over the servers of a site runs to its
    end whatever the collaborators do: an exception raised inside the
    body of one server is caught by that iteration, which logs it and
    leaves the success count as it was; every server with an id and a
    name is started and comes to an end, in order; the final count is
    the number of servers that reached the success path, and these are
    the servers that were processed successfully, as
    [Stated.date_range_processed] and [Stated.scheduled_processed] say it
    with the collaborators alone: the fetch returned metrics, at least
    one of them has data points, and every file-system and drawing call
    for the metrics with data points returned.  The success flag of the
    site ([server_success > 0], the value returned by
    [generate_site_report]) is true exactly when at least one server was
    processed successfully. *)
Theorem server_failures_are_isolated (W : Type) :
  (forall (body : string -> nat -> M W nat) n srv s s1 e,
      complete srv = true ->
      body (get (server_name srv)) n
           {| world := world s; log := log s ++ [ServerStarted (get (server_name srv))] |}
        = (inl e, s1) ->
      server_iteration body n srv s
        = (inr n, {| world := world s1;
                     log := log s1 ++ [ServerError (get (server_name srv)) e] |})) /\
  (forall query_multiple_data create_individual_metrics create_improved_dashboard
          servers (s : state W),
      let done :=
        Stated.processed
          (Stated.date_range_processed query_multiple_data create_individual_metrics
             create_improved_dashboard) servers (world s) in
      exists n w evs,
        date_range_servers query_multiple_data create_individual_metrics
          create_improved_dashboard servers s
          = (inr n, {| world := w; log := log s ++ evs |}) /\
        started evs = attempted servers /\
        ended evs = attempted servers /\
        n = length (completed evs) /\
        (site_success n = true <-> exists name, In (ServerDone name) evs) /\
        completed evs = fst done /\
        w = snd done /\
        (site_success n = true <-> exists name, In name (fst done))) /\
  (forall query_multiple_data makedirs plot_and_save create_dashboard
          servers (s : state W),
      let done :=
        Stated.processed
          (Stated.scheduled_processed query_multiple_data makedirs plot_and_save
             create_dashboard) servers (world s) in
      exists n w evs,
        server_loop
          (scheduled_body query_multiple_data makedirs plot_and_save create_dashboard)
          servers s
          = (inr n, {| world := w; log := log s ++ evs |}) /\
        started evs = attempted servers /\
        ended evs = attempted servers /\
        n = length (completed evs) /\
        completed evs = fst done /\
        w = snd done) /\
  (forall query_multiple_data makedirs plot_and_save create_dashboard write_summary
          site_name cfg (s s' : state W) (b : bool),
      generate_site_report query_multiple_data makedirs plot_and_save create_dashboard
        write_summary site_name cfg s = (inr b, s') ->
      exists evs,
        log s' = log s ++ evs /\
        (b = true <-> exists name, In (ServerDone name) evs) /\
        (b = true <->
         truthy (access_key cfg) && truthy (secret_key cfg) && truthy (cw_key cfg) = true /\
         exists w0 name,
           makedirs site_name (world s) = (inr tt, w0) /\
           In name
              (fst (Stated.processed
                      (Stated.scheduled_processed query_multiple_data makedirs
                         plot_and_save create_dashboard) (servers cfg) w0)))).
Proof.
  split; [|split; [|split]].
  - intros body n srv s s1 e Hc Hb. apply server_iteration_catches; assumption.
  - intros q c1 c2 servers s done.
    destruct (@server_loop_verdict W _ _ (date_range_body_follows q c1 c2)
                (date_range_body_ok q c1 c2) servers s)
      as (n & w & evs & E & Hs & He & -> & Hc & Hw).
    exists (length (completed evs)), w, evs.
    split; [exact E|]. split; [exact Hs|]. split; [exact He|]. split; [reflexivity|].
    split; [apply success_iff_done|]. split; [exact Hc|]. split; [exact Hw|].
    rewrite Hc. apply success_iff_In.
  - intros q mk ps cd servers s done.
    destruct (@server_loop_verdict W _ _ (scheduled_body_follows q mk ps cd)
                (scheduled_body_ok q mk ps cd) servers s)
      as (n & w & evs & E & Hs & He & -> & Hc & Hw).
    exists (length (completed evs)), w, evs.
    split; [exact E|]. split; [exact Hs|]. split; [exact He|]. split; [reflexivity|].
    split; [exact Hc|exact Hw].
  - intros q mk ps cd ws site cfg s s' b H.
    unfold generate_site_report in H.
    destruct (truthy (access_key cfg) && truthy (secret_key cfg) && truthy (cw_key cfg));
      cbn [negb] in H.
    + destruct (servers cfg) as [|srv t] eqn:Hsrv.
      * unfold bind, logger, ret in H.
        assert (Eb : b = false) by congruence.
        assert (Es : s' = {| world := world s; log := log s ++ [NoServers] |})
          by congruence.
        subst b s'.
        exists [NoServers]. split; [reflexivity|].
        split; [split; [discriminate|]; intros (name & [Hn|[]]); discriminate|].
        split; [discriminate|]. intros (_ & w0 & name & _ & []).
      * unfold bind at 1 in H. unfold call at 1 in H.
        destruct (mk site (world s)) as [[e|[]] w0] eqn:Hmk; [discriminate|].
        unfold bind at 1 in H.
        destruct (@server_loop_verdict W _ _ (scheduled_body_follows q mk ps cd)
                    (scheduled_body_ok q mk ps cd) (srv :: t)
                    {| world := w0; log := log s |})
          as (n & w & evs & E & Hs & He & -> & Hc & Hw).
        cbn [world log] in E, Hc, Hw. rewrite E in H.
        unfold bind, call, ret in H. cbn [world log] in H.
        destruct (ws _ _ w) as [[e|[]] w1]; [discriminate|].
        assert (Eb : b = (0 <? length (completed evs))%nat) by congruence.
        assert (Es : log s' = log s ++ evs)
          by (assert (Es : s' = {| world := w1; log := log s ++ evs |}) by congruence;
              rewrite Es; reflexivity).
        exists evs. split; [exact Es|].
        split; [rewrite Eb; apply success_iff_done|].
        rewrite Eb. change (0 <? length (completed evs))%nat
          with (site_success (length (completed evs))).
        rewrite Hc, success_iff_In. split.
        { intros (name & Hn). split; [reflexivity|]. exists w0, name. auto. }
        { intros (_ & w0' & name & Hmk' & Hn).
          assert (w0' = w0) by congruence. subst w0'. exists name. exact Hn. }
    + unfold bind, logger, ret in H.
      assert (Eb : b = false) by congruence.
      assert (Es : s' = {| world := world s; log := log s ++ [CredentialsIncomplete] |})
        by congruence.
      subst b s'.
      exists [CredentialsIncomplete]. split; [reflexivity|].
      split; [split; [discriminate|]; intros (name & [Hn|[]]); discriminate|].
      split; [discriminate|]. intros (Hf & _). discriminate.
Qed.

End OrchestratorClaims.

(** ** The properties on sample inputs *)

Section Instances.

Import DataProcessor DateRangeReport Dashboard Orchestrator.

Example generate_date_ticks_off_cadence :
  generate_date_ticks 100 130 = [100; 107; 114; 121; 128; 130]%Z.
Proof. reflexivity. Qed.

Example generate_date_ticks_on_cadence :
  generate_date_ticks 100 128 = [100; 107; 114; 121; 128]%Z.
Proof. reflexivity. Qed.

Example quantile_of_four :
  Series.quantile (25 # 100) (values Samples.one_day) = Num (175 # 100).
Proof. reflexivity. Qed.

Example short_series_has_no_comparison :
  compare_time_periods Samples.short 7 = None.
Proof. reflexivity. Qed.

Example cpu_axis_top :
  option_map ylim (plot_axes Samples.kst [Samples.cpu_info] 0 13 Samples.cpu_metric)
  = Some (Num 0, Num (550 # 10)).
Proof. reflexivity. Qed.

Lemma calculate_statistics_ordering_witness :
  Samples.one_day <> [] /\
  exists st,
    calculate_statistics Samples.one_day = Some st /\
    fl_le (min st) (percentile 10 st) /\
    fl_le (percentile 25 st) (median st) /\
    fl_le (percentile 99 st) (max st).
Proof.
  assert (H : Samples.one_day <> []) by (vm_compute; discriminate).
  split; [exact H|].
  destruct (calculate_statistics_ordering H)
    as (st & E & _ & H1 & _ & H3 & _ & _ & _ & _ & H9).
  exists st. repeat split; assumption.
Defined.

Lemma resample_buckets_witness :
  In (0%Z, Num (30 # 2)) (resample Samples.gap) /\
  values (bucket_rows (2 * ms_per_hour) 0 Samples.gap) = [10; 20] /\
  fl_eq (Num (30 # 2)) (Num 15).
Proof.
  assert (H1 : In (0%Z, Num (30 # 2)) (resample Samples.gap))
    by (vm_compute; left; reflexivity).
  assert (H2 : values (bucket_rows (2 * ms_per_hour) 0 Samples.gap) = [10; 20])
    by reflexivity.
  split; [exact H1|]. split; [exact H2|].
  destruct (resample_buckets (mk_row 0 (0%Z, 10))
              [mk_row 0 (300000%Z, 20); mk_row 0 ((5 * ms_per_hour)%Z, 7)])
    as (_ & _ & _ & _ & _ & _ & _ & _ & H & _).
  exact (H 0%Z (Num (30 # 2)) H1 H2).
Defined.

Lemma compare_time_periods_split_witness :
  exists c,
    compare_time_periods Samples.growth 7 = Some c /\
    (p_count (current_period c) + p_count (previous_period c))%nat = 3%nat.
Proof.
  destruct (compare_time_periods_split (mk_row 0 (0%Z, 10))
              [mk_row 0 ((8 * Samples.day)%Z, 30); mk_row 0 ((15 * Samples.day)%Z, 40)] 7)
    as [_ H].
  destruct (H ltac:(vm_compute; discriminate)) as (c & E & _ & _ & _ & _ & Hc).
  exists c. split; [exact E|exact Hc].
Defined.


Lemma percent_change_of_periods_witness :
  percent_change (Num 40) (Num 20) = Num ((40 - 20) / 20 * 100) /\
  percent_change (Num (-5 # 1)) (Num 0) = PInf /\
  exists c,
    compare_time_periods Samples.growth 7 = Some c /\
    mean_change (period_changes c)
      = percent_change (p_mean (current_period c)) (p_mean (previous_period c)).
Proof.
  destruct percent_change_of_periods as (H1 & H2 & H3).
  split; [apply H2; vm_compute; discriminate|].
  split; [apply H3; reflexivity|].
  eexists. split; [reflexivity|].
  exact (proj1 (H1 Samples.growth 7%Z _ eq_refl)).
Defined.

Lemma percent_axis_limits_witness :
  exists ax top,
    plot_axes Samples.kst [Samples.cpu_info] 0 13 Samples.cpu_metric = Some ax /\
    ylim ax = (Num 0, Num top) /\ top == Qmin 100 (50 * (11 # 10)).
Proof.
  destruct (percent_axis_limits Samples.kst [Samples.cpu_info] 0 13 Samples.cpu_metric
              eq_refl eq_refl)
    as (mx & Hmx & _ & _ & Hcpu & _).
  destruct (Hcpu (or_introl eq_refl)) as (top & Hy & Ht).
  eexists. exists top. split; [reflexivity|]. split; [exact Hy|].
  injection Hmx as <-. exact Ht.
Defined.

Lemma generic_axis_limits_witness :
  exists ax,
    plot_axes Samples.kst [Samples.disk_info] 0 13 Samples.disk_metric = Some ax /\
    fl_eq (fst (ylim ax)) (Num (45 # 10)) /\
    fl_eq (snd (ylim ax)) (Num (55 # 10)).
Proof.
  destruct (generic_axis_limits Samples.kst [Samples.disk_info] 0 13 Samples.disk_metric
              eq_refl ltac:(vm_compute; discriminate))
    as (_ & mn & mx & _ & _ & _ & _ & H).
  eexists. split; [reflexivity|]. apply H.
  intros p [<-|[<-|[<-|[]]]]; reflexivity.
Defined.

Lemma generate_date_ticks_shape_witness :
  (100 <= 130)%Z /\
  generate_date_ticks 100 130
    = (100 :: Stated.weekly 100 (Z.to_nat ((130 - 100 - 1) / 7)) ++ [130])%Z /\
  last (generate_date_ticks 100 130) 100%Z = 130%Z.
Proof.
  assert (H : (100 <= 130)%Z) by lia.
  split; [exact H|].
  destruct (generate_date_ticks_shape H) as (_ & Hlt & _ & Hlast & _).
  split; [apply Hlt; lia|exact Hlast].
Defined.

Lemma server_failures_are_isolated_witness :
  server_iteration
    (date_range_body Samples.flaky_query Samples.render_ok Samples.dashboard_ok)
    1 (Samples.web "web2"%string) Samples.start_state
  = (inr 1%nat,
     {| world := tt;
        log := [ServerStarted "web2"%string; ServerError "web2"%string "timeout"%string] |}) /\
  (exists evs,
      log Samples.final_state = log Samples.start_state ++ evs /\
      (true = true <-> exists name, In (ServerDone name) evs)) /\
  exists n w evs,
    date_range_servers Samples.flaky_query Samples.render_ok Samples.dashboard_ok
      Samples.three_servers Samples.start_state
    = (inr n, {| world := w; log := log Samples.start_state ++ evs |}) /\
    completed evs = ["web1"; "web3"]%string /\
    site_success n = true.
Proof.
  destruct (server_failures_are_isolated Datatypes.unit) as (H1 & H2 & _ & H4).
  split; [|split].
  - exact (H1 (date_range_body Samples.flaky_query Samples.render_ok Samples.dashboard_ok)
              1%nat (Samples.web "web2"%string) Samples.start_state
              {| world := tt; log := [ServerStarted "web2"%string] |} "timeout"%string
              eq_refl eq_refl).
  - destruct (H4 Samples.flaky_query Samples.unit_ok Samples.plot_ok Samples.dashboard_ok
                 Samples.summary_ok "site"%string Samples.site Samples.start_state
                 Samples.final_state true) as (evs & A & B & _).
    { vm_compute. reflexivity. }
    exists evs. split; [exact A|exact B].
  - pose proof (H2 Samples.flaky_query Samples.render_ok Samples.dashboard_ok
                   Samples.three_servers Samples.start_state) as H.
    cbv zeta in H. destruct H as (n & w & evs & E & _ & _ & _ & _ & Hc & _ & Hflag).
    exists n, w, evs. split; [exact E|]. split; [exact Hc|].
    apply Hflag. exists "web1"%string. left. reflexivity.
Defined.

Lemma dashboard_grid_covers_witness :
  ([Samples.cpu_metric; Samples.disk_metric; Samples.empty_metric; Samples.cpu_metric] <> [] /\
   (4 <= grid_rows 4 * grid_cols 4)%nat /\
   exists steps,
     create_improved_dashboard_layout
       [Samples.cpu_metric; Samples.disk_metric; Samples.empty_metric; Samples.cpu_metric]
     = Some steps /\
     length steps = 4%nat /\
     create_dashboard_layout
       [Samples.cpu_metric; Samples.disk_metric; Samples.empty_metric; Samples.cpu_metric]
     = inr (Some steps)) /\
  ([Samples.cpu_metric] <> [] /\
   create_improved_dashboard_layout [Samples.cpu_metric]
   = Some [Drawn (Flat 0) Samples.cpu_metric] /\
   create_dashboard_layout [Samples.cpu_metric] = inl (NameError "np")).
Proof.
  assert (H : [Samples.cpu_metric; Samples.disk_metric; Samples.empty_metric;
               Samples.cpu_metric] <> []) by discriminate.
  assert (H1 : [Samples.cpu_metric] <> []) by discriminate.
  split.
  - split; [exact H|].
    destruct (dashboard_grid_covers H) as (_ & _ & Hcov & _ & (steps & E & Hlen & _ & E2) & _).
    split; [exact Hcov|]. exists steps. split; [exact E|]. split; [exact Hlen|].
    apply E2. cbn. lia.
  - split; [exact H1|].
    destruct (dashboard_grid_covers H1) as (_ & _ & _ & _ & _ & Hraise).
    split; [reflexivity|]. apply Hraise. reflexivity.
Defined.

End Instances.

(** * Further properties of the code *)

(** ** Data frames and statistics *)

Section FrameFacts.

Import DataProcessor Calendar.

Lemma count_positive (l : list Q) : l <> [] -> 0 < Series.count l.
Proof.
  intros H. unfold Series.count. change 0 with (inject_Z 0). rewrite <- Zlt_Qlt.
  destruct l; [congruence|simpl length; lia].
Qed.

Lemma sum_nonneg (l : list Q) : (forall x, In x l -> 0 <= x) -> 0 <= Series.sum l.
Proof.
  induction l as [|x t IH]; intros H; [apply Qle_refl|].
  cbn [Series.sum fold_right]. fold (Series.sum t).
  pose proof (H x (or_introl eq_refl)).
  pose proof (IH (fun y Hy => H y (or_intror Hy))). lra.
Qed.

(** A mean of values that are not negative is not negative; this holds of
    the rounded mean as well. *)
Lemma mean_nonneg (l : list Q) :
  l <> [] -> (forall x, In x l -> 0 <= x) ->
  exists q, Series.mean l = Num q /\ 0 <= q.
Proof.
  intros Hne H. exists (Series.sum l / Series.count l).
  split; [apply mean_num; exact Hne|].
  apply Qle_shift_div_l; [apply count_positive; exact Hne|].
  rewrite Qmult_0_l. apply sum_nonneg. exact H.
Qed.

Lemma hour_of_bounds (dt : Z) :
  (0 <= hour_of dt <= 23)%Z /\
  (date_of dt * ms_per_day + hour_of dt * ms_per_hour <= dt
   < date_of dt * ms_per_day + (hour_of dt + 1) * ms_per_hour)%Z.
Proof.
  unfold hour_of, date_of, ms_per_day, ms_per_hour.
  zify; Z.to_euclidean_division_equations; lia.
Qed.

Lemma day_name_weekday (dt : Z) : In (day_name dt) weekday_names.
Proof.
  unfold day_name, weekday_names.
  repeat match goal with
         | |- context [match ?z with _ => _ end] => destruct z
         end; simpl; tauto.
Qed.

(** X1. [process_metric_data] returns nothing exactly when the metric has
    no data points.  Otherwise the frame has one row per point, in the
    order of the points and with their timestamp and value; in every row
    the datetime is the timestamp shifted to local time, the date and the
    hour are those of that datetime (the hour between 0 and 23) and the
    day name is one of the seven. *)
Theorem process_metric_data_rows (utc_offset : Z) (m : metric_data) :
  (process_metric_data utc_offset m = None <-> dps m = []) /\
  forall df,
    process_metric_data utc_offset m = Some df ->
    map (fun r => (timestamp r, value r)) df = dps m /\
    length df = length (dps m) /\
    forall r, In r df ->
      datetime r = (timestamp r + utc_offset)%Z /\
      (0 <= hour r <= 23)%Z /\
      (date r * ms_per_day + hour r * ms_per_hour <= datetime r
       < date r * ms_per_day + (hour r + 1) * ms_per_hour)%Z /\
      In (day_of_week r) weekday_names.
Proof.
  unfold process_metric_data. destruct (dps m) as [|p ps] eqn:Hd.
  - split; [tauto|discriminate].
  - split; [split; discriminate|].
    intros df E.
    assert (Hdf : df = map (mk_row utc_offset) (dps m)) by (rewrite Hd; congruence).
    rewrite <- Hd. subst df. clear Hd E.
    split; [|split].
    + rewrite map_map. cbn [timestamp value mk_row].
      rewrite <- (map_id (dps m)) at 2. apply map_ext. intros [t v]. reflexivity.
    + apply length_map.
    + intros r Hr. apply in_map_iff in Hr. destruct Hr as (pt & <- & _).
      cbn [mk_row datetime timestamp hour date day_of_week]. unfold fromtimestamp.
      split; [reflexivity|].
      destruct (hour_of_bounds (fst pt + utc_offset)) as [H1 H2].
      split; [exact H1|]. split; [exact H2|]. apply day_name_weekday.
Qed.

Lemma sum_squares_nonneg (m : Q) (l : list Q) :
  0 <= Series.sum (map (fun x => (x - m) * (x - m)) l).
Proof.
  induction l as [|x t IH]; [apply Qle_refl|].
  cbn [map Series.sum fold_right]. fold (Series.sum (map (fun x => (x - m) * (x - m)) t)).
  assert (0 <= (x - m) * (x - m)).
  { destruct (Qlt_le_dec (x - m) 0) as [L|L].
    - setoid_replace ((x - m) * (x - m)) with ((m - x) * (m - x)) by ring.
      apply Qmult_le_0_compat; lra.
    - apply Qmult_le_0_compat; assumption. }
  lra.
Qed.

(** X2. [calculate_statistics] returns nothing exactly on an empty frame.
    Otherwise the count is the number of rows, the minimum, the maximum
    and the mean are numbers, every value lies between the reported
    minimum and maximum, every datetime lies between the first and the
    last time, and the standard deviation is undefined (NaN) for a single
    row and has a non-negative square for two rows or more. *)
Theorem calculate_statistics_summary (df : dataframe) :
  (calculate_statistics df = None <-> df = []) /\
  forall st,
    calculate_statistics df = Some st ->
    count st = length df /\
    (exists mn mx avg, min st = Num mn /\ max st = Num mx /\ mean st = Num avg) /\
    (forall r, In r df ->
       fl_le (min st) (Num (value r)) /\ fl_le (Num (value r)) (max st) /\
       (first_time st <= datetime r <= last_time st)%Z) /\
    (length df = 1%nat -> std_squared st = NaN) /\
    ((2 <= length df)%nat -> fl_le (Num 0) (std_squared st)).
Proof.
  destruct df as [|r rs].
  - split; [split; reflexivity|discriminate].
  - split; [split; discriminate|].
    intros st E. unfold calculate_statistics in E.
    assert (Est : st = {|
          count := length (r :: rs);
          min := Series.min (values (r :: rs));
          max := Series.max (values (r :: rs));
          mean := Series.mean (values (r :: rs));
          median := Series.median (values (r :: rs));
          std_squared := Series.std_squared (values (r :: rs));
          first_time := datetime_min r rs;
          last_time := datetime_max r rs;
          percentile_table :=
            map (fun p => (p, Series.quantile (inject_Z p / 100) (values (r :: rs))))
                percentiles;
          daily_avg := groupby_mean Z.eq_dec date (r :: rs);
          hourly_avg := groupby_mean Z.eq_dec hour (r :: rs);
          day_of_week_avg := groupby_mean string_dec day_of_week (r :: rs) |})
      by congruence.
    clear E. subst st. cbn [count min max mean std_squared first_time last_time].
    assert (Hb : forall x, In x (values (r :: rs)) ->
                 fold_left Qmin (values rs) (value r) <= x /\
                 x <= fold_left Qmax (values rs) (value r)).
    { intros x Hx. split; [apply fold_min_le|apply fold_max_ge]; exact Hx. }
    split; [reflexivity|].
    split; [do 3 eexists; split; [reflexivity|split; reflexivity]|].
    split; [|split].
    + intros x Hx. split; [|split].
      * apply (Hb (value x)). apply in_map. exact Hx.
      * apply (Hb (value x)). apply in_map. exact Hx.
      * destruct (fold_zmin_spec (map datetime rs) (datetime r)) as [_ Hmin].
        destruct (fold_zmax_spec (map datetime rs) (datetime r)) as [_ Hmax].
        unfold datetime_min, datetime_max.
        assert (Hin : In (datetime x) (datetime r :: map datetime rs))
          by (change (datetime r :: map datetime rs) with (map datetime (r :: rs));
              apply in_map; exact Hx).
        split; [apply Hmin|apply Hmax]; exact Hin.
    + intros Hlen. destruct rs; [reflexivity|discriminate].
    + intros Hlen. destruct rs as [|r2 rs]; [simpl in Hlen; lia|].
      unfold Series.std_squared. cbn [values map fl_le].
      set (l := value r :: value r2 :: map value rs).
      apply Qle_shift_div_l.
      * unfold Series.count, l. simpl length.
        rewrite !Nat2Z.inj_succ. unfold Z.succ. rewrite !inject_Z_plus.
        change (inject_Z 1) with 1.
        assert (0 <= inject_Z (Z.of_nat (length (map value rs))))
          by (change 0 with (inject_Z 0); rewrite <- Zle_Qle; lia).
        lra.
      * rewrite Qmult_0_l. exact (sum_squares_nonneg (Series.sum l / Series.count l) l).
Qed.

End FrameFacts.

(** ** Grouped averages *)

Section GroupFacts.

Import DataProcessor Analysis.

Variable K : Type.
Variable eq_dec : forall a b : K, {a = b} + {a <> b}.
Variable key : row -> K.

Let group (k : K) (df : dataframe) : dataframe :=
  filter (fun r => if eq_dec (key r) k then true else false) df.

Lemma group_In (k : K) (df : dataframe) (r : row) :
  In r (group k df) <-> In r df /\ key r = k.
Proof.
  unfold group. rewrite filter_In. destruct (eq_dec (key r) k); intuition congruence.
Qed.

Lemma groupby_mean_keys (df : dataframe) :
  map fst (groupby_mean eq_dec key df) = nodup eq_dec (map key df).
Proof.
  unfold groupby_mean. rewrite map_map. cbn [fst]. apply map_id.
Qed.

Lemma groupby_mean_entry (df : dataframe) (k : K) (v : fl) :
  In (k, v) (groupby_mean eq_dec key df) ->
  group k df <> [] /\ v = Series.mean (values (group k df)).
Proof.
  unfold groupby_mean. intros H. apply in_map_iff in H.
  destruct H as (k' & E & Hk). injection E as -> <-. split; [|reflexivity].
  apply nodup_In in Hk. apply in_map_iff in Hk. destruct Hk as (r & Hr & Hin).
  intros Hnil. assert (H : In r (group k df)) by (apply group_In; auto).
  rewrite Hnil in H. exact H.
Qed.

(** What [df.groupby(key)['value'].mean()] gives: one entry per distinct
    key of the frame, each with a number, and no more entries than
    rows. *)
Lemma groupby_mean_spec (df : dataframe) :
  NoDup (map fst (groupby_mean eq_dec key df)) /\
  (forall k, In k (map fst (groupby_mean eq_dec key df)) <->
             exists r, In r df /\ key r = k) /\
  (forall k v, In (k, v) (groupby_mean eq_dec key df) -> exists q, v = Num q) /\
  (length (groupby_mean eq_dec key df) <= length df)%nat.
Proof.
  rewrite <- (length_map fst (groupby_mean eq_dec key df)).
  rewrite groupby_mean_keys.
  split; [apply NoDup_nodup|]. split; [|split].
  - intros k. rewrite nodup_In, in_map_iff.
    split; intros (r & H1 & H2); exists r; auto.
  - intros k v H. apply groupby_mean_entry in H. destruct H as [Hne ->].
    eexists. apply mean_num.
    unfold values. intros E. apply map_eq_nil in E. contradiction.
  - rewrite <- (length_map key df).
    apply NoDup_incl_length; [apply NoDup_nodup|].
    intros k Hk. apply nodup_In in Hk. exact Hk.
Qed.

End GroupFacts.

Section GroupedAverages.

Import DataProcessor Analysis Calendar.

(** X3. The grouped averages of [calculate_statistics], for a frame built
    by [process_metric_data]: each of the three tables has exactly one
    entry, holding a number, per distinct day, hour of day or day name
    occurring in the frame, and no more entries than the frame has rows;
    the hours lie between 0 and 23 and are at most 24, the day names are
    among the seven and are at most 7. *)
Theorem grouped_averages (utc_offset : Z) (pts : list (Z * Q)) (st : statistics) :
  let df := map (mk_row utc_offset) pts in
  calculate_statistics df = Some st ->
  (NoDup (map fst (daily_avg st)) /\
   (forall d, In d (map fst (daily_avg st)) <-> exists r, In r df /\ date r = d) /\
   (forall d v, In (d, v) (daily_avg st) -> exists q, v = Num q) /\
   (length (daily_avg st) <= length df)%nat) /\
  (NoDup (map fst (hourly_avg st)) /\
   (forall h, In h (map fst (hourly_avg st)) <-> exists r, In r df /\ hour r = h) /\
   (forall h v, In (h, v) (hourly_avg st) -> (0 <= h <= 23)%Z /\ exists q, v = Num q) /\
   (length (hourly_avg st) <= 24)%nat /\
   (length (hourly_avg st) <= length df)%nat) /\
  (NoDup (map fst (day_of_week_avg st)) /\
   (forall n, In n (map fst (day_of_week_avg st)) <->
              exists r, In r df /\ day_of_week r = n) /\
   (forall n v, In (n, v) (day_of_week_avg st) ->
                In n weekday_names /\ exists q, v = Num q) /\
   (length (day_of_week_avg st) <= 7)%nat /\
   (length (day_of_week_avg st) <= length df)%nat).
Proof.
  intros df E. destruct df as [|r rs] eqn:Hdf; [discriminate|].
  assert (Hrows : forall x, In x (r :: rs) ->
            (0 <= hour x <= 23)%Z /\ In (day_of_week x) weekday_names).
  { intros x Hx. rewrite <- Hdf in Hx. apply in_map_iff in Hx.
    destruct Hx as (p & <- & _). cbn [mk_row hour day_of_week].
    split; [apply hour_of_bounds|apply day_name_weekday]. }
  unfold calculate_statistics in E.
  assert (Hd : daily_avg st = groupby_mean Z.eq_dec date (r :: rs))
    by (injection E as <-; reflexivity).
  assert (Hh : hourly_avg st = groupby_mean Z.eq_dec hour (r :: rs))
    by (injection E as <-; reflexivity).
  assert (Hw : day_of_week_avg st = groupby_mean string_dec day_of_week (r :: rs))
    by (injection E as <-; reflexivity).
  clear E. rewrite Hd, Hh, Hw.
  destruct (@groupby_mean_spec Z Z.eq_dec date (r :: rs)) as (D1 & D2 & D3 & D4).
  destruct (@groupby_mean_spec Z Z.eq_dec hour (r :: rs)) as (H1 & H2 & H3 & H4).
  destruct (@groupby_mean_spec string string_dec day_of_week (r :: rs))
    as (W1 & W2 & W3 & W4).
  split; [|split].
  - split; [exact D1|]. split; [exact D2|]. split; [exact D3|exact D4].
  - split; [exact H1|]. split; [exact H2|]. split; [|split; [|exact H4]].
    + intros h v Hin. split; [|exact (H3 h v Hin)].
      assert (Hk : In h (map fst (groupby_mean Z.eq_dec hour (r :: rs))))
        by (apply in_map_iff; exists (h, v); auto).
      apply H2 in Hk. destruct Hk as (x & Hx & <-). apply Hrows. exact Hx.
    + rewrite <- (length_map fst).
      change 24%nat with (length (map Z.of_nat (seq 0 24))).
      apply NoDup_incl_length; [exact H1|].
      intros h Hk. apply H2 in Hk. destruct Hk as (x & Hx & <-).
      destruct (Hrows x Hx) as [Hb _].
      apply in_map_iff. exists (Z.to_nat (hour x)). split; [lia|].
      apply in_seq. lia.
  - split; [exact W1|]. split; [exact W2|]. split; [|split; [|exact W4]].
    + intros n v Hin. split; [|exact (W3 n v Hin)].
      assert (Hk : In n (map fst (groupby_mean string_dec day_of_week (r :: rs))))
        by (apply in_map_iff; exists (n, v); auto).
      apply W2 in Hk. destruct Hk as (x & Hx & <-). apply Hrows. exact Hx.
    + rewrite <- (length_map fst).
      change 7%nat with (length weekday_names).
      apply NoDup_incl_length; [exact W1|].
      intros n Hk. apply W2 in Hk. destruct Hk as (x & Hx & <-). apply Hrows. exact Hx.
Qed.

End GroupedAverages.

(** ** Anomalies, continued *)

Section AnomalyFacts2.

Import DataProcessor.

Lemma filter_filter {A} (f g : A -> bool) (l : list A) :
  filter f (filter g l) = filter (fun x => g x && f x) l.
Proof.
  induction l as [|a t IH]; [reflexivity|]. cbn [filter].
  destruct (g a); cbn [filter andb]; [destruct (f a)|]; rewrite IH; reflexivity.
Qed.

Lemma filter_length_le {A} (f : A -> bool) (l : list A) :
  (length (filter f l) <= length l)%nat.
Proof.
  induction l as [|a t IH]; [apply Nat.le_refl|]. cbn [filter].
  destruct (f a); simpl; lia.
Qed.

(** X4. With both thresholds given and the warning threshold at or below
    the critical one, the critical list is the warning list restricted to
    the rows at or above the critical threshold: every critical row is a
    warning row and the critical list is no longer than the warning list.
    A threshold that is not configured gives an empty list. *)
Theorem anomaly_lists_nested (df : dataframe) (tw tc : option Q) (a : anomalies) :
  detect_anomalies df tw tc = Some a ->
  (tw = None -> warning a = []) /\
  (tc = None -> critical a = []) /\
  (forall w c, tw = Some w -> tc = Some c -> w <= c ->
     critical a = filter (fun r => Qle_bool c (value r)) (warning a) /\
     (forall r, In r (critical a) -> In r (warning a)) /\
     (length (critical a) <= length (warning a))%nat).
Proof.
  intros E. unfold detect_anomalies in E. destruct df as [|r0 rs]; [discriminate|].
  assert (Hw : warning a = threshold_points tw (r0 :: rs)) by (injection E as <-; reflexivity).
  assert (Hc : critical a = threshold_points tc (r0 :: rs)) by (injection E as <-; reflexivity).
  clear E. rewrite Hw, Hc.
  split; [intros ->; reflexivity|]. split; [intros ->; reflexivity|].
  intros w c -> -> Hwc. unfold threshold_points.
  assert (Heq : filter (fun r => Qle_bool c (value r)) (r0 :: rs)
                = filter (fun r => Qle_bool c (value r))
                         (filter (fun r => Qle_bool w (value r)) (r0 :: rs))).
  { rewrite filter_filter. apply filter_ext. intros x.
    destruct (Qle_bool c (value x)) eqn:Ec; [|rewrite andb_false_r; reflexivity].
    apply Qle_bool_iff in Ec.
    assert (Ew : Qle_bool w (value x) = true) by (apply Qle_bool_iff; lra).
    rewrite Ew. reflexivity. }
  split; [exact Heq|]. split.
  - intros r Hr. rewrite Heq in Hr. apply filter_In in Hr. tauto.
  - rewrite Heq. apply filter_length_le.
Qed.

(** X5. The outlier fences bracket the quartiles,
    [Q1 - 1.5 IQR <= Q1 <= Q3 <= Q3 + 1.5 IQR], so a row whose value lies
    between the first and the third quartile is never reported as an
    outlier, whatever the thresholds. *)
Theorem quartile_rows_are_not_outliers (df : dataframe) (tw tc : option Q)
  (a : anomalies) :
  detect_anomalies df tw tc = Some a ->
  exists q1 q3,
    Series.quantile (25 # 100) (values df) = Num q1 /\
    Series.quantile (75 # 100) (values df) = Num q3 /\
    q1 - (15 # 10) * (q3 - q1) <= q1 /\ q1 <= q3 /\ q3 <= q3 + (15 # 10) * (q3 - q1) /\
    forall r, In r df -> q1 <= value r -> value r <= q3 -> ~ In r (outliers a).
Proof.
  intros E. unfold detect_anomalies in E. destruct df as [|r0 rs]; [discriminate|].
  assert (Hv : values (r0 :: rs) <> []) by discriminate.
  destruct (quantile_num (25 # 100) Hv) as [q1 E1].
  destruct (quantile_num (75 # 100) Hv) as [q3 E3].
  assert (Hq : q1 <= q3).
  { pose proof (@quantile_mono (25 # 100) (75 # 100) _ Hv
                  ltac:(qclosed) ltac:(qclosed) ltac:(qclosed)) as H.
    rewrite E1, E3 in H. exact H. }
  assert (Ho : outliers a
               = outside (q1 - (15 # 10) * (q3 - q1)) (q3 + (15 # 10) * (q3 - q1)) (r0 :: rs)).
  { rewrite E1, E3 in E. injection E as <-. reflexivity. }
  exists q1, q3. split; [exact E1|]. split; [exact E3|].
  split; [lra|]. split; [exact Hq|]. split; [lra|].
  intros r Hr H1 H3 Hin. rewrite Ho in Hin. apply outside_spec in Hin.
  destruct Hin as [_ [H|H]]; lra.
Qed.

End AnomalyFacts2.

(** ** Period comparison, continued *)

Section ComparisonFacts2.

Import DataProcessor.

Lemma date_of_mono (a b : Z) : (a <= b)%Z -> (date_of a <= date_of b)%Z.
Proof. intros H. unfold date_of, ms_per_day. apply Z.div_le_mono; lia. Qed.

Lemma datetime_min_spec (r : row) (rs : dataframe) :
  (exists x, In x (r :: rs) /\ datetime x = datetime_min r rs) /\
  forall x, In x (r :: rs) -> (datetime_min r rs <= datetime x)%Z.
Proof.
  split; [apply datetime_min_row|].
  intros x Hx. destruct (fold_zmin_spec (map datetime rs) (datetime r)) as [_ H].
  apply H. change (datetime r :: map datetime rs) with (map datetime (r :: rs)).
  apply in_map. exact Hx.
Qed.

Lemma datetime_max_spec (r : row) (rs : dataframe) :
  (exists x, In x (r :: rs) /\ datetime x = datetime_max r rs) /\
  forall x, In x (r :: rs) -> (datetime x <= datetime_max r rs)%Z.
Proof.
  destruct (fold_zmax_spec (map datetime rs) (datetime r)) as [Hin H]. split.
  - change (datetime r :: map datetime rs) with (map datetime (r :: rs)) in Hin.
    apply in_map_iff in Hin. destruct Hin as (x & E & Hx). exists x. split; assumption.
  - intros x Hx. apply H.
    change (datetime r :: map datetime rs) with (map datetime (r :: rs)).
    apply in_map. exact Hx.
Qed.

Lemma series_num (l : list Q) :
  l <> [] ->
  exists m mx mn,
    Series.mean l = Num m /\ Series.max l = Num mx /\ Series.min l = Num mn.
Proof.
  destruct l as [|x t]; [congruence|]. intros _.
  do 3 eexists. repeat split.
Qed.

Lemma previous_rows_nonempty (r : row) (rs : dataframe) (period_days : Z) :
  (1 <= period_days)%Z ->
  (period_days * 2 <= date_of (datetime_max r rs) - date_of (datetime_min r rs))%Z ->
  rows_until (date_of (datetime_max r rs) - period_days) (r :: rs) <> [].
Proof.
  intros Hp L. destruct (datetime_min_spec r rs) as [(x0 & Hx0 & E0) _].
  assert (P0 : In x0 (rows_until (date_of (datetime_max r rs) - period_days) (r :: rs))).
  { apply rows_until_spec. split; [exact Hx0|]. rewrite E0. lia. }
  intros Hnil. rewrite Hnil in P0. exact P0.
Qed.

(** X6. When [compare_time_periods] returns a comparison for a period of
    at least one day, neither period is empty: both have a mean, a
    maximum and a minimum; the previous period starts on the first date
    of the frame and the current period ends on its last date; and the
    previous period ends at or before the boundary date, after which the
    current period starts. *)
Theorem comparison_periods_nonempty (r : row) (rs : dataframe) (period_days : Z)
  (c : comparison) :
  (1 <= period_days)%Z ->
  compare_time_periods (r :: rs) period_days = Some c ->
  let min_date := date_of (datetime_min r rs) in
  let max_date := date_of (datetime_max r rs) in
  let mid_date := (max_date - period_days)%Z in
  (1 <= p_count (current_period c))%nat /\
  (1 <= p_count (previous_period c))%nat /\
  (exists m mx mn, p_mean (current_period c) = Num m /\
                   p_max (current_period c) = Num mx /\
                   p_min (current_period c) = Num mn) /\
  (exists m mx mn, p_mean (previous_period c) = Num m /\
                   p_max (previous_period c) = Num mx /\
                   p_min (previous_period c) = Num mn) /\
  p_start_date (previous_period c) = Some min_date /\
  p_end_date (current_period c) = Some max_date /\
  exists d1 d2,
    p_end_date (previous_period c) = Some d1 /\
    p_start_date (current_period c) = Some d2 /\
    (d1 <= mid_date < d2)%Z.
Proof.
  intros Hp E min_date max_date mid_date. unfold compare_time_periods in E.
  fold min_date max_date mid_date in E.
  destruct (Z.ltb_spec (max_date - min_date) (period_days * 2)) as [L|L]; [discriminate|].
  assert (Hcur : current_period c = period_statistics (rows_after mid_date (r :: rs)))
    by (injection E as <-; reflexivity).
  assert (Hprev : previous_period c = period_statistics (rows_until mid_date (r :: rs)))
    by (injection E as <-; reflexivity).
  clear E. rewrite Hcur, Hprev. clear Hcur Hprev.
  destruct (datetime_min_spec r rs) as [(x0 & Hx0 & E0) Hmin].
  destruct (datetime_max_spec r rs) as [(x1 & Hx1 & E1) Hmax].
  assert (P0 : In x0 (rows_until mid_date (r :: rs))).
  { apply rows_until_spec. split; [exact Hx0|]. rewrite E0. fold min_date. lia. }
  assert (C1 : In x1 (rows_after mid_date (r :: rs))).
  { apply rows_after_spec. split; [exact Hx1|]. rewrite E1. fold max_date. lia. }
  destruct (rows_until mid_date (r :: rs)) as [|p ps] eqn:Eprev; [contradiction|].
  destruct (rows_after mid_date (r :: rs)) as [|q qs] eqn:Ecur; [contradiction|].
  assert (Sprev : forall x, In x (p :: ps) ->
                    In x (r :: rs) /\ (date_of (datetime x) <= mid_date)%Z)
    by (intros x Hx; rewrite <- Eprev in Hx; apply rows_until_spec; exact Hx).
  assert (Scur : forall x, In x (q :: qs) ->
                   In x (r :: rs) /\ (mid_date < date_of (datetime x))%Z)
    by (intros x Hx; rewrite <- Ecur in Hx; apply rows_after_spec; exact Hx).
  destruct (datetime_min_spec p ps) as [(y0 & Hy0 & F0) Pmin].
  destruct (datetime_max_spec p ps) as [(y1 & Hy1 & F1) Pmax].
  destruct (datetime_min_spec q qs) as [(z0 & Hz0 & G0) Cmin].
  destruct (datetime_max_spec q qs) as [(z1 & Hz1 & G1) Cmax].
  cbn [period_statistics p_count p_mean p_max p_min p_start_date p_end_date].
  split; [simpl; lia|]. split; [simpl; lia|].
  split; [apply series_num; discriminate|].
  split; [apply series_num; discriminate|].
  split; [|split].
  - f_equal. unfold min_date. f_equal.
    pose proof (Pmin x0 P0). pose proof (Hmin y0 (proj1 (Sprev y0 Hy0))). lia.
  - f_equal. unfold max_date. f_equal.
    pose proof (Cmax x1 C1). pose proof (Hmax z1 (proj1 (Scur z1 Hz1))). lia.
  - exists (date_of (datetime_max p ps)), (date_of (datetime_min q qs)).
    split; [reflexivity|]. split; [reflexivity|].
    rewrite <- F1, <- G0.
    pose proof (proj2 (Sprev y1 Hy1)). pose proof (proj2 (Scur z0 Hz0)). lia.
Qed.

(** X7. A zero denominator hides the direction of a change: when every
    row of the previous period has the value 0, the three reported changes
    are positive infinity whatever the current period holds, also for a
    metric that stays at 0 throughout. *)
Theorem zero_previous_period_gives_infinity (r : row) (rs : dataframe)
  (period_days : Z) (c : comparison) :
  (1 <= period_days)%Z ->
  compare_time_periods (r :: rs) period_days = Some c ->
  (forall x, In x (r :: rs) ->
     (date_of (datetime x) <= date_of (datetime_max r rs) - period_days)%Z ->
     value x == 0) ->
  mean_change (period_changes c) = PInf /\
  max_change (period_changes c) = PInf /\
  min_change (period_changes c) = PInf.
Proof.
  intros Hp E Hzero.
  unfold compare_time_periods in E.
  destruct (Z.ltb_spec (date_of (datetime_max r rs) - date_of (datetime_min r rs))
                       (period_days * 2)) as [L|L]; [discriminate|].
  pose proof (previous_rows_nonempty r rs Hp L) as Hne.
  set (mid_date := (date_of (datetime_max r rs) - period_days)%Z) in *.
  assert (Hch : period_changes c =
     {| mean_change := percent_change
                         (p_mean (period_statistics (rows_after mid_date (r :: rs))))
                         (p_mean (period_statistics (rows_until mid_date (r :: rs))));
        max_change := percent_change
                         (p_max (period_statistics (rows_after mid_date (r :: rs))))
                         (p_max (period_statistics (rows_until mid_date (r :: rs))));
        min_change := percent_change
                         (p_min (period_statistics (rows_after mid_date (r :: rs))))
                         (p_min (period_statistics (rows_until mid_date (r :: rs)))) |})
    by (injection E as <-; reflexivity).
  rewrite Hch. cbn [mean_change max_change min_change period_statistics p_mean p_max p_min].
  clear E Hch.
  destruct (rows_until mid_date (r :: rs)) as [|p ps] eqn:Eprev; [congruence|].
  assert (Hall : forall v, In v (values (p :: ps)) -> v == 0).
  { intros v Hv. unfold values in Hv. apply in_map_iff in Hv.
    destruct Hv as (x & <- & Hx). rewrite <- Eprev in Hx.
    apply rows_until_spec in Hx. apply Hzero; tauto. }
  assert (Em : exists m, Series.mean (values (p :: ps)) = Num m /\ m == 0).
  { eexists. split; [reflexivity|].
    apply (@mean_constant 0 (values (p :: ps)) _ Hall). reflexivity. }
  destruct Em as (m & -> & Hm).
  assert (Emx : exists mx, Series.max (values (p :: ps)) = Num mx /\ mx == 0).
  { eexists. split; [reflexivity|]. exact (@fold_max_constant 0 (value p) (values ps) Hall). }
  assert (Emn : exists mn, Series.min (values (p :: ps)) = Num mn /\ mn == 0).
  { eexists. split; [reflexivity|]. exact (@fold_min_constant 0 (value p) (values ps) Hall). }
  destruct Emx as (mx & -> & Hmx). destruct Emn as (mn & -> & Hmn).
  unfold percent_change.
  rewrite (proj2 (fl_nonzero_num m) Hm).
  rewrite (proj2 (fl_nonzero_num mx) Hmx).
  rewrite (proj2 (fl_nonzero_num mn) Hmn).
  repeat split.
Qed.

End ComparisonFacts2.

(** ** Composite analyses *)

Section DictFacts.

Import Dict.

Variable V : Type.

Lemma get_set (k k' : string) (v : V) (d : dict V) :
  get k' (set k v d) = if String.eqb k k' then Some v else get k' d.
Proof.
  unfold get. induction d as [|[k0 v0] t IH]; cbn [set find fst snd].
  - destruct (String.eqb k k'); reflexivity.
  - destruct (String.eqb_spec k0 k) as [->|Hk0]; cbn [find fst snd].
    + destruct (String.eqb k k'); reflexivity.
    + destruct (String.eqb_spec k0 k') as [->|Hk0'].
      * destruct (String.eqb_spec k k'); [congruence|reflexivity].
      * exact IH.
Qed.

Lemma keys_set (k k' : string) (v : V) (d : dict V) :
  In k' (keys (set k v d)) <-> k' = k \/ In k' (keys d).
Proof.
  unfold keys. induction d as [|[k0 v0] t IH]; cbn [set map fst In].
  - intuition.
  - destruct (String.eqb_spec k0 k) as [->|Hk0]; cbn [map fst In].
    + intuition.
    + rewrite IH. intuition.
Qed.

Lemma keys_set_length (k : string) (v : V) (d : dict V) :
  (length (set k v d) <= S (length d))%nat.
Proof.
  induction d as [|[k0 v0] t IH]; cbn [set length]; [lia|].
  destruct (String.eqb k0 k); cbn [length]; lia.
Qed.

Lemma NoDup_set (k : string) (v : V) (d : dict V) :
  NoDup (keys d) -> NoDup (keys (set k v d)).
Proof.
  unfold keys. induction d as [|[k0 v0] t IH]; cbn [set map fst]; intros H.
  - constructor; [intros []|constructor].
  - inversion H as [|? ? Hnin Hnd]; subst.
    destruct (String.eqb_spec k0 k) as [->|Hk0]; cbn [map fst].
    + constructor; assumption.
    + constructor; [|apply IH; exact Hnd].
      intros Hin. apply (keys_set k k0 v t) in Hin. destruct Hin; [congruence|contradiction].
Qed.

Lemma get_In_keys (k : string) (d : dict V) :
  get k d <> None <-> In k (keys d).
Proof.
  unfold get, keys. induction d as [|[k0 v0] t IH]; cbn [find map fst snd In].
  - split; [congruence|tauto].
  - destruct (String.eqb_spec k0 k) as [->|Hk0].
    + split; [auto|discriminate].
    + rewrite IH. intuition congruence.
Qed.

End DictFacts.

Section AnalysisFacts.

Import DataProcessor Analysis.

Lemma Qdiv_le_iff (a b c : Q) : 0 < b -> (a / b <= c <-> a <= c * b).
Proof.
  intros Hb. split; intros H.
  - setoid_replace a with (a / b * b) by (field; lra).
    apply Qmult_le_compat_r; [exact H|lra].
  - apply Qle_shift_div_r; assumption.
Qed.

Lemma Qdiv_ge_iff (a b c : Q) : 0 < b -> (c <= a / b <-> c * b <= a).
Proof.
  intros Hb. split; intros H.
  - setoid_replace a with (a / b * b) by (field; lra).
    apply Qmult_le_compat_r; [exact H|lra].
  - apply Qle_shift_div_l; assumption.
Qed.

Lemma some_inj {A} (x y : A) : Some x = Some y -> x = y.
Proof. congruence. Qed.

Lemma analyze_metric_cases (utc_offset : Z) (m : metric_data)
  (info : option DateRangeReport.metric_info) :
  (dps m = [] /\ analyze_metric utc_offset m info = None) \/
  (exists p ps,
      dps m = p :: ps /\
      let r := mk_row utc_offset p in
      let rs := map (mk_row utc_offset) ps in
      analyze_metric utc_offset m info =
      Some {|
        metric_key := metric m;
        metric_name := info_name info (metric m);
        data_points := length (r :: rs);
        time_range :=
          {| range_start := datetime_min r rs;
             range_end := datetime_max r rs;
             duration_hours :=
               inject_Z (datetime_max r rs - datetime_min r rs) / inject_Z ms_per_hour |};
        statistics_of := calculate_statistics (r :: rs);
        anomalies_of := detect_anomalies (r :: rs) (info_warning info) (info_critical info);
        period_comparison := compare_time_periods (r :: rs) 7
      |}).
Proof.
  unfold analyze_metric, process_metric_data.
  destruct (dps m) as [|p ps]; [left; split; reflexivity|].
  right. exists p, ps. split; reflexivity.
Qed.

(** X8. [analyze_metric] returns nothing exactly when the metric has no
    data points.  Otherwise the analysis carries the key of the metric,
    the number of points, statistics over all of them and the anomaly
    lists; without a metric definition the name falls back to the key and
    the threshold lists are empty; the time range is ordered and its
    duration is not negative; and the period comparison is absent for a
    series of 312 hours (13 days) or less and present for one of 360
    hours (15 days) or more. *)
Theorem analyze_metric_summary (utc_offset : Z) (m : metric_data)
  (info : option DateRangeReport.metric_info) :
  (analyze_metric utc_offset m info = None <-> dps m = []) /\
  forall a,
    analyze_metric utc_offset m info = Some a ->
    metric_key a = metric m /\
    data_points a = length (dps m) /\
    (exists st, statistics_of a = Some st /\ count st = length (dps m)) /\
    (exists an, anomalies_of a = Some an /\
                (info = None -> warning an = [] /\ critical an = [])) /\
    (info = None -> metric_name a = metric m) /\
    (range_start (time_range a) <= range_end (time_range a))%Z /\
    0 <= duration_hours (time_range a) /\
    (duration_hours (time_range a) <= 312 -> period_comparison a = None) /\
    (360 <= duration_hours (time_range a) -> period_comparison a <> None).
Proof.
  destruct (analyze_metric_cases utc_offset m info) as [[Hd E]|(p & ps & Hd & E)].
  - rewrite E, Hd. split; [tauto|discriminate].
  - cbv zeta in E. rewrite E, Hd. split; [split; discriminate|].
    intros a Ha. apply some_inj in Ha. subst a.
    set (r := mk_row utc_offset p). set (rs := map (mk_row utc_offset) ps).
    cbn [metric_key data_points statistics_of anomalies_of metric_name time_range
         range_start range_end duration_hours period_comparison].
    pose proof (datetime_min_le_max r rs) as Hle.
    assert (Hh : 0 < inject_Z ms_per_hour) by reflexivity.
    split; [reflexivity|].
    split; [unfold rs; simpl; rewrite length_map; reflexivity|].
    split; [eexists; split; [reflexivity|]|].
    { cbn [count]. unfold rs. simpl. rewrite length_map. reflexivity. }
    split; [eexists; split; [reflexivity|]|].
    { intros ->. split; reflexivity. }
    split; [intros ->; reflexivity|].
    split; [exact Hle|].
    split.
    { apply Qle_shift_div_l; [exact Hh|]. rewrite Qmult_0_l.
      change 0 with (inject_Z 0). rewrite <- Zle_Qle. lia. }
    unfold compare_time_periods, date_of, ms_per_day.
    split.
    + intros H. apply Qdiv_le_iff in H; [|exact Hh].
      change 312 with (inject_Z 312) in H.
      rewrite <- inject_Z_mult, <- Zle_Qle in H. unfold ms_per_hour in H.
      destruct (Z.ltb_spec (datetime_max r rs / 86400000 - datetime_min r rs / 86400000)
                           (7 * 2)) as [L|L]; [reflexivity|].
      exfalso. zify; Z.to_euclidean_division_equations; lia.
    + intros H. apply Qdiv_ge_iff in H; [|exact Hh].
      change 360 with (inject_Z 360) in H.
      rewrite <- inject_Z_mult, <- Zle_Qle in H. unfold ms_per_hour in H.
      destruct (Z.ltb_spec (datetime_max r rs / 86400000 - datetime_min r rs / 86400000)
                           (7 * 2)) as [L|L]; [|discriminate].
      exfalso. zify; Z.to_euclidean_division_equations; lia.
Qed.

End AnalysisFacts.

Section MultipleAnalysisFacts.

Import DataProcessor Analysis.

Variable utc_offset : Z.
Variable metrics_info : list DateRangeReport.metric_info.

Let analyzed (m : metric_data) : option analysis :=
  analyze_metric utc_offset m
    (DateRangeReport.metrics_info_get metrics_info (metric m)).

(** What holds of the results after the metrics [done] have been looped
    over. *)
Let results_ok (done : list metric_data) (results : Dict.dict analysis) : Prop :=
  NoDup (Dict.keys results) /\
  (forall k, In k (Dict.keys results) <->
             exists m, In m done /\ metric m = k /\ dps m <> []) /\
  (forall k a, Dict.get k results = Some a ->
               exists m, In m done /\ metric m = k /\ analyzed m = Some a) /\
  (length results <= length done)%nat.

Lemma analyzed_some (m : metric_data) :
  (exists a, analyzed m = Some a) <-> dps m <> [].
Proof.
  unfold analyzed.
  destruct (analyze_metric_cases utc_offset m
              (DateRangeReport.metrics_info_get metrics_info (metric m)))
    as [[Hd E]|(p & ps & Hd & E)].
  - rewrite E, Hd. split; [intros [a H]; discriminate|congruence].
  - cbv zeta in E. rewrite E, Hd. split; [discriminate|eauto].
Qed.

Lemma analyze_step_ok (done : list metric_data) (results : Dict.dict analysis)
  (m : metric_data) :
  results_ok done results ->
  results_ok (done ++ [m]) (analyze_step utc_offset metrics_info results m).
Proof.
  intros (Hnd & Hkeys & Hget & Hlen). unfold analyze_step. fold (analyzed m).
  pose proof (analyzed_some m) as Hsome.
  destruct (analyzed m) as [a|] eqn:Ea.
  - assert (Hdata : dps m <> []) by (apply Hsome; eauto).
    split; [apply NoDup_set; exact Hnd|]. split; [|split].
    + intros k. rewrite keys_set, Hkeys. split.
      * intros [->|(m' & Hin & Hk & Hd)].
        -- exists m. split; [apply in_or_app; right; left; reflexivity|auto].
        -- exists m'. split; [apply in_or_app; left; exact Hin|auto].
      * intros (m' & Hin & Hk & Hd). apply in_app_or in Hin.
        destruct Hin as [Hin|[<-|[]]]; [right; eauto|left; auto].
    + intros k a'. rewrite get_set.
      destruct (String.eqb_spec (metric m) k) as [<-|Hk].
      * intros H. apply some_inj in H. subst a'. exists m.
        split; [apply in_or_app; right; left; reflexivity|auto].
      * intros H. destruct (Hget k a' H) as (m' & Hin & Hk' & Ha').
        exists m'. split; [apply in_or_app; left; exact Hin|auto].
    + rewrite length_app. simpl.
      pose proof (keys_set_length (metric m) a results). lia.
  - assert (Hdata : dps m = []).
    { destruct (dps m) eqn:Hd; [reflexivity|].
      exfalso. destruct (proj2 Hsome ltac:(discriminate)) as [a Ha]. discriminate. }
    split; [exact Hnd|]. split; [|split].
    + intros k. rewrite Hkeys. split.
      * intros (m' & Hin & H). exists m'. split; [apply in_or_app; left; exact Hin|exact H].
      * intros (m' & Hin & Hk & Hd). apply in_app_or in Hin.
        destruct Hin as [Hin|[<-|[]]]; [eauto|contradiction].
    + intros k a' H. destruct (Hget k a' H) as (m' & Hin & H').
      exists m'. split; [apply in_or_app; left; exact Hin|exact H'].
    + rewrite length_app. simpl. lia.
Qed.

Lemma analyze_fold_ok (todo : list metric_data) :
  forall done results,
    results_ok done results ->
    results_ok (done ++ todo)
               (fold_left (analyze_step utc_offset metrics_info) todo results).
Proof.
  induction todo as [|m t IH]; intros done results H.
  - rewrite app_nil_r. exact H.
  - cbn [fold_left].
    replace (done ++ m :: t) with ((done ++ [m]) ++ t)
      by (rewrite <- app_assoc; reflexivity).
    apply IH. apply analyze_step_ok. exact H.
Qed.

(** X9. [analyze_multiple_metrics] returns nothing exactly when it is
    given no metric.  Otherwise the result has one entry per key for which
    some metric has data points, and no entry for the others; the entry
    stored under a key is the analysis of a metric with that key, made
    with the definition looked up for it; and there are never more
    entries than metrics. *)
Theorem analyze_multiple_metrics_keys (metrics_data : list metric_data) :
  (analyze_multiple_metrics utc_offset metrics_data metrics_info = None
   <-> metrics_data = []) /\
  forall results,
    analyze_multiple_metrics utc_offset metrics_data metrics_info = Some results ->
    NoDup (Dict.keys results) /\
    (forall k, Dict.get k results <> None <->
               exists m, In m metrics_data /\ metric m = k /\ dps m <> []) /\
    (forall k a, Dict.get k results = Some a ->
                 metric_key a = k /\
                 exists m, In m metrics_data /\ metric m = k /\
                           analyze_metric utc_offset m
                             (DateRangeReport.metrics_info_get metrics_info k) = Some a) /\
    (length results <= length metrics_data)%nat.
Proof.
  unfold analyze_multiple_metrics. destruct metrics_data as [|m0 t] eqn:Hm.
  - split; [tauto|discriminate].
  - split; [split; discriminate|]. rewrite <- Hm. clear Hm.
    intros results E. apply some_inj in E. subst results.
    assert (H0 : results_ok [] []).
    { split; [constructor|]. split; [|split; [|apply Nat.le_refl]].
      - intros k. split; [intros []|intros (m & [] & _)].
      - intros k a H. discriminate. }
    destruct (analyze_fold_ok metrics_data H0) as (Hnd & Hkeys & Hget & Hlen).
    cbn [app] in *.
    split; [exact Hnd|]. split; [|split; [|exact Hlen]].
    + intros k. rewrite get_In_keys. apply Hkeys.
    + intros k a H. destruct (Hget k a H) as (m & Hin & Hk & Ha).
      unfold analyzed in Ha. rewrite Hk in Ha. split; [|eauto].
      destruct (analyze_metric_cases utc_offset m
                  (DateRangeReport.metrics_info_get metrics_info k))
        as [[_ E]|(p & ps & _ & E)]; [congruence|].
      cbv zeta in E. rewrite E in Ha. apply some_inj in Ha. subst a. exact Hk.
Qed.

End MultipleAnalysisFacts.

(** ** The query window *)

Section WindowFacts.

Import DataProcessor DateRangeReport Window.

(** X10. The window of [get_custom_timestamps] starts at 00:00:00 of the
    start date and ends at 23:59:59 of the end date, read back in local
    time; it spans the whole days minus one second; and every timestamp
    inside it falls on a local date between the two dates, hence inside
    the X range of the charts. *)
Theorem query_window_round_trip (utc_offset start_date end_date : Z) :
  let t0 := fst (get_custom_timestamps utc_offset start_date end_date) in
  let t1 := snd (get_custom_timestamps utc_offset start_date end_date) in
  fromtimestamp utc_offset t0 = (start_date * ms_per_day)%Z /\
  date_of (fromtimestamp utc_offset t0) = start_date /\
  hour_of (fromtimestamp utc_offset t0) = 0%Z /\
  date_of (fromtimestamp utc_offset t1) = end_date /\
  hour_of (fromtimestamp utc_offset t1) = 23%Z /\
  (t1 - t0 = (end_date - start_date + 1) * ms_per_day - 1000)%Z /\
  ((start_date <= end_date)%Z -> (t0 < t1)%Z) /\
  forall ts, (t0 <= ts <= t1)%Z ->
    (start_date <= date_of (fromtimestamp utc_offset ts) <= end_date)%Z /\
    (fst (x_limits start_date end_date) <= date_of (fromtimestamp utc_offset ts)
     < snd (x_limits start_date end_date))%Z.
Proof.
  cbv zeta. unfold get_custom_timestamps, timestamp_ms, fromtimestamp, x_limits,
    date_of, hour_of, last_second, ms_per_day, ms_per_hour. cbn [fst snd].
  repeat split; try (zify; Z.to_euclidean_division_equations; lia).
Qed.

End WindowFacts.

(** ** Resampling, continued *)

Section ResampleFacts2.

Import DataProcessor DateRangeReport.

Lemma bucket_start_unique (w c dt : Z) :
  (0 < w)%Z -> (c * w <= dt < c * w + w)%Z -> bucket_start w dt = (c * w)%Z.
Proof.
  intros Hw H. unfold bucket_start. f_equal.
  symmetry. apply Z.div_unique with (r := (dt - c * w)%Z); lia.
Qed.

Lemma bucket_index (w dmin dmax dt : Z) :
  (0 < w)%Z -> (dmin <= dt <= dmax)%Z ->
  exists k : nat,
    bucket_start w dt = (bucket_start w dmin + Z.of_nat k * w)%Z /\
    (Z.of_nat k <= (bucket_start w dmax - bucket_start w dmin) / w)%Z.
Proof.
  intros Hw H. unfold bucket_start.
  assert (H1 : (dmin / w <= dt / w)%Z) by (apply Z.div_le_mono; lia).
  assert (H2 : (dt / w <= dmax / w)%Z) by (apply Z.div_le_mono; lia).
  exists (Z.to_nat (dt / w - dmin / w)). split; [nia|].
  replace (dmax / w * w - dmin / w * w)%Z with ((dmax / w - dmin / w) * w)%Z by ring.
  rewrite Z.div_mul by lia. lia.
Qed.

Lemma resample_fst_NoDup (w : Z) (r : row) (rs : dataframe) :
  (0 < w)%Z -> NoDup (map fst (resample_mean w r rs)).
Proof.
  intros Hw. unfold resample_mean. rewrite map_map. cbn [fst].
  apply Finite.Injective_map_NoDup; [|apply seq_NoDup].
  intros k1 k2 H. nia.
Qed.

Lemma plotted_fst_NoDup (res : list (Z * fl)) :
  NoDup (map fst res) -> NoDup (map fst (plotted res)).
Proof.
  induction res as [|[b v] t IH]; intros H; [constructor|].
  cbn [map fst] in H. inversion H as [|? ? Hnin Hnd]; subst.
  destruct v; cbn [plotted]; try (apply IH; exact Hnd).
  cbn [map fst]. constructor; [|apply IH; exact Hnd].
  intros Hin. apply in_map_iff in Hin. destruct Hin as ([b' q'] & Hb & Hin).
  simpl in Hb. subst b'. apply plotted_spec in Hin.
  apply Hnin. apply in_map_iff. exists (b, Num q'). split; [reflexivity|exact Hin].
Qed.

(** X11. Resampling keeps every point in sight: each row of a non-empty
    frame falls in a bin that is plotted; every plotted value is the mean
    of the rows of its bin, of which there is at least one; the bins are
    pairwise distinct; and there are at least one and at most as many
    plotted markers as rows. *)
Theorem resample_keeps_data (r : row) (rs : dataframe) :
  let df := r :: rs in
  let w := rule_width (resample_rule (date_range r rs)) in
  let res := resample df in
  (forall x, In x df ->
     exists q, In (bucket_start w (datetime x), q) (plotted res)) /\
  (forall b q, In (b, q) (plotted res) ->
     Series.mean (values (bucket_rows w b df)) = Num q /\
     exists x, In x df /\ (b <= datetime x < b + w)%Z) /\
  NoDup (map fst (plotted res)) /\
  (1 <= length (plotted res) <= length df)%nat.
Proof.
  intros df w res.
  assert (Hw : (0 < w)%Z) by apply rule_width_pos.
  assert (Hres : res = resample_mean w r rs) by reflexivity.
  destruct (datetime_min_spec r rs) as [_ Hmin].
  destruct (datetime_max_spec r rs) as [_ Hmax].
  assert (Hcover : forall x, In x df ->
            exists q, In (bucket_start w (datetime x), q) (plotted res)).
  { intros x Hx.
    destruct (@bucket_index w (datetime_min r rs) (datetime_max r rs) (datetime x) Hw)
      as (k & Hk1 & Hk2); [split; [apply Hmin|apply Hmax]; exact Hx|].
    assert (Hin : In x (bucket_rows w (bucket_start w (datetime x)) df)).
    { apply bucket_rows_spec. split; [exact Hx|]. apply bucket_start_bounds. exact Hw. }
    assert (Hne : values (bucket_rows w (bucket_start w (datetime x)) df) <> []).
    { unfold values. intros E. apply map_eq_nil in E. rewrite E in Hin. exact Hin. }
    eexists. apply plotted_spec. rewrite Hres.
    apply (resample_mean_rows r rs (bucket_start w (datetime x)) _ Hw).
    split; [symmetry; apply (mean_num Hne)|]. exists k. split; assumption. }
  assert (Hplot : forall b q, In (b, q) (plotted res) ->
            Series.mean (values (bucket_rows w b df)) = Num q /\
            exists x, In x df /\ (b <= datetime x < b + w)%Z).
  { intros b q Hin. apply plotted_spec in Hin. rewrite Hres in Hin.
    apply (resample_mean_rows r rs b (Num q) Hw) in Hin. destruct Hin as [Hq _].
    split; [symmetry; exact Hq|].
    destruct (bucket_rows w b (r :: rs)) as [|y ys] eqn:Eb; [discriminate|].
    exists y. apply bucket_rows_spec. unfold df. rewrite Eb. left. reflexivity. }
  split; [exact Hcover|]. split; [exact Hplot|].
  assert (Hnd : NoDup (map fst (plotted res))).
  { apply plotted_fst_NoDup. rewrite Hres. apply resample_fst_NoDup. exact Hw. }
  split; [exact Hnd|]. split.
  - destruct (Hcover r (or_introl eq_refl)) as [q Hq].
    destruct (plotted res); [contradiction|simpl; lia].
  - rewrite <- (length_map fst (plotted res)).
    rewrite <- (length_map (fun x => bucket_start w (datetime x)) df).
    apply NoDup_incl_length; [exact Hnd|].
    intros b Hb. apply in_map_iff in Hb. destruct Hb as ([b' q] & E & Hin).
    simpl in E. subst b'.
    destruct (Hplot b q Hin) as [_ (x & Hx & Hbx)].
    apply plotted_spec in Hin. rewrite Hres in Hin.
    apply (resample_mean_rows r rs b (Num q) Hw) in Hin.
    destruct Hin as [_ (k & Hk & _)].
    apply in_map_iff. exists x. split; [|exact Hx].
    unfold bucket_start in Hk.
    rewrite (@bucket_start_unique w (datetime_min r rs / w + Z.of_nat k) (datetime x) Hw);
      [lia|]. lia.
Qed.

End ResampleFacts2.

(** ** Y axis, continued *)

Section AxisFacts2.

Import DataProcessor DateRangeReport.

Lemma fl_eq_num_inv (a : fl) (x : Q) :
  fl_eq a (Num x) -> exists y, a = Num y /\ y == x.
Proof. destruct a; simpl; try tauto. intros H. eauto. Qed.

Lemma generic_bounds_contain (mn mx : Q) :
  0 <= mn -> mn <= mx ->
  0 <= fst (Stated.generic_bounds mn mx) /\
  fst (Stated.generic_bounds mn mx) <= mn /\
  mx <= snd (Stated.generic_bounds mn mx) /\
  fst (Stated.generic_bounds mn mx) < snd (Stated.generic_bounds mn mx).
Proof.
  intros H0 Hle. unfold Stated.generic_bounds.
  destruct (Qlt_bool (mx - mn) (1 # 1000) || Qeq_bool mn mx) eqn:Eb.
  - destruct (Qeq_bool mx 0) eqn:Ez; cbn [fst snd].
    + apply Qeq_bool_iff in Ez. repeat split; lra.
    + set (margin := Qmax (mx * (1 # 10)) (1 # 10)).
      assert (Hm : 1 # 10 <= margin) by apply Q.le_max_r.
      split; [apply Q.le_max_l|]. split; [apply Q.max_lub; lra|].
      split; [lra|]. apply Q.max_lub_lt; lra.
  - apply orb_false_iff in Eb. destruct Eb as [Eb _].
    assert (Hr : 1 # 1000 <= mx - mn).
    { destruct (Qlt_le_dec (mx - mn) (1 # 1000)) as [L|L]; [|exact L].
      apply Qlt_bool_iff in L. congruence. }
    cbn [fst snd].
    split; [apply Q.le_max_l|]. split; [apply Q.max_lub; lra|].
    split; [lra|]. apply Q.max_lub_lt; lra.
Qed.

(** X12. For a plotted metric whose unit is not "%" and whose values are
    not negative, the Y range is a proper interval starting at or above 0
    that holds every plotted value. *)
Theorem generic_limits_contain_data (utc_offset : Z) (metrics_info : list metric_info)
  (start_date end_date : Z) (m : metric_data) (ax : axes) :
  plot_axes utc_offset metrics_info start_date end_date m = Some ax ->
  unit_of metrics_info m <> "%"%string ->
  (forall p, In p (dps m) -> 0 <= snd p) ->
  exists bottom top,
    ylim ax = (Num bottom, Num top) /\
    0 <= bottom /\ bottom < top /\
    forall b q, In (b, q) (line ax) -> bottom <= q /\ q <= top.
Proof.
  intros Hax Hunit Hpos. unfold plot_axes in Hax.
  destruct (dps m) as [|p ps] eqn:Hd; [discriminate|].
  set (r := mk_row utc_offset p) in *. set (rs := map (mk_row utc_offset) ps) in *.
  set (res := resample (r :: rs)).
  assert (Hy : ylim ax = y_limits (unit_of metrics_info m)
                                  (metric_name_of metrics_info m) (r :: rs) res)
    by (apply some_inj in Hax; subst ax; reflexivity).
  assert (Hl : line ax = plotted res) by (apply some_inj in Hax; subst ax; reflexivity).
  clear Hax. apply String.eqb_neq in Hunit.
  assert (Hw : (0 < rule_width (resample_rule (date_range r rs)))%Z)
    by apply rule_width_pos.
  destruct (resample_mean_first r rs Hw) as (q0 & rest & Hres).
  change (resample_mean (rule_width (resample_rule (date_range r rs))) r rs)
    with res in Hres.
  assert (Hne : res <> []) by (rewrite Hres; discriminate).
  assert (Hdrop : dropna (map snd res) = q0 :: dropna (map snd rest))
    by (rewrite Hres; reflexivity).
  set (mn := fold_left Qmin (dropna (map snd rest)) q0).
  set (mx := fold_left Qmax (dropna (map snd rest)) q0).
  assert (Hmin : Series.min (dropna (map snd res)) = Num mn) by (rewrite Hdrop; reflexivity).
  assert (Hmax : Series.max (dropna (map snd res)) = Num mx) by (rewrite Hdrop; reflexivity).
  destruct (@y_limits_generic (unit_of metrics_info m) (metric_name_of metrics_info m)
              (r :: rs) res mn mx Hunit Hne Hmin Hmax) as [Hb Ht].
  rewrite <- Hy in Hb, Ht.
  destruct (@fl_eq_num_inv _ _ Hb) as (bottom & Eb & Hbottom).
  destruct (@fl_eq_num_inv _ _ Ht) as (top & Et & Htop).
  assert (Hvals : forall q, In q (q0 :: dropna (map snd rest)) -> 0 <= q).
  { intros q Hq. rewrite <- Hdrop in Hq. apply dropna_spec in Hq.
    apply in_map_iff in Hq. destruct Hq as ([b v] & E & Hin). simpl in E. subst v.
    apply (proj1 (@resample_mean_rows _ r rs b (Num q) Hw)) in Hin.
    destruct Hin as [Hq _].
    destruct (bucket_rows _ b (r :: rs)) as [|y ys] eqn:Ebk; [discriminate|].
    destruct (@mean_nonneg (values (y :: ys))) as (q' & Hq' & Hq0);
      [discriminate| |congruence].
    intros v Hv. unfold values in Hv. apply in_map_iff in Hv.
    destruct Hv as (z & <- & Hz). rewrite <- Ebk in Hz. apply bucket_rows_spec in Hz.
    destruct Hz as [Hz _].
    change (r :: rs) with (map (mk_row utc_offset) (p :: ps)) in Hz.
    apply in_map_iff in Hz. destruct Hz as (pt & <- & Hpt). apply Hpos. exact Hpt. }
  assert (Hmn0 : 0 <= mn) by (apply Hvals, fold_min_in).
  assert (Hmnmx : mn <= mx).
  { apply Qle_trans with q0.
    - apply fold_min_le. left. reflexivity.
    - apply fold_max_ge. left. reflexivity. }
  destruct (generic_bounds_contain Hmn0 Hmnmx) as (G0 & G1 & G2 & G3).
  exists bottom, top. split; [rewrite (surjective_pairing (ylim ax)), Eb, Et; reflexivity|].
  split; [lra|]. split; [lra|].
  intros b q Hin. rewrite Hl in Hin. apply plotted_spec in Hin.
  assert (Hq : In q (q0 :: dropna (map snd rest))).
  { rewrite <- Hdrop. apply dropna_spec. apply in_map_iff. exists (b, Num q). auto. }
  assert (H1 : mn <= q) by (apply fold_min_le; exact Hq).
  assert (H2 : q <= mx) by (apply fold_max_ge; exact Hq).
  split; lra.
Qed.

(** X13. For a plotted metric whose unit is "%", whatever its name, the Y
    range starts at 0 and ends at 100 or below, and it holds every raw
    value between 0 and 100. *)
Theorem percent_limits_contain_readings (utc_offset : Z)
  (metrics_info : list metric_info) (start_date end_date : Z) (m : metric_data)
  (ax : axes) :
  plot_axes utc_offset metrics_info start_date end_date m = Some ax ->
  unit_of metrics_info m = "%"%string ->
  exists top,
    ylim ax = (Num 0, Num top) /\ top <= 100 /\
    forall p, In p (dps m) -> 0 <= snd p -> snd p <= 100 -> snd p <= top.
Proof.
  intros Hax Hunit. unfold plot_axes in Hax.
  destruct (dps m) as [|p ps] eqn:Hd; [discriminate|].
  assert (Hy : ylim ax = y_limits "%" (metric_name_of metrics_info m)
                           (map (mk_row utc_offset) (p :: ps))
                           (resample (map (mk_row utc_offset) (p :: ps))))
    by (apply some_inj in Hax; subst ax; cbn [ylim]; rewrite Hunit; reflexivity).
  rewrite Hy. clear Hy Hax. unfold y_limits. rewrite String.eqb_refl, values_mk_row.
  destruct (String.eqb _ cpu_name || String.eqb _ memory_name).
  - set (mx := fold_left Qmax (map snd ps) (snd p)).
    cbn [Series.max map fl_mul]. fold mx.
    destruct (py_min_num 100 (mx * (11 # 10))) as (top & -> & Htop).
    exists top. split; [reflexivity|]. split.
    + rewrite Htop. apply Q.le_min_l.
    + intros x Hx H0 H100. rewrite Htop.
      assert (Hxm : snd x <= mx).
      { apply fold_max_ge. change (snd p :: map snd ps) with (map snd (p :: ps)).
        apply in_map. exact Hx. }
      apply Q.min_glb; lra.
  - exists 100. split; [reflexivity|]. split; [apply Qle_refl|]. auto.
Qed.

End AxisFacts2.

(** ** Dashboard grid, continued *)

Section GridFacts2.

Import Dashboard Leftover.

Lemma subplot_at_inj (rows cols i j : nat) :
  subplot_at rows cols i = subplot_at rows cols j -> i = j.
Proof.
  unfold subplot_at. destruct ((1 <? rows)%nat && (1 <? cols)%nat) eqn:E; intros H.
  - apply andb_true_iff in E. destruct E as [_ Hc]. apply Nat.ltb_lt in Hc.
    injection H as H1 H2.
    rewrite (Nat.div_mod_eq i cols), (Nat.div_mod_eq j cols). congruence.
  - congruence.
Qed.

(** X14. The grid of a dashboard of [n >= 1] metrics is tight: the last
    row holds at least one metric, so fewer than [cols] (at most two)
    subplots are left over, and none at all up to three metrics; two
    different indices never share a subplot; and the subplots removed
    after drawing are inside the grid and are not those of the metrics. *)
Theorem dashboard_grid_is_tight (n : nat) :
  (1 <= n)%nat ->
  let cols := grid_cols n in
  let rows := grid_rows n in
  ((rows - 1) * cols < n)%nat /\
  (rows * cols - n < cols)%nat /\
  (rows * cols - n <= 2)%nat /\
  ((n <= 3)%nat -> rows = 1%nat /\ cols = n /\ removed_subplots n = []) /\
  (forall i j, subplot_at rows cols i = subplot_at rows cols j -> i = j) /\
  length (removed_subplots n) = (rows * cols - n)%nat /\
  (forall s, In s (removed_subplots n) ->
     subplot_valid rows cols s /\
     forall i, (i < n)%nat -> subplot_at rows cols i <> s).
Proof.
  intros Hn cols rows.
  assert (Hcases := @grid_cols_cases n Hn). fold cols rows in Hcases.
  assert (Hshape : ((rows - 1) * cols < n /\ rows * cols - n < cols /\
                    rows * cols - n <= 2 /\ n <= rows * cols)%nat).
  { destruct Hcases as [(-> & -> & ->)|[(-> & -> & ->)|(H3 & -> & ->)]]; [lia|lia|].
    pose proof (Nat.div_mod_eq (n + 2) 3).
    pose proof (Nat.mod_upper_bound (n + 2) 3). lia. }
  destruct Hshape as (S1 & S2 & S3 & S4).
  split; [exact S1|]. split; [exact S2|]. split; [exact S3|].
  split; [|split; [|split]].
  - intros H3. unfold removed_subplots. fold cols rows.
    destruct Hcases as [(E & -> & ->)|[(E & -> & ->)|(H3' & Ec & Er)]].
    + subst n. repeat split.
    + subst n. repeat split.
    + assert (n = 3)%nat by lia. subst n. repeat split.
  - intros i j. apply subplot_at_inj.
  - unfold removed_subplots. fold cols rows. rewrite length_map, length_seq. reflexivity.
  - intros s Hs. unfold removed_subplots in Hs. fold cols rows in Hs.
    apply in_map_iff in Hs. destruct Hs as (k & <- & Hk). apply in_seq in Hk.
    split; [apply subplot_at_valid; lia|].
    intros i Hi E. apply subplot_at_inj in E. lia.
Qed.

End GridFacts2.

(** ** The loop over the sites *)

Section SiteFacts.

Import DataProcessor Orchestrator Sites.

Variable W : Type.
Variable query_multiple_data : string -> W -> (exn + list metric_data) * W.
Variable create_individual_metrics :
  string -> list metric_data -> W -> (exn + list string) * W.
Variable create_improved_dashboard :
  string -> list metric_data -> W -> (exn + option string) * W.

Let site_step (cfg : site_config) (n : nat) : M W nat :=
  date_range_site query_multiple_data create_individual_metrics
    create_improved_dashboard cfg n.

Lemma date_range_site_spec (cfg : site_config) (n : nat) :
  appends (site_step cfg n) (fun r evs =>
    started evs = (if has_credentials cfg then attempted (servers cfg) else []) /\
    ended evs = started evs /\
    ((r = inr (S n) /\ completed evs <> []) \/ (r = inr n /\ completed evs = []))).
Proof.
  intros s. unfold site_step, date_range_site. fold (has_credentials cfg).
  destruct (has_credentials cfg); cbn [negb].
  - destruct (servers cfg) as [|srv t] eqn:Hs.
    + exists (inr n), (world s), [NoServers]. split; [reflexivity|].
      cbn. split; [reflexivity|]. split; [reflexivity|]. right. split; reflexivity.
    + unfold bind, date_range_servers, server_loop.
      destruct (@server_loop_spec W _
                  (date_range_body_ok query_multiple_data create_individual_metrics
                     create_improved_dashboard) (srv :: t) 0%nat s)
        as (r & w & evs & -> & -> & Hst & Hen).
      cbn [Nat.add]. unfold site_success.
      destruct (completed evs) as [|c cs] eqn:Hc; cbn [length Nat.ltb Nat.leb].
      * exists (inr n), w, evs. split; [reflexivity|].
        split; [exact Hst|]. split; [congruence|]. right. split; [reflexivity|exact Hc].
      * exists (inr (S n)), w, evs. split; [reflexivity|].
        split; [exact Hst|]. split; [congruence|].
        left. split; [reflexivity|rewrite Hc; discriminate].
  - exists (inr n), (world s), [CredentialsIncomplete]. split; [reflexivity|].
    cbn. split; [reflexivity|]. split; [reflexivity|]. right. split; reflexivity.
Qed.

Lemma completed_app (a b : list event) : completed (a ++ b) = completed a ++ completed b.
Proof. apply flat_map_app. Qed.

Lemma started_app (a b : list event) : started (a ++ b) = started a ++ started b.
Proof. apply flat_map_app. Qed.

Lemma ended_app (a b : list event) : ended (a ++ b) = ended a ++ ended b.
Proof. apply flat_map_app. Qed.

Lemma site_loop_spec (targets : Dict.dict site_config) :
  forall n,
    appends (for_each targets (fun acc site => site_step (snd site) acc) n)
      (fun r evs =>
         exists k, r = inr (n + k)%nat /\
                   (k <= length targets)%nat /\
                   (k <= length (completed evs))%nat /\
                   (k = 0%nat <-> completed evs = []) /\
                   started evs = attempted_in targets /\
                   ended evs = attempted_in targets).
Proof.
  induction targets as [|[name cfg] t IH]; intros n s.
  - exists (inr n), (world s), []. rewrite app_nil_r.
    split; [destruct s; reflexivity|]. exists 0%nat.
    split; [f_equal; lia|]. cbn. repeat split; auto.
  - cbn [for_each snd]. unfold bind.
    destruct (date_range_site_spec cfg n s) as (r & w & evs & -> & Hst & Hen & Hr).
    assert (Hatt : attempted_in ((name, cfg) :: t)
                   = (if has_credentials cfg then attempted (servers cfg) else [])
                     ++ attempted_in t) by reflexivity.
    destruct Hr as [(-> & Hc)|(-> & Hc)].
    + destruct (IH (S n) {| world := w; log := log s ++ evs |})
        as (r' & w' & evs' & -> & k & -> & Hk1 & Hk2 & Hk3 & Hst' & Hen').
      exists (inr (S n + k)%nat), w', (evs ++ evs'). cbn [log]. rewrite app_assoc.
      split; [reflexivity|]. exists (S k).
      rewrite completed_app, started_app, ended_app, length_app, Hatt, Hen, Hst, Hst', Hen'.
      split; [f_equal; lia|]. split; [simpl; lia|]. split.
      { destruct (completed evs); [congruence|simpl; lia]. }
      split; [|split; reflexivity].
      split; [discriminate|]. intros E. apply app_eq_nil in E. tauto.
    + destruct (IH n {| world := w; log := log s ++ evs |})
        as (r' & w' & evs' & -> & k & -> & Hk1 & Hk2 & Hk3 & Hst' & Hen').
      exists (inr (n + k)%nat), w', (evs ++ evs'). cbn [log]. rewrite app_assoc.
      split; [reflexivity|]. exists k.
      rewrite completed_app, started_app, ended_app, length_app, Hatt, Hen, Hst, Hst', Hen', Hc.
      split; [reflexivity|]. split; [simpl; lia|]. split; [simpl; lia|].
      split; [exact Hk3|split; reflexivity].
Qed.

(** X15. A date-range run goes through the requested site alone when it
    is named and known, and through every site otherwise, also when the
    name is unknown.  Whatever the collaborators do, the loop over the
    sites ends normally; every server with an id and a name of every site
    with complete credentials is started and brought to an end, in order;
    the number of successful sites is at most the number of sites gone
    through and at most the number of completed servers; and it is zero
    exactly when no server completed. *)
Theorem date_range_run_visits_every_site (sites : Dict.dict site_config)
  (site_name : option string) (s : state W) :
  (forall n cfg, site_name = Some n -> truthy site_name = true ->
                 Dict.get n sites = Some cfg ->
                 target_sites sites site_name = [(n, cfg)]) /\
  (forall n, site_name = Some n -> Dict.get n sites = None ->
             target_sites sites site_name = sites) /\
  (truthy site_name = false -> target_sites sites site_name = sites) /\
  exists success_count w evs,
    run_date_range_sites query_multiple_data create_individual_metrics
      create_improved_dashboard sites site_name s
    = (inr success_count, {| world := w; log := log s ++ evs |}) /\
    (success_count <= length (target_sites sites site_name))%nat /\
    (success_count <= length (completed evs))%nat /\
    (success_count = 0%nat <-> completed evs = []) /\
    started evs = attempted_in (target_sites sites site_name) /\
    ended evs = attempted_in (target_sites sites site_name).
Proof.
  split; [|split; [|split]].
  - intros n cfg -> Ht Hg. unfold target_sites. rewrite Ht, Hg. reflexivity.
  - intros n -> Hg. unfold target_sites. rewrite Hg.
    destruct (truthy (Some n)); reflexivity.
  - intros Ht. unfold target_sites. rewrite Ht. destruct site_name; reflexivity.
  - unfold run_date_range_sites.
    destruct (site_loop_spec (target_sites sites site_name) 0%nat s)
      as (r & w & evs & E & k & -> & Hk).
    exists k, w, evs. split; [exact E|exact Hk].
Qed.

End SiteFacts.

(** ** File names *)

Section NameFacts.

Import Names.
Local Open Scope string_scope.

Lemma length_append (a b : string) :
  String.length (a ++ b) = (String.length a + String.length b)%nat.
Proof. induction a as [|c a IH]; simpl; [reflexivity|]. rewrite IH. reflexivity. Qed.

Lemma append_cancel_r (t : string) : forall a b : string, a ++ t = b ++ t -> a = b.
Proof.
  induction a as [|c a IH]; intros [|c' b] H; simpl in H.
  - reflexivity.
  - exfalso. apply (f_equal String.length) in H. simpl in H.
    rewrite length_append in H. lia.
  - exfalso. apply (f_equal String.length) in H. simpl in H.
    rewrite length_append in H. lia.
  - injection H as -> H. f_equal. apply IH. exact H.
Qed.

Lemma replace_space_chars (s : string) :
  chars (replace_space s)
  = map (fun c => if Ascii.eqb c " " then "_"%char else c) (chars s).
Proof. induction s as [|c s IH]; simpl; [reflexivity|]. rewrite IH. reflexivity. Qed.

(** X16. Replacing the spaces of a name keeps its length, leaves no
    space, changes nothing in a name without spaces and is idempotent;
    and the graph files of two metrics of one report have the same name
    only if the metrics have the same key. *)
Theorem file_names_are_safe :
  (forall s, String.length (replace_space s) = String.length s) /\
  (forall s, ~ In " "%char (chars (replace_space s))) /\
  (forall s, ~ In " "%char (chars s) -> replace_space s = s) /\
  (forall s, replace_space (replace_space s) = replace_space s) /\
  (forall k1 k2 start_date end_date,
     metric_filename k1 start_date end_date = metric_filename k2 start_date end_date ->
     k1 = k2).
Proof.
  assert (Hfix : forall s, ~ In " "%char (chars s) -> replace_space s = s).
  { induction s as [|c s IH]; simpl; intros H; [reflexivity|].
    destruct (Ascii.eqb_spec c " ") as [->|Hc]; [exfalso; apply H; left; reflexivity|].
    f_equal. apply IH. intros Hin. apply H. right. exact Hin. }
  assert (Hno : forall s, ~ In " "%char (chars (replace_space s))).
  { induction s as [|c s IH]; simpl; [tauto|].
    intros [H|H]; [|exact (IH H)].
    destruct (Ascii.eqb_spec c " ") as [->|Hc]; [discriminate|contradiction]. }
  split; [|split; [exact Hno|split; [exact Hfix|split]]].
  - induction s as [|c s IH]; simpl; congruence.
  - intros s. apply Hfix, Hno.
  - intros k1 k2 sd ed H. unfold metric_filename in H.
    apply append_cancel_r in H. exact H.
Qed.

End NameFacts.

(** ** The conclusion of a server report *)

Section ConclusionFacts.

Import DataProcessor Analysis Conclusion.

Lemma scan_fold (l : list analysis) :
  forall w c,
    fold_left scan l (w, c) = (w || existsb has_warning l, c || existsb has_critical l).
Proof.
  induction l as [|a t IH]; intros w c; cbn [fold_left existsb].
  - rewrite !orb_false_r. reflexivity.
  - unfold scan at 2. unfold has_warning at 1. unfold has_critical at 1.
    destruct (anomalies_of a) as [an|]; cbn [fst snd].
    + rewrite IH. destruct (warning an), (critical an); cbn [orb];
        rewrite ?orb_true_r, ?orb_false_r, ?orb_true_l; reflexivity.
    + rewrite IH. reflexivity.
Qed.

Lemma conclude_cases (d : Dict.dict analysis) :
  (conclude d = CriticalFound <-> existsb has_critical (Dict.dict_values d) = true) /\
  (conclude d = WarningFound <->
     existsb has_warning (Dict.dict_values d) = true /\
     existsb has_critical (Dict.dict_values d) = false) /\
  (conclude d = AllNormal <->
     existsb has_warning (Dict.dict_values d) = false /\
     existsb has_critical (Dict.dict_values d) = false).
Proof.
  unfold conclude. rewrite scan_fold. cbn [orb].
  destruct (existsb has_critical _), (existsb has_warning _);
    repeat split; intros; try discriminate; try reflexivity;
    try (destruct H; discriminate).
Qed.

Lemma dict_In_get {V} (d : Dict.dict V) (k : string) (v : V) :
  NoDup (Dict.keys d) -> (In (k, v) d <-> Dict.get k d = Some v).
Proof.
  unfold Dict.keys, Dict.get. induction d as [|[k0 v0] t IH]; intros Hnd.
  - split; [intros []|discriminate].
  - cbn [map fst] in Hnd. inversion Hnd as [|? ? Hnin Hnd']; subst.
    simpl. destruct (String.eqb_spec k0 k) as [->|Hk]; simpl.
    + split.
      * intros [H|H]; [congruence|].
        exfalso. apply Hnin. apply in_map_iff. exists (k, v). auto.
      * intros H. left. congruence.
    + rewrite <- (IH Hnd'). split; [intros [H|H]; [congruence|exact H]|auto].
Qed.

Lemma threshold_points_nonempty (t : option Q) (pts : list (Z * Q)) (utc_offset : Z) :
  threshold_points t (map (mk_row utc_offset) pts) <> [] <->
  exists c p, t = Some c /\ In p pts /\ c <= snd p.
Proof.
  destruct t as [c|]; cbn [threshold_points].
  - split.
    + intros H. destruct (filter _ _) as [|r rs] eqn:E; [congruence|].
      assert (Hr : In r (filter (fun r => Qle_bool c (value r)) (map (mk_row utc_offset) pts)))
        by (rewrite E; left; reflexivity).
      apply filter_In in Hr. destruct Hr as [Hr Hc]. apply in_map_iff in Hr.
      destruct Hr as (p & <- & Hp). apply Qle_bool_iff in Hc.
      exists c, p. auto.
    + intros (c' & p & Ec & Hp & Hc) Hnil. apply some_inj in Ec. subst c'.
      assert (Hr : In (mk_row utc_offset p)
                     (filter (fun r => Qle_bool c (value r)) (map (mk_row utc_offset) pts))).
      { apply filter_In. split; [apply in_map; exact Hp|]. apply Qle_bool_iff. exact Hc. }
      rewrite Hnil in Hr. exact Hr.
  - split; [congruence|]. intros (c & p & E & _). discriminate.
Qed.

End ConclusionFacts.

Section ConclusionThresholds.

Import DataProcessor Analysis Conclusion.

Variable utc_offset : Z.
Variable metrics_info : list DateRangeReport.metric_info.

Let info_of (m : metric_data) : option DateRangeReport.metric_info :=
  DateRangeReport.metrics_info_get metrics_info (metric m).

Lemma analysis_flags (m : metric_data) (a : analysis) :
  analyze_metric utc_offset m (info_of m) = Some a ->
  (has_warning a = true <-> reaches (info_warning (info_of m)) m) /\
  (has_critical a = true <-> reaches (info_critical (info_of m)) m).
Proof.
  intros Ha.
  destruct (analyze_metric_cases utc_offset m (info_of m))
    as [[_ E]|(p & ps & Hd & E)]; [congruence|].
  cbv zeta in E. rewrite E in Ha. apply some_inj in Ha. subst a.
  unfold has_warning, has_critical, reaches.
  cbn [anomalies_of detect_anomalies warning critical]. rewrite Hd.
  pose proof (threshold_points_nonempty (info_warning (info_of m)) (p :: ps) utc_offset) as Hw.
  pose proof (threshold_points_nonempty (info_critical (info_of m)) (p :: ps) utc_offset) as Hc.
  cbn [map] in Hw, Hc. rewrite <- Hw, <- Hc.
  split.
  - destruct (threshold_points (info_warning (info_of m)) _);
      split; congruence.
  - destruct (threshold_points (info_critical (info_of m)) _);
      split; congruence.
Qed.

Lemma metric_key_unique (ms : list metric_data) (m m' : metric_data) :
  NoDup (map metric ms) -> In m ms -> In m' ms -> metric m = metric m' -> m = m'.
Proof.
  induction ms as [|x t IH]; intros Hnd Hm Hm' E; [contradiction|].
  cbn [map] in Hnd. inversion Hnd as [|? ? Hnin Hnd']; subst.
  destruct Hm as [->|Hm], Hm' as [->|Hm'].
  - reflexivity.
  - exfalso. apply Hnin. rewrite E. apply in_map. exact Hm'.
  - exfalso. apply Hnin. rewrite <- E. apply in_map. exact Hm.
  - apply IH; assumption.
Qed.

Lemma results_values (ms : list metric_data) (results : Dict.dict analysis) :
  NoDup (map metric ms) ->
  analyze_multiple_metrics utc_offset ms metrics_info = Some results ->
  forall a, In a (Dict.dict_values results) <->
            exists m, In m ms /\ analyze_metric utc_offset m (info_of m) = Some a.
Proof.
  intros Hnd E. unfold analyze_multiple_metrics in E.
  destruct ms as [|m0 t] eqn:Hm; [discriminate|]. rewrite <- Hm in *. clear Hm.
  apply some_inj in E. subst results.
  destruct (@analyze_fold_ok utc_offset metrics_info ms [] [])
    as (Hkn & Hkeys & Hget & _).
  { split; [constructor|]. split; [|split; [|apply Nat.le_refl]].
    - intros k. split; [intros []|intros (m & [] & _)].
    - intros k a H. discriminate. }
  cbn [app] in *.
  set (results := fold_left (analyze_step utc_offset metrics_info) ms []) in *.
  intros a. unfold Dict.dict_values. rewrite in_map_iff. split.
  - intros ([k a'] & Ea & Hin). simpl in Ea. subst a'.
    apply (dict_In_get results k a Hkn) in Hin.
    destruct (Hget k a Hin) as (m & Hm & Hk & Ha). exists m. split; [exact Hm|exact Ha].
  - intros (m & Hm & Ha).
    assert (Hk : In (metric m) (Dict.keys results)).
    { apply Hkeys. exists m. split; [exact Hm|]. split; [reflexivity|].
      destruct (analyze_metric_cases utc_offset m (info_of m)) as [[_ E]|(p & ps & Hd & _)];
        [congruence|]. rewrite Hd. discriminate. }
    apply get_In_keys in Hk.
    destruct (Dict.get (metric m) results) as [a'|] eqn:Eg; [|congruence].
    destruct (Hget _ _ Eg) as (m' & Hm' & Hk' & Ha').
    assert (m' = m) by (apply (@metric_key_unique ms m' m Hnd Hm' Hm Hk')). subst m'.
    assert (a' = a) by (unfold info_of in Ha; congruence). subst a'.
    exists (metric m, a). split; [reflexivity|].
    apply (dict_In_get results (metric m) a Hkn). exact Eg.
Qed.

(** X17. The sentence that closes a server report follows the configured
    thresholds.  For metrics with pairwise distinct keys: it announces
    critical anomalies exactly when some metric has a data point at or
    above its critical threshold; warnings exactly when no metric does but
    some metric has a point at or above its warning threshold; and normal
    operation exactly when no metric reaches either of its thresholds. *)
Theorem report_conclusion_follows_thresholds (metrics_data : list metric_data)
  (results : Dict.dict analysis) :
  NoDup (map metric metrics_data) ->
  analyze_multiple_metrics utc_offset metrics_data metrics_info = Some results ->
  let critical_in m :=
    reaches (info_critical (DateRangeReport.metrics_info_get metrics_info (metric m))) m in
  let warning_in m :=
    reaches (info_warning (DateRangeReport.metrics_info_get metrics_info (metric m))) m in
  (conclude results = CriticalFound <->
     exists m, In m metrics_data /\ critical_in m) /\
  (conclude results = WarningFound <->
     (exists m, In m metrics_data /\ warning_in m) /\
     ~ (exists m, In m metrics_data /\ critical_in m)) /\
  (conclude results = AllNormal <->
     forall m, In m metrics_data -> ~ warning_in m /\ ~ critical_in m).
Proof.
  intros Hnd E critical_in warning_in.
  pose proof (@results_values metrics_data results Hnd E) as Hvals.
  assert (Hdata : forall m, In m metrics_data ->
            (warning_in m \/ critical_in m) ->
            exists a, analyze_metric utc_offset m (info_of m) = Some a).
  { intros m Hm H.
    destruct (analyze_metric_cases utc_offset m (info_of m)) as [[Hd _]|(p & ps & _ & Ea)];
      [|cbv zeta in Ea; eauto].
    exfalso. destruct H as [(c & p & _ & Hp & _)|(c & p & _ & Hp & _)];
      rewrite Hd in Hp; exact Hp. }
  assert (Hc : existsb has_critical (Dict.dict_values results) = true <->
               exists m, In m metrics_data /\ critical_in m).
  { rewrite existsb_exists. split.
    - intros (a & Ha & Hf). apply Hvals in Ha. destruct Ha as (m & Hm & Ha).
      exists m. split; [exact Hm|]. apply (@analysis_flags m a Ha). exact Hf.
    - intros (m & Hm & Hcr). destruct (Hdata m Hm (or_intror Hcr)) as [a Ha].
      exists a. split; [apply Hvals; eauto|]. apply (@analysis_flags m a Ha). exact Hcr. }
  assert (Hw : existsb has_warning (Dict.dict_values results) = true <->
               exists m, In m metrics_data /\ warning_in m).
  { rewrite existsb_exists. split.
    - intros (a & Ha & Hf). apply Hvals in Ha. destruct Ha as (m & Hm & Ha).
      exists m. split; [exact Hm|]. apply (@analysis_flags m a Ha). exact Hf.
    - intros (m & Hm & Hwr). destruct (Hdata m Hm (or_introl Hwr)) as [a Ha].
      exists a. split; [apply Hvals; eauto|]. apply (@analysis_flags m a Ha). exact Hwr. }
  destruct (conclude_cases results) as (C1 & C2 & C3).
  split; [rewrite C1; exact Hc|]. split.
  - rewrite C2, Hw, <- Hc. rewrite not_true_iff_false. reflexivity.
  - rewrite C3. rewrite <- !not_true_iff_false, Hw, Hc. split.
    + intros [H1 H2] m Hm. split; intros H; [apply H1|apply H2]; eauto.
    + intros H. split; intros (m & Hm & Hx); destruct (H m Hm); contradiction.
Qed.

End ConclusionThresholds.

(** ** Metric definitions *)

Section InfoFacts.

Import DataProcessor DateRangeReport.

Lemma find_rev_last {A} (f : A -> bool) (l : list A) :
  match find f (rev l) with
  | None => forall x, In x l -> f x = false
  | Some x => exists l1 l2, l = l1 ++ x :: l2 /\ f x = true /\
                            forall y, In y l2 -> f y = false
  end.
Proof.
  induction l as [|a t IH]; cbn [rev find].
  - intros x [].
  - destruct (find f (rev t)) as [x|] eqn:E.
    + assert (E' : find f (rev t ++ [a]) = Some x).
      { clear IH. induction (rev t) as [|b u IHu]; [discriminate|].
        cbn [find app] in *. destruct (f b); [exact E|apply IHu; exact E]. }
      rewrite E'. destruct IH as (l1 & l2 & -> & Hx & Hl2).
      exists (a :: l1), l2. split; [reflexivity|]. split; assumption.
    + assert (E' : find f (rev t ++ [a]) = if f a then Some a else None).
      { clear IH. induction (rev t) as [|b u IHu]; [reflexivity|].
        cbn [find app] in *. destruct (f b); [discriminate|apply IHu; exact E]. }
      rewrite E'. destruct (f a) eqn:Ea.
      * exists [], t. split; [reflexivity|]. split; [exact Ea|exact IH].
      * intros x [<-|Hx]; [exact Ea|apply IH; exact Hx].
Qed.

(** X18. The definition of a metric is looked up by key, and of several
    definitions with the same key the last one counts.  A metric without
    definition is plotted under its key, with no unit, and therefore with
    the generic Y range rather than the percentage one. *)
Theorem metric_definition_lookup (metrics_info : list metric_info) (k : string) :
  (metrics_info_get metrics_info k = None <->
     forall i, In i metrics_info -> key i <> k) /\
  (forall i, metrics_info_get metrics_info k = Some i ->
     exists before after,
       metrics_info = before ++ i :: after /\ key i = k /\
       forall j, In j after -> key j <> k) /\
  (forall m, metric m = k -> metrics_info_get metrics_info k = None ->
     metric_name_of metrics_info m = k /\
     unit_of metrics_info m = ""%string /\
     forall df res, y_limits (unit_of metrics_info m) (metric_name_of metrics_info m) df res
                    = y_limits "" k df res).
Proof.
  unfold metrics_info_get.
  pose proof (find_rev_last (fun i => String.eqb (key i) k) metrics_info) as H.
  split; [|split].
  - destruct (find _ (rev metrics_info)) as [x|].
    + split; [discriminate|]. intros Hall.
      destruct H as (l1 & l2 & -> & Hx & _). apply String.eqb_eq in Hx.
      exfalso. apply (Hall x); [apply in_or_app; right; left; reflexivity|exact Hx].
    + split; [|reflexivity]. intros _ i Hi. apply String.eqb_neq. apply H. exact Hi.
  - intros i Hi. rewrite Hi in H. destruct H as (l1 & l2 & E & Hx & Hl2).
    exists l1, l2. split; [exact E|]. split; [apply String.eqb_eq; exact Hx|].
    intros j Hj. apply String.eqb_neq. apply Hl2. exact Hj.
  - intros m Hm Hnone. unfold metric_name_of, unit_of, metrics_info_get.
    rewrite Hm, Hnone. repeat split.
Qed.

End InfoFacts.

(** ** Fatal errors of the scheduled report *)

Section FatalFacts.

Import DataProcessor Orchestrator.

Variable W : Type.
Variable query_multiple_data : string -> W -> (exn + list metric_data) * W.
Variable makedirs : string -> W -> (exn + unit) * W.
Variable plot_and_save : string -> metric_data -> W -> (exn + unit) * W.
Variable create_dashboard : string -> list metric_data -> W -> (exn + option string) * W.
Variable write_summary : nat -> nat -> W -> (exn + unit) * W.

Let report := generate_site_report query_multiple_data makedirs plot_and_save
                create_dashboard write_summary.

(** X19. [generate_site_report] outside its per-server guard.  With
    incomplete credentials or without servers it returns False after
    logging the one error or warning and calls no collaborator.  A failure to create the report
    directory is raised to the caller before any server is started.  A
    failure to write the summary is raised to the caller as well, after
    all servers have been processed and whatever their outcome. *)
Theorem site_report_fatal_errors (site_name : string) (cfg : site_config) (s : state W) :
  ((truthy (access_key cfg) && truthy (secret_key cfg) && truthy (cw_key cfg) = false
    \/ servers cfg = []) ->
   exists e, report site_name cfg s
             = (inr false, {| world := world s; log := log s ++ [e] |})) /\
  (truthy (access_key cfg) && truthy (secret_key cfg) && truthy (cw_key cfg) = true ->
   servers cfg <> [] ->
   (forall e w, makedirs site_name (world s) = (inl e, w) ->
      report site_name cfg s = (inl e, {| world := w; log := log s |})) /\
   (forall w, makedirs site_name (world s) = (inr tt, w) ->
      exists n w1 evs,
        server_loop
          (scheduled_body query_multiple_data makedirs plot_and_save create_dashboard)
          (servers cfg) {| world := w; log := log s |}
        = (inr n, {| world := w1; log := log s ++ evs |}) /\
        n = length (completed evs) /\
        started evs = attempted (servers cfg) /\
        (forall e w2, write_summary (length (servers cfg)) n w1 = (inl e, w2) ->
           report site_name cfg s = (inl e, {| world := w2; log := log s ++ evs |})) /\
        (forall w2, write_summary (length (servers cfg)) n w1 = (inr tt, w2) ->
           report site_name cfg s
           = (inr (0 <? n)%nat, {| world := w2; log := log s ++ evs |})))).
Proof.
  unfold report, generate_site_report. split.
  - intros [Hc|Hs].
    + rewrite Hc. cbn [negb]. eexists. reflexivity.
    + destruct (negb _); [eexists; reflexivity|]. rewrite Hs. eexists. reflexivity.
  - intros Hc Hs. rewrite Hc. cbn [negb].
    destruct (servers cfg) as [|srv t] eqn:Esrv; [congruence|]. split.
    + intros e w Hm. unfold bind at 1. unfold call at 1. rewrite Hm. reflexivity.
    + intros w Hm.
      destruct (@server_loop_spec W _
                  (scheduled_body_ok query_multiple_data makedirs plot_and_save
                     create_dashboard) (srv :: t) 0%nat {| world := w; log := log s |})
        as (r & w1 & evs & E & -> & Hst & _).
      cbn [log Nat.add] in E.
      exists (length (completed evs)), w1, evs.
      split; [exact E|]. split; [reflexivity|]. split; [exact Hst|].
      unfold server_loop in E. split.
      * intros e w2 Hws. unfold server_loop, bind, call, ret. cbn [world log].
        rewrite Hm, E. cbn [world log]. rewrite Hws. reflexivity.
      * intros w2 Hws. unfold server_loop, bind, call, ret. cbn [world log].
        rewrite Hm, E. cbn [world log]. rewrite Hws. reflexivity.
Qed.

End FatalFacts.

(** ** Tick days *)

Section TickDays.

Import DataProcessor DateRangeReport.

Lemma day_of_month_range (d : Z) : (1 <= day_of_month d <= 31)%Z.
Proof.
  unfold day_of_month. cbv zeta.
  zify; Z.to_euclidean_division_equations; lia.
Qed.

Lemma day_of_month_period (d : Z) : day_of_month (d + 146097) = day_of_month d.
Proof.
  unfold day_of_month. cbv zeta.
  replace (d + 146097 + 719468)%Z with (d + 719468 + 1 * 146097)%Z by lia.
  rewrite Z.mod_add by lia. reflexivity.
Qed.

(** X20. The locator of the X axis is given days of the month, not
    dates: one day of the month, between 1 and 31, for each tick date of
    [generate_date_ticks], in the order of the dates; this is the list
    that a plotted metric hands over.  A day of the month does not tell
    the date: a date and the date 146097 days (400 years) later have the
    same one. *)
Theorem tick_days_of_month (start_date end_date : Z) :
  length (days_to_show start_date end_date)
  = length (generate_date_ticks start_date end_date) /\
  (forall i d, nth_error (generate_date_ticks start_date end_date) i = Some d ->
               nth_error (days_to_show start_date end_date) i = Some (day_of_month d)) /\
  (forall d, In d (days_to_show start_date end_date) -> (1 <= d <= 31)%Z) /\
  (forall d, day_of_month (d + 146097) = day_of_month d) /\
  (forall utc_offset metrics_info m ax,
      plot_axes utc_offset metrics_info start_date end_date m = Some ax ->
      bymonthday ax = days_to_show start_date end_date).
Proof.
  unfold days_to_show. split; [apply length_map|]. split; [|split; [|split]].
  - intros i d H. rewrite nth_error_map, H. reflexivity.
  - intros d H. apply in_map_iff in H. destruct H as (x & <- & _).
    apply day_of_month_range.
  - exact day_of_month_period.
  - intros utc_offset metrics_info m ax H. unfold plot_axes in H.
    destruct (dps m); [discriminate|].
    apply some_inj in H. subst ax. reflexivity.
Qed.

End TickDays.

(** ** The further properties on sample inputs *)

Section Instances2.

Import DataProcessor DateRangeReport Dashboard Analysis Conclusion.

Lemma grouped_averages_witness :
  exists st,
    calculate_statistics Samples.one_day = Some st /\
    NoDup (map fst (hourly_avg st)) /\
    (length (hourly_avg st) <= 24)%nat.
Proof.
  eexists. split; [reflexivity|].
  destruct (@grouped_averages Samples.kst
              [(0%Z, 4); (300000%Z, 1); (600000%Z, 3); (900000%Z, 2)] _ eq_refl)
    as (_ & (H1 & _ & _ & H4 & _) & _).
  split; [exact H1|exact H4].
Defined.

Lemma anomaly_lists_nested_witness :
  exists a,
    detect_anomalies Samples.one_day (Some 3) (Some 4) = Some a /\
    (length (critical a) <= length (warning a))%nat.
Proof.
  eexists. split; [reflexivity|].
  destruct (@anomaly_lists_nested Samples.one_day (Some 3) (Some 4) _ eq_refl)
    as (_ & _ & H).
  destruct (H 3 4 eq_refl eq_refl ltac:(vm_compute; discriminate)) as (_ & _ & Hlen).
  exact Hlen.
Defined.

Lemma quartile_rows_are_not_outliers_witness :
  exists a q1 q3,
    detect_anomalies Samples.one_day None None = Some a /\
    Series.quantile (25 # 100) (values Samples.one_day) = Num q1 /\
    Series.quantile (75 # 100) (values Samples.one_day) = Num q3 /\
    q1 <= q3.
Proof.
  destruct (@quartile_rows_are_not_outliers Samples.one_day None None _ eq_refl)
    as (q1 & q3 & E1 & E3 & _ & Hq & _).
  eexists. exists q1, q3. split; [reflexivity|]. split; [exact E1|]. split; [exact E3|exact Hq].
Defined.

Lemma comparison_periods_nonempty_witness :
  exists c,
    compare_time_periods Samples.growth 7 = Some c /\
    (1 <= p_count (current_period c))%nat /\
    (1 <= p_count (previous_period c))%nat.
Proof.
  eexists. split; [reflexivity|].
  destruct (@comparison_periods_nonempty (mk_row 0 (0%Z, 10))
              [mk_row 0 ((8 * Samples.day)%Z, 30); mk_row 0 ((15 * Samples.day)%Z, 40)]
              7 _ ltac:(lia) eq_refl)
    as (H1 & H2 & _).
  split; [exact H1|exact H2].
Defined.

Lemma zero_previous_period_gives_infinity_witness :
  exists c,
    compare_time_periods Samples.decline 7 = Some c /\
    mean_change (period_changes c) = PInf /\
    max_change (period_changes c) = PInf /\
    min_change (period_changes c) = PInf.
Proof.
  eexists. split; [reflexivity|].
  apply (@zero_previous_period_gives_infinity (mk_row 0 (0%Z, 0))
           [mk_row 0 ((8 * Samples.day)%Z, 0); mk_row 0 ((15 * Samples.day)%Z, -5 # 1)]
           7 _ ltac:(lia) eq_refl).
  intros x [<-|[<-|[<-|[]]]] H; try reflexivity.
  exfalso. vm_compute in H. apply H. reflexivity.
Defined.

Lemma generic_limits_contain_data_witness :
  exists ax bottom top,
    plot_axes Samples.kst [Samples.disk_info] 0 13 Samples.disk_metric = Some ax /\
    ylim ax = (Num bottom, Num top) /\ 0 <= bottom /\ bottom < top.
Proof.
  destruct (@generic_limits_contain_data Samples.kst [Samples.disk_info] 0 13
              Samples.disk_metric _ eq_refl ltac:(vm_compute; discriminate))
    as (bottom & top & Hy & H0 & Hlt & _).
  { intros p [<-|[<-|[<-|[]]]]; vm_compute; discriminate. }
  eexists. exists bottom, top. split; [reflexivity|]. auto.
Defined.

Lemma percent_limits_contain_readings_witness :
  exists ax top,
    plot_axes Samples.kst [Samples.cpu_info] 0 13 Samples.cpu_metric = Some ax /\
    ylim ax = (Num 0, Num top) /\ top <= 100.
Proof.
  destruct (@percent_limits_contain_readings Samples.kst [Samples.cpu_info] 0 13
              Samples.cpu_metric _ eq_refl eq_refl)
    as (top & Hy & Ht & _).
  eexists. exists top. split; [reflexivity|]. auto.
Defined.

Lemma dashboard_grid_is_tight_witness :
  (1 <= 4)%nat /\
  ((grid_rows 4 - 1) * grid_cols 4 < 4)%nat /\
  length (Leftover.removed_subplots 4) = (grid_rows 4 * grid_cols 4 - 4)%nat.
Proof.
  assert (H : (1 <= 4)%nat) by lia.
  split; [exact H|].
  destruct (dashboard_grid_is_tight H) as (H1 & _ & _ & _ & _ & H6 & _).
  split; [exact H1|exact H6].
Defined.

Lemma report_conclusion_follows_thresholds_witness :
  exists results,
    analyze_multiple_metrics Samples.kst [Samples.cpu_metric; Samples.disk_metric]
      [Samples.cpu_info; Samples.disk_info] = Some results /\
    (conclude results = CriticalFound <->
     exists m, In m [Samples.cpu_metric; Samples.disk_metric] /\
               reaches (info_critical
                          (metrics_info_get [Samples.cpu_info; Samples.disk_info]
                             (metric m))) m).
Proof.
  eexists. split; [reflexivity|].
  assert (Hnd : NoDup (map metric [Samples.cpu_metric; Samples.disk_metric])).
  { constructor; [intros [H|[]]; discriminate|].
    constructor; [intros []|constructor]. }
  destruct (@report_conclusion_follows_thresholds Samples.kst
              [Samples.cpu_info; Samples.disk_info]
              [Samples.cpu_metric; Samples.disk_metric] _ Hnd eq_refl)
    as (H & _).
  exact H.
Defined.

Lemma process_metric_data_rows_witness :
  exists df,
    process_metric_data Samples.kst Samples.cpu_metric = Some df /\
    length df = 3%nat.
Proof.
  eexists. split; [reflexivity|].
  destruct (process_metric_data_rows Samples.kst Samples.cpu_metric) as (_ & H).
  destruct (H _ eq_refl) as (_ & Hlen & _). exact Hlen.
Defined.

Lemma calculate_statistics_summary_witness :
  exists st,
    calculate_statistics Samples.one_day = Some st /\
    count st = 4%nat /\ fl_le (Num 0) (std_squared st).
Proof.
  eexists. split; [reflexivity|].
  destruct (calculate_statistics_summary Samples.one_day) as (_ & H).
  destruct (H _ eq_refl) as (Hc & _ & _ & _ & Hs).
  split; [exact Hc|]. apply Hs. vm_compute. lia.
Defined.

Lemma analyze_metric_summary_witness :
  exists a,
    analyze_metric Samples.kst Samples.cpu_metric (Some Samples.cpu_info) = Some a /\
    data_points a = 3%nat /\ period_comparison a = None.
Proof.
  eexists. split; [reflexivity|].
  destruct (analyze_metric_summary Samples.kst Samples.cpu_metric (Some Samples.cpu_info))
    as (_ & H).
  destruct (H _ eq_refl) as (_ & Hn & _ & _ & _ & _ & _ & Hp & _).
  split; [exact Hn|]. apply Hp. vm_compute. discriminate.
Defined.

Lemma analyze_multiple_metrics_keys_witness :
  exists results,
    analyze_multiple_metrics Samples.kst [Samples.cpu_metric; Samples.empty_metric]
      [Samples.cpu_info; Samples.disk_info] = Some results /\
    (length results <= 2)%nat.
Proof.
  eexists. split; [reflexivity|].
  destruct (analyze_multiple_metrics_keys Samples.kst
              [Samples.cpu_info; Samples.disk_info]
              [Samples.cpu_metric; Samples.empty_metric]) as (_ & H).
  destruct (H _ eq_refl) as (_ & _ & _ & Hlen). exact Hlen.
Defined.

Lemma query_window_round_trip_witness :
  (3 <= date_of (fromtimestamp Samples.kst (5 * Samples.day - Samples.kst)) <= 9)%Z.
Proof.
  destruct (query_window_round_trip Samples.kst 3 9) as (_ & _ & _ & _ & _ & _ & _ & H).
  apply (H (5 * Samples.day - Samples.kst)%Z).
  vm_compute. split; discriminate.
Defined.

Lemma resample_keeps_data_witness :
  (1 <= length (plotted (resample Samples.gap)) <= length Samples.gap)%nat.
Proof.
  destruct (resample_keeps_data (mk_row 0 (0%Z, 10))
              [mk_row 0 (300000%Z, 20); mk_row 0 ((5 * ms_per_hour)%Z, 7)])
    as (_ & _ & _ & H).
  exact H.
Defined.

Lemma date_range_run_visits_every_site_witness :
  Sites.target_sites Sites2.two_sites (Some "beta"%string)
  = [("beta"%string, Samples.site)].
Proof.
  destruct (date_range_run_visits_every_site Samples.flaky_query Samples.render_ok
              Samples.dashboard_ok Sites2.two_sites (Some "beta"%string)
              Samples.start_state) as (H & _).
  apply H; reflexivity.
Defined.

Lemma file_names_are_safe_witness :
  Names.replace_space "web1" = "web1"%string.
Proof.
  destruct file_names_are_safe as (_ & _ & H & _).
  apply H. cbn. intros [E|[E|[E|[E|[]]]]]; discriminate E.
Defined.

Lemma metric_definition_lookup_witness :
  exists i before after,
    metrics_info_get [Samples.cpu_info; Samples.disk_info] "disk_read" = Some i /\
    [Samples.cpu_info; Samples.disk_info] = before ++ i :: after /\
    key i = "disk_read"%string.
Proof.
  destruct (metric_definition_lookup [Samples.cpu_info; Samples.disk_info] "disk_read")
    as (_ & H & _).
  destruct (H _ eq_refl) as (before & after & E & Hk & _).
  eexists. exists before, after. split; [reflexivity|]. split; [exact E|exact Hk].
Defined.

Lemma site_report_fatal_errors_witness :
  exists e,
    Orchestrator.generate_site_report Samples.flaky_query Samples.unit_ok Samples.plot_ok
      Samples.dashboard_ok Samples.summary_ok "alpha" Sites2.no_secret Samples.start_state
    = (inr false, {| Orchestrator.world := tt; Orchestrator.log := [e] |}).
Proof.
  destruct (site_report_fatal_errors Samples.flaky_query Samples.unit_ok Samples.plot_ok
              Samples.dashboard_ok Samples.summary_ok "alpha" Sites2.no_secret
              Samples.start_state) as (H & _).
  apply H. left. reflexivity.
Defined.

Lemma tick_days_of_month_witness :
  exists ax,
    plot_axes Samples.kst [Samples.cpu_info] 19723 19754 Samples.cpu_metric = Some ax /\
    bymonthday ax = [1; 8; 15; 22; 29; 1]%Z.
Proof.
  eexists. split; [reflexivity|].
  destruct (tick_days_of_month 19723 19754) as (_ & _ & _ & _ & H).
  rewrite (H Samples.kst [Samples.cpu_info] Samples.cpu_metric _ eq_refl).
  vm_compute. reflexivity.
Defined.

End Instances2.
